(** * Cortex Analyst chat application: conversation orchestration

    A shallow embedding of [cortex_analyst_sis_demo_app_local.py] and the
    properties of its conversation pipeline: history bookkeeping, request
    construction, content dispatch, the query-result cache, the protocol
    client, and the translation adapter.

    Conventions of the embedding.
    - A Python [str] is the list of its Unicode code points.
    - A value decoded from JSON is a [json] tree; a [dict] is an association
      list searched from the front.
    - The Streamlit session state, the memoisation store of
      [get_query_exec_result], the log of calls made to the outside world and
      the widgets written to the page form the [World] that every function
      threads.  Exceptions keep the world reached so far, as in Python.
    - The outside world (analyst API, Snowpark session, user interaction) is
      an [Env] of oracles that answer from the calls seen so far. *)

From Stdlib Require Import List ZArith NArith Lia String Ascii Bool.
From Stdlib Require Import DecimalString SpecFloat.
From Stdlib Require DecimalZ DecimalPos.
Import ListNotations.

Set Implicit Arguments.

(** ** Python strings *)

Definition char := N.
Definition pystr := list char.

(** Source literals are written as they appear in the program text and
    decoded from their UTF-8 bytes. *)
Fixpoint utf8_decode (bs : list N) : pystr :=
  match bs with
  | [] => []
  | b :: r =>
    if (b <? 128)%N then b :: utf8_decode r
    else if (b <? 224)%N then
      match r with
      | b1 :: r' => ((b mod 32) * 64 + b1 mod 64)%N :: utf8_decode r'
      | _ => []
      end
    else if (b <? 240)%N then
      match r with
      | b1 :: b2 :: r' =>
          ((b mod 16) * 4096 + (b1 mod 64) * 64 + b2 mod 64)%N
            :: utf8_decode r'
      | _ => []
      end
    else
      match r with
      | b1 :: b2 :: b3 :: r' =>
          ((b mod 8) * 262144 + (b1 mod 64) * 4096
           + (b2 mod 64) * 64 + b3 mod 64)%N :: utf8_decode r'
      | _ => []
      end
  end.

Definition u (s : string) : pystr :=
  utf8_decode (map N_of_ascii (list_ascii_of_string s)).

Definition nl : pystr := [10%N].

(** ["\n".join(ls)] *)
Fixpoint lines (ls : list pystr) : pystr :=
  match ls with
  | [] => []
  | [l] => l
  | l :: rest => l ++ nl ++ lines rest
  end.

Fixpoint str_eqb (a b : pystr) : bool :=
  match a, b with
  | [], [] => true
  | x :: a', y :: b' => (x =? y)%N && str_eqb a' b'
  | _, _ => false
  end.

(** [str(n)] for an [int]. *)
Definition str_of_Z (z : Z) : pystr := u (NilZero.string_of_int (Z.to_int z)).
Definition str_of_nat (n : nat) : pystr := str_of_Z (Z.of_nat n).

(** [text.replace("'", "''")]: every apostrophe is doubled. *)
Definition apostrophe : char := 39%N.

Fixpoint escape_single_quotes (text : pystr) : pystr :=
  match text with
  | [] => []
  | c :: r =>
    if (c =? apostrophe)%N then apostrophe :: apostrophe :: escape_single_quotes r
    else c :: escape_single_quotes r
  end.

(** [needle in hay] *)
Definition substring (needle hay : pystr) : Prop :=
  exists pre post, hay = pre ++ needle ++ post.

Fixpoint starts_with (needle hay : pystr) : bool :=
  match needle, hay with
  | [], _ => true
  | x :: n', y :: h' => (x =? y)%N && starts_with n' h'
  | _ :: _, [] => false
  end.

Fixpoint substringb (needle hay : pystr) : bool :=
  starts_with needle hay
  || match hay with
     | [] => false
     | _ :: h' => substringb needle h'
     end.

(** ** JSON values, as [json.loads] builds them *)

#[local] Set Warnings "-register-all".

Inductive json : Type :=
| JNull
| JBool (b : bool)
| JInt (z : Z)
| JFloat (f : spec_float)
| JStr (s : pystr)
| JList (items : list json)
| JDict (fields : list (pystr * json)).

Fixpoint dict_lookup (key : pystr) (fields : list (pystr * json)) : option json :=
  match fields with
  | [] => None
  | (k, v) :: rest => if str_eqb k key then Some v else dict_lookup key rest
  end.

(** [value == "literal"] *)
Definition eq_str (v : json) (lit : pystr) : bool :=
  match v with
  | JStr s => str_eqb s lit
  | _ => false
  end.

(** ** Exceptions *)

(** [OtherException] stands for any exception of a class the program never
    names - a connection error of the Snowpark session, Streamlit's
    [StreamlitDuplicateElementKey], an error inside pandas - and carries its
    [str(e)]. *)
Inductive Exn : Type :=
| KeyError (key : pystr)
| TypeError
| AttributeError
| JSONDecodeError
| RerunException
| OtherException (message : pystr).

Inductive outcome (A : Type) : Type :=
| Returns (a : A)
| Raises (e : Exn).

Arguments Raises {A} e.

(** ** Data model *)

Inductive Role := user | analyst.

(** A history entry: the dict [{"role", "content", "request_id"}]; user
    entries have no ["request_id"] key. *)
Record Message := {
  role : Role;
  content : json;
  request_id : option json
}.

Record SessionState := {
  messages : list Message;
  active_suggestion : option pystr;
  fire_API_error_notify : option bool;
  japanese_response : option bool;
  selected_semantic_model_path : pystr
}.

Record RequestBody := {
  req_messages : list Message;
  semantic_model_file : pystr;
  max_tokens : Z
}.

(** The reply of [_snowflake.send_snow_api_request]: [resp["status"]] and
    what [json.loads(resp["content"])] yields, [None] when the body is not
    JSON and [json.loads] raises. *)
Record ApiResponse := {
  status : Z;
  parsed : option json
}.

Record DataFrame := {
  columns : list pystr;
  rows : list (list json)
}.

(** [df.empty] *)
Definition empty (df : DataFrame) : bool :=
  match columns df, rows df with
  | [], _ => true
  | _, [] => true
  | _, _ => false
  end.

Record Row := { TRANSLATED_TEXT : pystr }.

(** A Snowpark call either returns or raises an exception whose [str(e)] is
    the carried message. *)
Inductive backend_result (A : Type) : Type :=
| BackendReturns (a : A)
| BackendRaises (message : pystr).

Arguments BackendRaises {A} message.

(** [get_query_exec_result] catches [SnowparkSQLException] only, so for
    [to_pandas] the class of the exception matters: the backend's own
    [SnowparkSQLException] is told apart from every other exception. *)
Inductive to_pandas_result : Type :=
| FrameReturned (df : DataFrame)
| SqlExceptionRaised (message : pystr)
| ExceptionRaised (message : pystr).

(** A frame, or a failure that is the backend's [SnowparkSQLException]. *)
Definition snowpark (r : backend_result DataFrame) : to_pandas_result :=
  match r with
  | BackendReturns df => FrameReturned df
  | BackendRaises e => SqlExceptionRaised e
  end.

Inductive SqlCall :=
| Collect (query : pystr)
| ToPandas (query : pystr).

(** [Tuple[Optional[pd.DataFrame], Optional[str]]] *)
Definition QueryExecResult := (option DataFrame * option pystr)%type.

(** What the script writes to the page, in order. *)
Inductive Widget : Type :=
| StMarkdown (body : json)
| StSubheader (body : pystr)
| StButton (label key : pystr)
| StChatMessage (name : pystr)
| StSpinner (text : pystr)
| StExpander (label : pystr) (expanded : bool)
| StCode (body : pystr)
| StError (body : pystr)
| StWrite (body : pystr)
| StTabs
| StDataframe (df : DataFrame)
| StChartsTab (df : DataFrame) (message_index : nat)
| StToast (body icon : pystr).

(** The single widget event that triggered the current script run. *)
Inductive Interaction :=
| NoInteraction
| ChatSubmitted (text : pystr)
| ButtonClicked (key : pystr).

Record World := {
  session_state : SessionState;
  query_cache : list (pystr * QueryExecResult);
  api_log : list RequestBody;
  sql_log : list SqlCall;
  page : list Widget
}.

Record Env := {
  send_snow_api_request : list RequestBody -> RequestBody -> ApiResponse;
  session_sql_collect : list SqlCall -> pystr -> backend_result (list Row);
  session_sql_to_pandas : list SqlCall -> pystr -> to_pandas_result;
  interaction : Interaction;
  (** [str(v)] of a float, list or dict, as the interpreter prints it *)
  py_repr : json -> pystr;
  (** the select boxes and the chart of [display_charts_tab] for a frame of
      two or more columns, given the widgets already on the page: [None]
      when Streamlit and pandas accept them, the exception's text otherwise *)
  charts_failure : DataFrame -> nat -> list Widget -> option pystr
}.

(** ** The state-and-exception monad of a script run *)

Definition M (A : Type) : Type := World -> outcome A * World.

Definition ret {A} (a : A) : M A := fun w => (Returns a, w).

Definition raise {A} (e : Exn) : M A := fun w => (Raises e, w).

Definition bind {A B} (c : M A) (k : A -> M B) : M B :=
  fun w =>
    match c w with
    | (Returns a, w') => k a w'
    | (Raises e, w') => (Raises e, w')
    end.

Notation "x <- c ;; k" := (bind c (fun x => k))
  (at level 61, c at next level, right associativity).
Notation "c ;; k" := (bind c (fun _ => k))
  (at level 61, right associativity).

Definition get_state : M SessionState := fun w => (Returns (session_state w), w).

Definition put_state (s : SessionState) : M unit :=
  fun w =>
    (Returns tt,
     {| session_state := s; query_cache := query_cache w;
        api_log := api_log w; sql_log := sql_log w; page := page w |}).

Definition st (w : Widget) : M unit :=
  fun wd =>
    (Returns tt,
     {| session_state := session_state wd; query_cache := query_cache wd;
        api_log := api_log wd; sql_log := sql_log wd;
        page := page wd ++ [w] |}).

Fixpoint for_each {A} (f : A -> M unit) (l : list A) : M unit :=
  match l with
  | [] => ret tt
  | x :: rest => f x ;; for_each f rest
  end.

Fixpoint for_each_from {A} (f : nat -> A -> M unit) (i : nat) (l : list A) : M unit :=
  match l with
  | [] => ret tt
  | x :: rest => f i x ;; for_each_from f (S i) rest
  end.

(** [for i, x in enumerate(l)] *)
Definition for_enumerate {A} (f : nat -> A -> M unit) (l : list A) : M unit :=
  for_each_from f 0 l.

(** A loop that appends one result per element to a fresh list. *)
Fixpoint collect_each {A B} (f : A -> M B) (l : list A) : M (list B) :=
  match l with
  | [] => ret []
  | x :: rest => y <- f x ;; ys <- collect_each f rest ;; ret (y :: ys)
  end.

(** ** Python operations on JSON values *)

(** [v[key]] *)
Definition subscript (v : json) (key : pystr) : M json :=
  match v with
  | JDict fields =>
    match dict_lookup key fields with
    | Some x => ret x
    | None => raise (KeyError key)
    end
  | _ => raise TypeError
  end.

(** [v.get(key, default)] *)
Definition dict_get (v : json) (key : pystr) (default : json) : M json :=
  match v with
  | JDict fields =>
    match dict_lookup key fields with
    | Some x => ret x
    | None => ret default
    end
  | _ => raise AttributeError
  end.

(** [for x in v]: a list yields its elements, a str its characters, a dict
    its keys; nothing else is iterable. *)
Definition iterate (v : json) : M (list json) :=
  match v with
  | JList items => ret items
  | JStr s => ret (map (fun c => JStr [c]) s)
  | JDict fields => ret (map (fun kv => JStr (fst kv)) fields)
  | _ => raise TypeError
  end.

(** A value handed to the framework where it takes a [str] - the label of
    a button, which Streamlit stores in a string field, a statement to run:
    anything else is refused with a [TypeError]. *)
Definition as_str (v : json) : M pystr :=
  match v with
  | JStr s => ret s
  | _ => raise TypeError
  end.

(** [type(v).__name__], as error messages quote it *)
Definition type_name (v : json) : pystr :=
  match v with
  | JNull => u"NoneType"
  | JBool _ => u"bool"
  | JInt _ => u"int"
  | JFloat _ => u"float"
  | JStr _ => u"str"
  | JList _ => u"list"
  | JDict _ => u"dict"
  end.

(** [a <= b] on two [str]: code point by code point, a proper prefix
    first. *)
Fixpoint str_leb (a b : pystr) : bool :=
  match a, b with
  | [], _ => true
  | _ :: _, [] => false
  | x :: a', y :: b' =>
    if (x <? y)%N then true
    else if (y <? x)%N then false
    else str_leb a' b'
  end.

(** ** The program *)

Definition AVAILABLE_SEMANTIC_MODELS_PATHS : list pystr :=
  [ u"[YOUR_DATABASE].cortex_analyst.RAW_DATA/[your_semantic_model_file_1.yaml";
    u"[YOUR_DATABASE].cortex_analyst.RAW_DATA/[your_semantic_model_file_2.yaml" ].

Definition API_ENDPOINT : pystr := u"/api/v2/cortex/analyst/message".
Definition API_TIMEOUT : Z := 500000.

Definition SUGGESTED_QUESTIONS : list pystr :=
  [ u"このデータではどのような質問ができますか？";
    u"データの概要を教えてください";
    u"最新のトレンドを分析してください" ].

(** [st.session_state.get("japanese_response", True)] *)
Definition japanese_response_enabled (s : SessionState) : bool :=
  match japanese_response s with
  | Some b => b
  | None => true
  end.

(** [st.session_state.get("fire_API_error_notify")] as a condition *)
Definition api_error_notify_pending (s : SessionState) : bool :=
  match fire_API_error_notify s with
  | Some b => b
  | None => false
  end.

Definition set_messages (ms : list Message) (s : SessionState) : SessionState :=
  {| messages := ms;
     active_suggestion := active_suggestion s;
     fire_API_error_notify := fire_API_error_notify s;
     japanese_response := japanese_response s;
     selected_semantic_model_path := selected_semantic_model_path s |}.

Definition set_active_suggestion (a : option pystr) (s : SessionState) : SessionState :=
  {| messages := messages s;
     active_suggestion := a;
     fire_API_error_notify := fire_API_error_notify s;
     japanese_response := japanese_response s;
     selected_semantic_model_path := selected_semantic_model_path s |}.

Definition set_fire_API_error_notify (b : bool) (s : SessionState) : SessionState :=
  {| messages := messages s;
     active_suggestion := active_suggestion s;
     fire_API_error_notify := Some b;
     japanese_response := japanese_response s;
     selected_semantic_model_path := selected_semantic_model_path s |}.

Definition modify_state (f : SessionState -> SessionState) : M unit :=
  s <- get_state ;; put_state (f s).

(** [st.session_state.messages.append(m)] *)
Definition append_message (m : Message) : M unit :=
  modify_state (fun s => set_messages (messages s ++ [m]) s).

(** [contains_japanese]: the first character in one of the three ranges
    ends the scan. *)
Definition is_japanese_char (c : char) : bool :=
  ((0x3040 <=? c)%N && (c <=? 0x309F)%N)
  || ((0x30A0 <=? c)%N && (c <=? 0x30FF)%N)
  || ((0x4E00 <=? c)%N && (c <=? 0x9FAF)%N).

Fixpoint contains_japanese (text : pystr) : bool :=
  match text with
  | [] => false
  | c :: rest => if is_japanese_char c then true else contains_japanese rest
  end.

Definition translate_query (text : pystr) : pystr :=
  lines [ [];
          u"        SELECT SNOWFLAKE.CORTEX.TRANSLATE(";
          u"            '" ]
  ++ escape_single_quotes text
  ++ lines [ u"',  -- シングルクォートをエスケープ";
             u"            'en',  -- 元の言語（英語）";
             u"            'ja'   -- 翻訳先の言語（日本語）";
             u"        ) as translated_text";
             u"        " ].

Definition japanese_instruction : pystr :=
  lines [ [];
          [];
          u"【重要】以下の点に従って回答してください：";
          u"1. 回答は必ず日本語で行ってください";
          u"2. データ分析の結果や説明は日本語で分かりやすく記述してください";
          u"3. 数値や統計情報には適切な日本語の説明を添えてください";
          u"4. 提案やインサイトも日本語で提供してください";
          u"5. 専門用語は日本語で説明してください";
          [];
          u"質問: " ].

Definition text_block (text : pystr) : json :=
  JDict [ (u"type", JStr (u"text")); (u"text", JStr text) ].

Definition suggestions_block (suggestions : list pystr) : json :=
  JDict [ (u"type", JStr (u"suggestions"));
          (u"suggestions", JList (map JStr suggestions)) ].

(** [max_entries] of the [st.cache_data] decorator on
    [get_query_exec_result]. *)
Definition max_entries : nat := 1000.

Section Program.

Variable env : Env.

(** *** Calls to the outside world, logged in the [World] *)

Definition log_sql (c : SqlCall) (w : World) : World :=
  {| session_state := session_state w; query_cache := query_cache w;
     api_log := api_log w; sql_log := sql_log w ++ [c]; page := page w |}.

Definition log_api (r : RequestBody) (w : World) : World :=
  {| session_state := session_state w; query_cache := query_cache w;
     api_log := api_log w ++ [r]; sql_log := sql_log w; page := page w |}.

Definition set_query_cache (c : list (pystr * QueryExecResult)) (w : World) : World :=
  {| session_state := session_state w; query_cache := c;
     api_log := api_log w; sql_log := sql_log w; page := page w |}.

(** [session.sql(query).collect()] *)
Definition sql_collect (query : pystr) : M (backend_result (list Row)) :=
  fun w => (Returns (session_sql_collect env (sql_log w) query),
            log_sql (Collect query) w).

(** [session.sql(query).to_pandas()] *)
Definition sql_to_pandas (query : pystr) : M to_pandas_result :=
  fun w => (Returns (session_sql_to_pandas env (sql_log w) query),
            log_sql (ToPandas query) w).

(** [_snowflake.send_snow_api_request("POST", API_ENDPOINT, {}, {}, body,
    None, API_TIMEOUT)] *)
Definition snow_api_request (body : RequestBody) : M ApiResponse :=
  fun w => (Returns (send_snow_api_request env (api_log w) body),
            log_api body w).

(** [st.button(label, key=key)]: true in the run its click triggered.  The
    button is recorded on the page with its key.  Streamlit raises
    [StreamlitDuplicateElementKey] for a key that a button of the same run
    already carries; the embedding records the second button instead, and
    the keys on a page can be read off with [widget_keys]. *)
Definition st_button (label key : pystr) : M bool :=
  st (StButton label key) ;;
  ret match interaction env with
      | ButtonClicked k => str_eqb k key
      | _ => false
      end.

(** [st.chat_input(...)] *)
Definition st_chat_input : option pystr :=
  match interaction env with
  | ChatSubmitted text => Some text
  | _ => None
  end.

(** [str(v)] as an f-string field prints it. *)
Definition format (v : json) : pystr :=
  match v with
  | JStr s => s
  | JInt z => str_of_Z z
  | JNull => u"None"
  | JBool true => u"True"
  | JBool false => u"False"
  | _ => py_repr env v
  end.

(** *** translate_to_japanese

    The only step of the [try] body that can raise is the Snowpark call, so
    the [except Exception] handler is the [BackendRaises] branch. *)
Definition translate_to_japanese (text : pystr) : M pystr :=
  if contains_japanese text then ret text
  else
    let query := translate_query text in
    result <- sql_collect query ;;
    match result with
    | BackendReturns (row :: _) => ret (TRANSLATED_TEXT row)
    | BackendReturns [] => ret text
    | BackendRaises e =>
        st (StError (u"翻訳エラー: " ++ e)) ;;
        ret text
    end.

(** [translate_to_japanese] on a value that need not be a [str]: JSON
    content can hold any value under ["text"] or in ["suggestions"], and the
    function's [try] covers its whole body.  The scan of
    [contains_japanese] raises [TypeError] on a value that is not iterable,
    and on an element that cannot be compared with a [str]; it ends the
    function silently when an element of a list, or a key of a dict, lies in
    one of the three ranges; otherwise [text.replace] raises
    [AttributeError].  The handler shows the error and returns the value as
    it came. *)
Definition in_japanese_ranges (s : pystr) : bool :=
  (str_leb [0x3040%N] s && str_leb s [0x309F%N])
  || (str_leb [0x30A0%N] s && str_leb s [0x30FF%N])
  || (str_leb [0x4E00%N] s && str_leb s [0x9FAF%N]).

(** The scan over the elements of a value that is not a [str]: [inl] its
    result, [inr] the text of the [TypeError] of the first comparison that
    fails. *)
Fixpoint scan_japanese (elements : list json) : bool + pystr :=
  match elements with
  | [] => inl false
  | JStr s :: rest => if in_japanese_ranges s then inl true else scan_japanese rest
  | v :: _ =>
      inr (u"'<=' not supported between instances of 'str' and '"
           ++ type_name v ++ u"'")
  end.

Definition translation_error (v : json) (e : pystr) : M json :=
  st (StError (u"翻訳エラー: " ++ e)) ;;
  ret v.

Definition scan_and_replace (v : json) (elements : list json) : M json :=
  match scan_japanese elements with
  | inl true => ret v
  | inl false =>
      translation_error v
        (u"'" ++ type_name v ++ u"' object has no attribute 'replace'")
  | inr e => translation_error v e
  end.

Definition translate_value (v : json) : M json :=
  match v with
  | JStr text =>
      translated <- translate_to_japanese text ;;
      ret (JStr translated)
  | JList items => scan_and_replace v items
  | JDict fields => scan_and_replace v (map (fun kv => JStr (fst kv)) fields)
  | _ => translation_error v (u"'" ++ type_name v ++ u"' object is not iterable")
  end.

(** *** translate_message_content *)
Definition translate_item (item : json) : M json :=
  ty <- subscript item (u"type") ;;
  if eq_str ty (u"text") then
    text <- subscript item (u"text") ;;
    translated_text <- translate_value text ;;
    ret (JDict [ (u"type", JStr (u"text")); (u"text", translated_text) ])
  else if eq_str ty (u"suggestions") then
    suggestions <- subscript item (u"suggestions") ;;
    suggestions <- iterate suggestions ;;
    translated_suggestions <- collect_each translate_value suggestions ;;
    ret (JDict [ (u"type", JStr (u"suggestions"));
                 (u"suggestions", JList translated_suggestions) ])
  else ret item.

Definition translate_message_content (content : json) : M json :=
  s <- get_state ;;
  if negb (japanese_response_enabled s) then ret content
  else
    items <- iterate content ;;
    translated_content <- collect_each translate_item items ;;
    ret (JList translated_content).

(** *** reset_session_state *)
Definition reset_session_state : M unit :=
  modify_state (fun s => set_active_suggestion None (set_messages [] s)).

(** *** handle_error_notifications *)
Definition handle_error_notifications : M unit :=
  s <- get_state ;;
  if api_error_notify_pending s then
    st (StToast (u"APIエラーが発生しました！") (u"🚨")) ;;
    modify_state (set_fire_API_error_notify false)
  else ret tt.

(** *** enhance_user_prompt *)
Definition enhance_user_prompt (prompt : pystr) : M pystr :=
  s <- get_state ;;
  if negb (japanese_response_enabled s) then ret prompt
  else ret (japanese_instruction ++ prompt).

(** *** get_analyst_response *)
Definition error_message (status : Z) (request_id error_code message : json) : pystr :=
  lines [ [];
          u"🚨 アナリストAPIエラーが発生しました 🚨";
          [];
          u"* レスポンスコード: `" ]
  ++ str_of_Z status
  ++ lines [ u"`"; u"* リクエストID: `" ]
  ++ format request_id
  ++ lines [ u"`"; u"* エラーコード: `" ]
  ++ format error_code
  ++ lines [ u"`"; []; u"メッセージ:"; [] ]
  ++ format message
  ++ lines [ []; []; u"        " ].

Definition get_analyst_response (msgs : list Message) : M (json * option pystr) :=
  s <- get_state ;;
  let request_body :=
    {| req_messages := msgs;
       semantic_model_file := u"@" ++ selected_semantic_model_path s;
       max_tokens := 40000 |} in
  resp <- snow_api_request request_body ;;
  parsed_content <- match parsed resp with
                    | Some v => ret v
                    | None => raise JSONDecodeError
                    end ;;
  if (status resp <? 400)%Z then ret (parsed_content, None)
  else
    request_id <- dict_get parsed_content (u"request_id") (JStr (u"N/A")) ;;
    error_code <- dict_get parsed_content (u"error_code") (JStr (u"N/A")) ;;
    message <- dict_get parsed_content (u"message") (JStr (u"詳細不明")) ;;
    ret (parsed_content,
         Some (error_message (status resp) request_id error_code message)).

(** *** get_query_exec_result

    The decorated body: run the query, turn the backend's
    [SnowparkSQLException] into the error half of the pair.  Any other
    exception leaves the function. *)
Definition get_query_exec_result_body (query : pystr) : M QueryExecResult :=
  r <- sql_to_pandas query ;;
  match r with
  | FrameReturned df => ret (Some df, None)
  | SqlExceptionRaised e => ret (None, Some e)
  | ExceptionRaised e => raise (OtherException e)
  end.

Fixpoint cache_find (query : pystr) (c : list (pystr * QueryExecResult))
  : option QueryExecResult :=
  match c with
  | [] => None
  | (k, v) :: rest => if str_eqb k query then Some v else cache_find query rest
  end.

Fixpoint cache_remove (query : pystr) (c : list (pystr * QueryExecResult))
  : list (pystr * QueryExecResult) :=
  match c with
  | [] => []
  | (k, v) :: rest =>
    if str_eqb k query then cache_remove query rest
    else (k, v) :: cache_remove query rest
  end.

(** Modelled from the spec: the memoising decorator
    [st.cache_data(show_spinner=False, max_entries=1000)] belongs to the UI
    framework and is not part of the program text.  Following sections 3 and
    4.3 of the specification it keys the store by the exact query string,
    holds at most one entry per query, serves a stored entry without running
    the body, stores whatever the body returns, and beyond [max_entries]
    discards the least recently used entries.  A call whose body raises
    stores nothing.  The store is kept most recently used first. *)
Definition st_cache_data (body : pystr -> M QueryExecResult) (query : pystr)
  : M QueryExecResult :=
  fun w =>
    match cache_find query (query_cache w) with
    | Some r =>
        (Returns r,
         set_query_cache ((query, r) :: cache_remove query (query_cache w)) w)
    | None =>
        match body query w with
        | (Returns r, w') =>
            (Returns r,
             set_query_cache
               (firstn max_entries ((query, r) :: cache_remove query (query_cache w')))
               w')
        | (Raises e, w') => (Raises e, w')
        end
    end.

Definition get_query_exec_result : pystr -> M QueryExecResult :=
  st_cache_data get_query_exec_result_body.

(** *** display_charts_tab

    A frame of fewer than two columns gets the note.  For a wider frame the
    three select boxes, keyed [x_col_select_<message_index>],
    [y_col_select_<message_index>] and [chart_type_<message_index>], and the
    chart drawn from the user's selections are recorded as one widget when
    the outside world accepts them; when it does not - a key that is already
    on the page, a selection pandas cannot index - the exception leaves the
    function. *)
Definition display_charts_tab (df : DataFrame) (message_index : nat) : M unit :=
  if (2 <=? List.length (columns df))%nat then
    fun w =>
      match charts_failure env df message_index (page w) with
      | None => st (StChartsTab df message_index) w
      | Some e => raise (OtherException e) w
      end
  else st (StWrite (u"チャートの描画には少なくとも2列が必要です")).

(** *** display_sql_query *)
Definition display_sql_query (sql : pystr) (message_index : nat) : M unit :=
  st (StExpander (u"SQLクエリ") false) ;;
  st (StCode sql) ;;
  st (StExpander (u"結果") true) ;;
  st (StSpinner (u"SQLを実行中...")) ;;
  r <- get_query_exec_result sql ;;
  match r with
  | (None, err_msg) =>
      st (StError (u"生成されたSQLクエリを実行できませんでした。エラー: "
                   ++ match err_msg with
                      | Some e => e
                      | None => u"None"
                      end))
  | (Some df, _) =>
      if empty df then st (StWrite (u"クエリはデータを返しませんでした"))
      else
        st StTabs ;;
        st (StDataframe df) ;;
        display_charts_tab df message_index
  end.

(** *** display_message_content *)
Definition suggestion_key (message_index suggestion_index : nat) : pystr :=
  u"suggestion_" ++ str_of_nat message_index ++ u"_" ++ str_of_nat suggestion_index.

Definition display_suggestion (message_index suggestion_index : nat)
    (suggestion : json) : M unit :=
  suggestion <- as_str suggestion ;;
  clicked <- st_button suggestion (suggestion_key message_index suggestion_index) ;;
  if clicked then modify_state (set_active_suggestion (Some suggestion))
  else ret tt.

Definition display_item (message_index : nat) (item : json) : M unit :=
  ty <- subscript item (u"type") ;;
  if eq_str ty (u"text") then
    text <- subscript item (u"text") ;;
    st (StMarkdown text)
  else if eq_str ty (u"suggestions") then
    st (StSubheader (u"💡 関連する質問")) ;;
    suggestions <- subscript item (u"suggestions") ;;
    suggestions <- iterate suggestions ;;
    for_enumerate (display_suggestion message_index) suggestions
  else if eq_str ty (u"sql") then
    statement <- subscript item (u"statement") ;;
    statement <- as_str statement ;;
    display_sql_query statement message_index
  else ret tt.

Definition display_message_content (content : json) (message_index : nat) : M unit :=
  items <- iterate content ;;
  for_each (display_item message_index) items.

(** *** display_conversation *)
Definition role_name (r : Role) : pystr :=
  match r with
  | user => u"user"
  | analyst => u"analyst"
  end.

Definition display_conversation : M unit :=
  s <- get_state ;;
  for_enumerate (fun idx message =>
                   st (StChatMessage (role_name (role message))) ;;
                   display_message_content (content message) idx)
                (messages s).

(** *** process_user_input

    [time.sleep(1)] changes nothing that is modelled.  [st.rerun()] ends the
    script run by raising. *)
Definition user_message (text : pystr) : Message :=
  {| role := user; content := JList [text_block text]; request_id := None |}.

(** The [if error_msg is None: ... else: ...] block that builds
    [analyst_message]. *)
Definition build_analyst_message (response : json) (error_msg : option pystr)
  : M Message :=
  match error_msg with
  | None =>
      message <- subscript response (u"message") ;;
      content0 <- subscript message (u"content") ;;
      s <- get_state ;;
      content1 <- (if japanese_response_enabled s
                   then translate_message_content content0
                   else ret content0) ;;
      rid <- subscript response (u"request_id") ;;
      ret {| role := analyst; content := content1; request_id := Some rid |}
  | Some error_msg =>
      s <- get_state ;;
      error_text <- (if japanese_response_enabled s
                     then translate_to_japanese error_msg
                     else ret error_msg) ;;
      rid <- subscript response (u"request_id") ;;
      modify_state (set_fire_API_error_notify true) ;;
      ret {| role := analyst; content := JList [text_block error_text];
             request_id := Some rid |}
  end.

Definition process_user_input (prompt : pystr) : M unit :=
  enhanced_prompt <- enhance_user_prompt prompt ;;
  let display_message := user_message prompt in
  let api_message := user_message enhanced_prompt in
  append_message display_message ;;
  st (StChatMessage (u"user")) ;;
  s <- get_state ;;
  let user_msg_index := (List.length (messages s) - 1)%nat in
  display_message_content (content display_message) user_msg_index ;;
  st (StChatMessage (u"analyst")) ;;
  st (StSpinner (u"アナリストからの応答を待っています...")) ;;
  s <- get_state ;;
  let api_messages := removelast (messages s) ++ [api_message] in
  r <- get_analyst_response api_messages ;;
  analyst_message <- build_analyst_message (fst r) (snd r) ;;
  append_message analyst_message ;;
  raise RerunException.

(** *** handle_user_inputs *)
Definition handle_user_inputs : M unit :=
  let user_input := st_chat_input in
  match user_input with
  | Some (c :: text) => process_user_input (c :: text)
  | _ =>
    s <- get_state ;;
    match active_suggestion s with
    | Some suggestion =>
        modify_state (set_active_suggestion None) ;;
        process_user_input suggestion
    | None => ret tt
    end
  end.

(** *** display_initial_suggestions

    The three buttons sit in three columns; the column layout is not
    recorded on the page. *)
Definition initial_suggestion (n : nat) (question : pystr) : M unit :=
  clicked <- st_button question (u"initial_suggestion_" ++ str_of_nat (S n)) ;;
  if clicked then process_user_input question else ret tt.

Definition display_initial_suggestions : M unit :=
  st (StSubheader (u"💡 こんな質問ができます")) ;;
  for_enumerate initial_suggestion SUGGESTED_QUESTIONS.

End Program.

(** ** Derived notions used by the statements *)

Definition history (w : World) : list Message := messages (session_state w).

(** Consecutive submissions, each run on the world the previous one left. *)
Fixpoint submit_all (env : Env) (prompts : list pystr) (w : World) : World :=
  match prompts with
  | [] => w
  | prompt :: rest => submit_all env rest (snd (process_user_input env prompt w))
  end.

(** A submission runs to completion when it reaches [st.rerun()]. *)
Definition completes (env : Env) (prompt : pystr) (w : World) : Prop :=
  fst (process_user_input env prompt w) = Raises RerunException.

Fixpoint all_complete (env : Env) (prompts : list pystr) (w : World) : Prop :=
  match prompts with
  | [] => True
  | prompt :: rest =>
      completes env prompt w
      /\ all_complete env rest (snd (process_user_input env prompt w))
  end.

(** The turns of a conversation: each prompt's user message followed by
    the analyst's reply. *)
Fixpoint turns (prompts : list pystr) (replies : list Message) : list Message :=
  match prompts, replies with
  | prompt :: ps, reply :: rs => user_message prompt :: reply :: turns ps rs
  | _, _ => []
  end.

(** The request [get_analyst_response] sends for a message list. *)
Definition request_for (msgs : list Message) (w : World) : RequestBody :=
  {| req_messages := msgs;
     semantic_model_file := u"@" ++ selected_semantic_model_path (session_state w);
     max_tokens := 40000 |}.

(** The text of the turn as transmitted. *)
Definition transmission_text (prompt : pystr) (w : World) : pystr :=
  if japanese_response_enabled (session_state w)
  then japanese_instruction ++ prompt
  else prompt.

(** [parsed_content.get(key, fallback)] on a JSON object *)
Definition field_or (key : pystr) (fallback : pystr) (fields : list (pystr * json)) : json :=
  match dict_lookup key fields with
  | Some v => v
  | None => JStr fallback
  end.

(** The code points of the target script, as the specification lists
    them: Hiragana, Katakana, CJK ideographs. *)
Definition in_target_script (c : char) : Prop :=
  (0x3040 <= c <= 0x309F)%N \/ (0x30A0 <= c <= 0x30FF)%N \/ (0x4E00 <= c <= 0x9FAF)%N.

(** *** Content blocks of the specification's data model *)

Inductive ContentBlock : Type :=
| Text (text : pystr)
| Suggestions (items : list pystr)
| Query (statement : pystr).

Fixpoint all_strings (l : list json) : option (list pystr) :=
  match l with
  | [] => Some []
  | JStr s :: rest =>
    match all_strings rest with
    | Some ss => Some (s :: ss)
    | None => None
    end
  | _ => None
  end.

(** The specification's [classify] on one raw element: dispatch on the
    ["type"] discriminator, nothing for an unrecognised one. *)
Definition classify_item (item : json) : option ContentBlock :=
  match item with
  | JDict fields =>
    match dict_lookup (u"type") fields with
    | Some ty =>
      if eq_str ty (u"text") then
        match dict_lookup (u"text") fields with
        | Some (JStr text) => Some (Text text)
        | _ => None
        end
      else if eq_str ty (u"suggestions") then
        match dict_lookup (u"suggestions") fields with
        | Some (JList items) =>
          match all_strings items with
          | Some ss => Some (Suggestions ss)
          | None => None
          end
        | _ => None
        end
      else if eq_str ty (u"sql") then
        match dict_lookup (u"statement") fields with
        | Some (JStr statement) => Some (Query statement)
        | _ => None
        end
      else None
    | None => None
    end
  | _ => None
  end.

Fixpoint classify (raw_content : list json) : list ContentBlock :=
  match raw_content with
  | [] => []
  | item :: rest =>
    match classify_item item with
    | Some b => b :: classify rest
    | None => classify rest
    end
  end.

Definition recognised (ty : json) : bool :=
  eq_str ty (u"text") || eq_str ty (u"suggestions") || eq_str ty (u"sql").

(** A raw element that carries a discriminator and, when the discriminator
    is a known one, the payload field of that kind. *)
Definition well_formed (item : json) : Prop :=
  exists fields ty,
    item = JDict fields
    /\ dict_lookup (u"type") fields = Some ty
    /\ (recognised ty = false \/ classify_item item <> None).

(** What the renderer does with a block of each kind. *)
Definition render_block (env : Env) (message_index : nat) (b : ContentBlock) : M unit :=
  match b with
  | Text text => st (StMarkdown (JStr text))
  | Suggestions items =>
      st (StSubheader (u"💡 関連する質問")) ;;
      for_enumerate (fun i s => display_suggestion env message_index i (JStr s)) items
  | Query statement => display_sql_query env statement message_index
  end.

(** *** Concrete sessions and environments *)

Definition fresh_session : SessionState :=
  {| messages := [];
     active_suggestion := None;
     fire_API_error_notify := None;
     japanese_response := Some true;
     selected_semantic_model_path :=
       u"[YOUR_DATABASE].cortex_analyst.RAW_DATA/[your_semantic_model_file_1.yaml" |}.

Definition fresh_world : World :=
  {| session_state := fresh_session; query_cache := [];
     api_log := []; sql_log := []; page := [] |}.

(** An outside world that always gives the same answers, accepts every
    chart, and whose failing [frame] is a [SnowparkSQLException]. *)
Definition constant_env (reply : ApiResponse) (translation : backend_result (list Row))
    (frame : backend_result DataFrame) (i : Interaction) : Env :=
  {| send_snow_api_request := fun _ _ => reply;
     session_sql_collect := fun _ _ => translation;
     session_sql_to_pandas := fun _ _ => snowpark frame;
     interaction := i;
     py_repr := fun _ => u"?";
     charts_failure := fun _ _ _ => None |}.

Definition one_row_frame : DataFrame :=
  {| columns := [u"N"]; rows := [[JInt 1]] |}.

Definition success_reply : ApiResponse :=
  {| status := 200;
     parsed := Some (JDict [ (u"message",
                              JDict [ (u"role", JStr (u"analyst"));
                                      (u"content", JList [text_block (u"答えは1です")]) ]);
                             (u"request_id", JStr (u"r-1")) ]) |}.

Definition not_found_reply : ApiResponse :=
  {| status := 404;
     parsed := Some (JDict [ (u"error_code", JStr (u"E1"));
                             (u"message", JStr (u"bad")) ]) |}.

Definition not_found_reply_with_id : ApiResponse :=
  {| status := 404;
     parsed := Some (JDict [ (u"request_id", JStr (u"r-2"));
                             (u"error_code", JStr (u"E1"));
                             (u"message", JStr (u"bad")) ]) |}.

Definition empty_failure_reply : ApiResponse :=
  {| status := 400; parsed := Some (JDict []) |}.

Definition bad_gateway_reply : ApiResponse :=
  {| status := 502; parsed := None |}.

Definition quiet_env (reply : ApiResponse) : Env :=
  constant_env reply (BackendReturns []) (BackendReturns one_row_frame) NoInteraction.

Definition sample_payload : list json :=
  [ JDict [ (u"type", JStr (u"text")); (u"text", JStr (u"A")) ];
    JDict [ (u"type", JStr (u"sql")); (u"statement", JStr (u"SELECT 1")) ];
    JDict [ (u"type", JStr (u"bogus")) ] ].

(** *** Steps that leave the conversation alone

    [untouched w w'] relates two worlds with the same session state, cache
    and API log; a [passive] computation only ever moves between such worlds
    and never asks for a rerun. *)
Definition untouched (w w' : World) : Prop :=
  session_state w' = session_state w
  /\ query_cache w' = query_cache w
  /\ api_log w' = api_log w.

Definition passive {A} (c : M A) : Prop :=
  forall w, untouched w (snd (c w)) /\ fst (c w) <> Raises RerunException.

(** The world once a submission has appended the user's message and
    written the chat widgets, just before the request is sent. *)
Definition opened_turn (prompt : pystr) (w : World) : World :=
  snd ((append_message (user_message prompt) ;;
        st (StChatMessage (u"user")) ;;
        st (StMarkdown (JStr prompt)) ;;
        st (StChatMessage (u"analyst")) ;;
        st (StSpinner (u"アナリストからの応答を待っています..."))) w).

(** The rest of a submission once the protocol client has answered. *)
Definition close_turn (env : Env) (r : json * option pystr) : M unit :=
  analyst_message <- build_analyst_message env (fst r) (snd r) ;;
  append_message analyst_message ;;
  raise RerunException.

(** The analyst entry a failed call leaves in the history. *)
Definition error_entry (error_text : pystr) (rid : json) : Message :=
  {| role := analyst; content := JList [text_block error_text];
     request_id := Some rid |}.

(** [same_conversation w w']: the history, the stored suggestion, the
    settings, the cache and the API log agree; only the notification flag,
    the Snowpark log and the page may differ.  A [calm] computation stays
    within one conversation and never asks for a rerun. *)
Definition same_conversation (w w' : World) : Prop :=
  history w' = history w
  /\ active_suggestion (session_state w') = active_suggestion (session_state w)
  /\ japanese_response (session_state w') = japanese_response (session_state w)
  /\ selected_semantic_model_path (session_state w')
     = selected_semantic_model_path (session_state w)
  /\ query_cache w' = query_cache w
  /\ api_log w' = api_log w.

Definition calm {A} (c : M A) : Prop :=
  forall w, same_conversation w (snd (c w)) /\ fst (c w) <> Raises RerunException.

Definition replies_as_analyst (c : M Message) : Prop :=
  forall w m, fst (c w) = Returns m -> role m = analyst.

(** What the body of [get_query_exec_result] makes of a backend answer:
    the pair it returns, or the exception that leaves it. *)
Definition exec_outcome (r : to_pandas_result) : outcome QueryExecResult :=
  match r with
  | FrameReturned df => Returns (Some df, None)
  | SqlExceptionRaised e => Returns (None, Some e)
  | ExceptionRaised e => Raises (OtherException e)
  end.






Definition failing_backend_env : Env :=
  constant_env success_reply (BackendReturns [])
    (BackendRaises (u"SQL compilation error")) NoInteraction.

(** A session in which a suggestion has been clicked and stored. *)
Definition world_with_suggestion (suggestion : pystr) : World :=
  snd (modify_state (set_active_suggestion (Some suggestion)) fresh_world).

(** *** Notions used by the properties of the remaining functions *)

(** The world of a submission once its request has been sent. *)
Definition submitted (prompt : pystr) (w : World) : World :=
  log_api (request_for (history w ++ [user_message (transmission_text prompt w)]) w)
    (opened_turn prompt w).

(** The analyst entry of a successful call. *)
Definition reply_entry (content1 rid : json) : Message :=
  {| role := analyst; content := content1; request_id := Some rid |}.

(** The part of [main] after [show_header_and_sidebar()]: the initial
    suggestions on an empty history, the conversation, the user's input and
    the error notification.  The first-run reset and the header and sidebar
    widgets that precede it are page chrome outside this embedding. *)
Definition main_after_header (env : Env) : M unit :=
  s <- get_state ;;
  (if Nat.eqb (List.length (messages s)) 0
   then display_initial_suggestions env
   else ret tt) ;;
  display_conversation env ;;
  handle_user_inputs env ;;
  handle_error_notifications.

(** No button was clicked to trigger the run. *)
Definition no_button_clicked (env : Env) : Prop :=
  forall key, interaction env <> ButtonClicked key.

(** What a rendering step may do: append widgets to the page and
    [to_pandas] calls to the Snowpark log, fill the query cache, and store a
    clicked suggestion.  The history, the notification flag, the settings and
    the API log stay as they are, no rerun is requested, and without a click
    the session state is unchanged. *)
Definition render_frame (w w' : World) : Prop :=
  history w' = history w
  /\ fire_API_error_notify (session_state w') = fire_API_error_notify (session_state w)
  /\ japanese_response (session_state w') = japanese_response (session_state w)
  /\ selected_semantic_model_path (session_state w')
     = selected_semantic_model_path (session_state w)
  /\ api_log w' = api_log w
  /\ (exists widgets, page w' = page w ++ widgets)
  /\ (exists queries, sql_log w' = sql_log w ++ map ToPandas queries).

Definition rendering (env : Env) {A} (c : M A) : Prop :=
  forall w,
    render_frame w (snd (c w))
    /\ fst (c w) <> Raises RerunException
    /\ (no_button_clicked env -> session_state (snd (c w)) = session_state w).

(** The widgets [display_sql_query] writes before and after running the
    query. *)
Definition sql_header_widgets (sql : pystr) : list Widget :=
  [ StExpander (u"SQLクエリ") false;
    StCode sql;
    StExpander (u"結果") true;
    StSpinner (u"SQLを実行中...") ].

Definition sql_result_widgets (r : QueryExecResult) (message_index : nat) : list Widget :=
  match r with
  | (None, err_msg) =>
      [ StError (u"生成されたSQLクエリを実行できませんでした。エラー: "
                 ++ match err_msg with
                    | Some e => e
                    | None => u"None"
                    end) ]
  | (Some df, _) =>
      if empty df then [ StWrite (u"クエリはデータを返しませんでした") ]
      else if (2 <=? List.length (columns df))%nat
           then [ StTabs; StDataframe df; StChartsTab df message_index ]
           else [ StTabs; StDataframe df;
                  StWrite (u"チャートの描画には少なくとも2列が必要です") ]
  end.

(** The result leaves the charts tab nothing to select on: no frame, an
    empty frame, or a frame of fewer than two columns. *)
Definition without_chart (r : QueryExecResult) : bool :=
  match r with
  | (None, _) => true
  | (Some df, _) => empty df || negb (2 <=? List.length (columns df))%nat
  end.

(** The world after writing the widgets one after the other. *)
Definition write_all (widgets : list Widget) (w : World) : World :=
  snd (for_each st widgets w).

(** *** Entries of text and suggestions *)

Definition is_query (b : ContentBlock) : bool :=
  match b with
  | Query _ => true
  | _ => false
  end.

Definition is_suggestions (b : ContentBlock) : bool :=
  match b with
  | Suggestions _ => true
  | _ => false
  end.

(** A history entry without a query block and with at most one block of
    suggestions: its content is a list of well-formed elements, such as a
    user's message or an analyst's answer in words. *)
Definition chat_entry (m : Message) : Prop :=
  exists items,
    content m = JList items
    /\ Forall well_formed items
    /\ existsb is_query (classify items) = false
    /\ (List.length (filter is_suggestions (classify items)) <= 1)%nat.

(** The buttons of a suggestions block, numbered from [i]. *)
Fixpoint suggestion_buttons (message_index i : nat) (items : list pystr) : list Widget :=
  match items with
  | [] => []
  | s :: rest =>
      StButton s (suggestion_key message_index i)
        :: suggestion_buttons message_index (S i) rest
  end.

(** The widgets of a text block and of a suggestions block. *)
Definition chat_block_widgets (message_index : nat) (b : ContentBlock) : list Widget :=
  match b with
  | Text text => [ StMarkdown (JStr text) ]
  | Suggestions items =>
      StSubheader (u"💡 関連する質問") :: suggestion_buttons message_index 0 items
  | Query _ => []
  end.

Definition message_widgets (message_index : nat) (m : Message) : list Widget :=
  StChatMessage (role_name (role m))
    :: match content m with
       | JList items => flat_map (chat_block_widgets message_index) (classify items)
       | _ => []
       end.

Fixpoint conversation_widgets (message_index : nat) (ms : list Message) : list Widget :=
  match ms with
  | [] => []
  | m :: rest =>
      message_widgets message_index m ++ conversation_widgets (S message_index) rest
  end.

(** The keys of the buttons among some widgets, in page order.  Streamlit
    accepts the buttons of a run only if no key comes twice. *)
Fixpoint widget_keys (widgets : list Widget) : list pystr :=
  match widgets with
  | [] => []
  | StButton _ key :: rest => key :: widget_keys rest
  | _ :: rest => widget_keys rest
  end.

(** A computation that returns after writing exactly [widgets], without a
    call to the backend and without touching the query cache. *)
Definition writes (widgets : list Widget) (c : M unit) : Prop :=
  forall w,
    fst (c w) = Returns tt
    /\ page (snd (c w)) = page w ++ widgets
    /\ sql_log (snd (c w)) = sql_log w
    /\ query_cache (snd (c w)) = query_cache w.

(** A reply in words with two follow-up questions, and the session after
    one question answered by it. *)
Definition suggesting_reply : ApiResponse :=
  {| status := 200;
     parsed :=
       Some (JDict [ (u"message",
                      JDict [ (u"role", JStr (u"analyst"));
                              (u"content",
                               JList [ text_block (u"売上は100です");
                                       suggestions_block [ u"月別の売上は？";
                                                           u"地域別の売上は？" ] ]) ]);
                     (u"request_id", JStr (u"r-3")) ]) |}.

Definition sample_conversation : World :=
  snd (process_user_input (quiet_env suggesting_reply) (u"売上は？") fresh_world).

Definition initial_suggestion_widgets : list Widget :=
  [ StSubheader (u"💡 こんな質問ができます");
    StButton (u"このデータではどのような質問ができますか？") (u"initial_suggestion_1");
    StButton (u"データの概要を教えてください") (u"initial_suggestion_2");
    StButton (u"最新のトレンドを分析してください") (u"initial_suggestion_3") ].

(** The raw JSON form of a content block. *)
Definition raw_block (b : ContentBlock) : json :=
  match b with
  | Text text => text_block text
  | Suggestions items => suggestions_block items
  | Query statement =>
      JDict [ (u"type", JStr (u"sql")); (u"statement", JStr statement) ]
  end.

(** Every text of the block already contains target-script characters. *)
Definition block_in_target_script (b : ContentBlock) : Prop :=
  match b with
  | Text text => contains_japanese text = true
  | Suggestions items => Forall (fun s => contains_japanese s = true) items
  | Query _ => True
  end.

(** How [translate_to_japanese] relates a value to its result: a [str]
    gives a [str], any other value comes back as it is. *)
Definition value_translated (v v' : json) : Prop :=
  match v with
  | JStr _ => exists t, v' = JStr t
  | _ => v' = v
  end.

(** How [translate_message_content] relates an input item to its output:
    a text item becomes a two-key text block around the translated value, a
    suggestions item a two-key suggestions block around the list of the
    translated values, anything else is passed on as it is. *)
Definition translated_as (item item' : json) : Prop :=
  exists fields ty,
    item = JDict fields
    /\ dict_lookup (u"type") fields = Some ty
    /\ ((eq_str ty (u"text") = true
         /\ exists v v',
              dict_lookup (u"text") fields = Some v
              /\ item' = JDict [ (u"type", JStr (u"text")); (u"text", v') ]
              /\ value_translated v v')
        \/ (eq_str ty (u"text") = false /\ eq_str ty (u"suggestions") = true
            /\ exists v vs',
                 dict_lookup (u"suggestions") fields = Some v
                 /\ item' = JDict [ (u"type", JStr (u"suggestions"));
                                    (u"suggestions", JList vs') ]
                 /\ forall vs, v = JList vs -> Forall2 value_translated vs vs')
        \/ (eq_str ty (u"text") = false /\ eq_str ty (u"suggestions") = false
            /\ item' = item)).

(** A text or suggestions element as [translate_message_content] builds it
    anew: the discriminator and the payload, no other key. *)
Definition rebuilt (item : json) : json :=
  match item with
  | JDict fields =>
    match dict_lookup (u"type") fields with
    | Some ty =>
      if eq_str ty (u"text") then
        match dict_lookup (u"text") fields with
        | Some v => JDict [ (u"type", JStr (u"text")); (u"text", v) ]
        | None => item
        end
      else if eq_str ty (u"suggestions") then
        match dict_lookup (u"suggestions") fields with
        | Some (JList vs) =>
            JDict [ (u"type", JStr (u"suggestions")); (u"suggestions", JList vs) ]
        | _ => item
        end
      else item
    | None => item
    end
  | _ => item
  end.

(** An element with nothing left to translate: its text, or each of its
    suggestions, is a [str] that contains a target-script character; an
    element of another type qualifies as it is. *)
Definition already_japanese (item : json) : Prop :=
  exists fields ty,
    item = JDict fields
    /\ dict_lookup (u"type") fields = Some ty
    /\ ((eq_str ty (u"text") = true
         /\ exists s,
              dict_lookup (u"text") fields = Some (JStr s)
              /\ contains_japanese s = true)
        \/ (eq_str ty (u"text") = false /\ eq_str ty (u"suggestions") = true
            /\ exists ss,
                 dict_lookup (u"suggestions") fields = Some (JList (map JStr ss))
                 /\ Forall (fun s => contains_japanese s = true) ss)
        \/ (eq_str ty (u"text") = false /\ eq_str ty (u"suggestions") = false)).

Definition english_only_env (translated : pystr) : Env :=
  constant_env success_reply (BackendReturns [ {| TRANSLATED_TEXT := translated |} ])
    (BackendReturns one_row_frame) NoInteraction.

Definition japanese_off_world : World :=
  {| session_state :=
       {| messages := [];
          active_suggestion := None;
          fire_API_error_notify := None;
          japanese_response := Some false;
          selected_semantic_model_path := selected_semantic_model_path fresh_session |};
     query_cache := []; api_log := []; sql_log := []; page := [] |}.

(** * Properties *)

Unset Implicit Arguments.

(** ** Strings *)

Lemma str_eqb_refl (a : pystr) : str_eqb a a = true.
Proof.
  induction a as [|x a IH]; simpl; [reflexivity|].
  now rewrite N.eqb_refl, IH.
Qed.

Lemma str_eqb_eq (a b : pystr) : str_eqb a b = true <-> a = b.
Proof.
  split.
  - revert b. induction a as [|x a IH]; intros [|y b] H; simpl in H;
      try discriminate; [reflexivity|].
    apply andb_true_iff in H as [Hx Hr].
    apply N.eqb_eq in Hx. apply IH in Hr. now subst.
  - intros ->. apply str_eqb_refl.
Qed.

Lemma str_eqb_neq (a b : pystr) : a <> b -> str_eqb a b = false.
Proof.
  intros H. destruct (str_eqb a b) eqn:E; [|reflexivity].
  apply str_eqb_eq in E. contradiction.
Qed.

Lemma starts_with_spec (needle hay : pystr) :
  starts_with needle hay = true <-> exists post, hay = needle ++ post.
Proof.
  revert hay. induction needle as [|x n IH]; intros hay; simpl.
  - split; [intros _; now exists hay | reflexivity].
  - destruct hay as [|y h].
    + split; [discriminate | intros [post H]; discriminate].
    + rewrite andb_true_iff, N.eqb_eq, IH. split.
      * intros [-> [post ->]]. now exists post.
      * intros [post H]. injection H as -> ->. split; [reflexivity | now exists post].
Qed.

Lemma substringb_spec (needle hay : pystr) :
  substringb needle hay = true <-> substring needle hay.
Proof.
  unfold substring. induction hay as [|y h IH]; simpl.
  - rewrite orb_false_r, starts_with_spec. split.
    + intros [post H]. now exists [], post.
    + intros [pre [post H]]. destruct pre; simpl in H.
      * now exists post.
      * discriminate.
  - rewrite orb_true_iff, starts_with_spec, IH. split.
    + intros [[post H] | [pre [post H]]].
      * now exists [], post.
      * exists (y :: pre), post. simpl. now rewrite H.
    + intros [[|c pre] [post H]]; simpl in H.
      * left. now exists post.
      * right. injection H as _ H. now exists pre, post.
Qed.

Lemma substring_app_mid (a needle b : pystr) : substring needle (a ++ needle ++ b).
Proof. now exists a, b. Qed.

Lemma substring_app_r (a hay needle : pystr) :
  substring needle hay -> substring needle (a ++ hay).
Proof.
  intros [pre [post ->]]. exists (a ++ pre), post. now rewrite <- app_assoc.
Qed.

Lemma substring_app_l (hay b needle : pystr) :
  substring needle hay -> substring needle (hay ++ b).
Proof.
  intros [pre [post ->]]. exists pre, (post ++ b). now rewrite <- !app_assoc.
Qed.

(** ** The script detector *)

Lemma is_japanese_char_spec (c : char) :
  is_japanese_char c = true <-> in_target_script c.
Proof.
  unfold is_japanese_char, in_target_script.
  rewrite !orb_true_iff, !andb_true_iff, !N.leb_le. tauto.
Qed.

Lemma contains_japanese_spec (text : pystr) :
  contains_japanese text = true <-> exists c, In c text /\ in_target_script c.
Proof.
  induction text as [|c rest IH]; simpl.
  - split; [discriminate | intros [c [[] _]]].
  - destruct (is_japanese_char c) eqn:E.
    + split; [intros _ | reflexivity].
      exists c. split; [now left | now apply is_japanese_char_spec].
    + rewrite IH. split.
      * intros [d [Hin Hd]]. exists d. split; [now right | exact Hd].
      * intros [d [[<- | Hin] Hd]].
        -- apply is_japanese_char_spec in Hd. congruence.
        -- now exists d.
Qed.

Lemma contains_japanese_app_l (a b : pystr) :
  contains_japanese a = true -> contains_japanese (a ++ b) = true.
Proof.
  induction a as [|c a IH]; simpl; [discriminate|].
  destruct (is_japanese_char c); auto.
Qed.

(** ** Passive computations *)

Lemma untouched_refl (w : World) : untouched w w.
Proof. now repeat split. Qed.

Lemma untouched_trans (w1 w2 w3 : World) :
  untouched w1 w2 -> untouched w2 w3 -> untouched w1 w3.
Proof.
  intros (A1 & B1 & C1) (A2 & B2 & C2).
  repeat split; congruence.
Qed.

Lemma passive_ret {A} (a : A) : passive (ret a).
Proof. intros w. split; [apply untouched_refl | discriminate]. Qed.

Lemma passive_raise {A} (e : Exn) : e <> RerunException -> passive (@raise A e).
Proof.
  intros He w. split; [apply untouched_refl|].
  simpl. intros H. injection H as H. contradiction.
Qed.

Lemma passive_bind {A B} (c : M A) (k : A -> M B) :
  passive c -> (forall a, passive (k a)) -> passive (bind c k).
Proof.
  intros Hc Hk w. unfold bind.
  destruct (Hc w) as [Hu Hr]. destruct (c w) as [[a|e] w1]; simpl in *.
  - destruct (Hk a w1) as [Hu' Hr'].
    split; [eapply untouched_trans; eassumption | exact Hr'].
  - split; [exact Hu|]. intros H. apply Hr. injection H as ->. reflexivity.
Qed.

Lemma passive_st (x : Widget) : passive (st x).
Proof. intros w. split; [now repeat split | discriminate]. Qed.

Lemma passive_get_state : passive get_state.
Proof. intros w. split; [apply untouched_refl | discriminate]. Qed.

Lemma passive_sql_collect env (query : pystr) : passive (sql_collect env query).
Proof. intros w. split; [now repeat split | discriminate]. Qed.

Lemma passive_subscript (v : json) (key : pystr) : passive (subscript v key).
Proof.
  unfold subscript. destruct v; try (apply passive_raise; discriminate).
  destruct (dict_lookup key fields);
    [apply passive_ret | apply passive_raise; discriminate].
Qed.

Lemma passive_as_str (v : json) : passive (as_str v).
Proof.
  destruct v; simpl; try (apply passive_raise; discriminate). apply passive_ret.
Qed.

Lemma passive_iterate (v : json) : passive (iterate v).
Proof.
  destruct v; simpl; try (apply passive_raise; discriminate); apply passive_ret.
Qed.

Lemma passive_collect_each {A B} (f : A -> M B) (l : list A) :
  (forall a, passive (f a)) -> passive (collect_each f l).
Proof.
  intros Hf. induction l as [|x l IH]; simpl; [apply passive_ret|].
  apply passive_bind; [apply Hf|]. intros y.
  apply passive_bind; [exact IH|]. intros ys. apply passive_ret.
Qed.

Create HintDb passive.

#[local] Hint Resolve passive_ret passive_st passive_get_state passive_sql_collect
  passive_subscript passive_as_str passive_iterate : passive.

(** ** The translation adapter *)

Lemma translate_to_japanese_short_circuit env (text : pystr) (w : World) :
  contains_japanese text = true ->
  translate_to_japanese env text w = (Returns text, w).
Proof. intros H. unfold translate_to_japanese. now rewrite H. Qed.

Lemma passive_translate_to_japanese env (text : pystr) :
  passive (translate_to_japanese env text).
Proof.
  unfold translate_to_japanese.
  destruct (contains_japanese text); [apply passive_ret|].
  apply passive_bind; [apply passive_sql_collect|].
  intros [[|row rest]|e]; auto with passive.
  apply passive_bind; auto with passive.
Qed.

Lemma translate_to_japanese_returns env (text : pystr) (w : World) :
  exists t, fst (translate_to_japanese env text w) = Returns t.
Proof.
  unfold translate_to_japanese.
  destruct (contains_japanese text); [now exists text|].
  unfold bind, sql_collect.
  destruct (session_sql_collect env (sql_log w) (translate_query text))
    as [[|row rest]|e]; simpl; eauto.
Qed.

Lemma passive_translation_error (v : json) (e : pystr) :
  passive (translation_error v e).
Proof. unfold translation_error. apply passive_bind; auto with passive. Qed.

Lemma passive_scan_and_replace (v : json) (elements : list json) :
  passive (scan_and_replace v elements).
Proof.
  unfold scan_and_replace.
  destruct (scan_japanese elements) as [[|]|e];
    auto using passive_translation_error with passive.
Qed.

Lemma passive_translate_value env (v : json) : passive (translate_value env v).
Proof.
  destruct v; cbn [translate_value];
    try apply passive_translation_error; try apply passive_scan_and_replace.
  apply passive_bind; [apply passive_translate_to_japanese | auto with passive].
Qed.

Lemma translation_error_returns (v : json) (e : pystr) (w : World) :
  fst (translation_error v e w) = Returns v.
Proof. reflexivity. Qed.

Lemma scan_and_replace_returns (v : json) (elements : list json) (w : World) :
  fst (scan_and_replace v elements w) = Returns v.
Proof.
  unfold scan_and_replace. destruct (scan_japanese elements) as [[|]|e]; reflexivity.
Qed.

(** Whatever the value, translating it returns: a [str] for a [str], the
    value itself for anything else. *)
Lemma translate_value_returns env (v : json) (w : World) :
  (exists s t, v = JStr s /\ fst (translate_value env v w) = Returns (JStr t))
  \/ ((forall s, v <> JStr s) /\ fst (translate_value env v w) = Returns v).
Proof.
  destruct v; cbn [translate_value];
    try (right; split; [discriminate|]);
    try apply translation_error_returns; try apply scan_and_replace_returns.
  left. destruct (translate_to_japanese_returns env s w) as [t Ht].
  exists s, t. split; [reflexivity|].
  unfold bind. destruct (translate_to_japanese env s w) as [[t'|e] w1];
    cbn [fst] in *; [now injection Ht as -> | discriminate].
Qed.

Lemma passive_translate_item env (item : json) : passive (translate_item env item).
Proof.
  unfold translate_item.
  apply passive_bind; auto with passive. intros ty.
  destruct (eq_str ty (u "text")).
  - apply passive_bind; auto with passive. intros t.
    apply passive_bind; [apply passive_translate_value | auto with passive].
  - destruct (eq_str ty (u "suggestions")); auto with passive.
    apply passive_bind; auto with passive. intros ss.
    apply passive_bind; auto with passive. intros l.
    apply passive_bind; auto with passive.
    apply passive_collect_each. intros s.
    apply passive_translate_value.
Qed.

Lemma passive_translate_message_content env (c : json) :
  passive (translate_message_content env c).
Proof.
  unfold translate_message_content.
  apply passive_bind; auto with passive. intros s.
  destruct (negb (japanese_response_enabled s)); auto with passive.
  apply passive_bind; auto with passive. intros items.
  apply passive_bind; auto with passive.
  apply passive_collect_each. intros item. apply passive_translate_item.
Qed.

(** C7. Text that already contains a code point of the target script
    (Hiragana U+3040..U+309F, Katakana U+30A0..U+30FF, CJK ideographs
    U+4E00..U+9FAF) comes back from [translate_to_japanese] unchanged, with
    no call made and nothing written; translating the result again therefore
    gives the same outcome as translating once. *)
Theorem translate_target_script_unchanged env (text : pystr) (w : World) :
  (exists c, In c text /\ in_target_script c) ->
  translate_to_japanese env text w = (Returns text, w)
  /\ (t <- translate_to_japanese env text ;; translate_to_japanese env t) w
     = translate_to_japanese env text w.
Proof.
  intros H. apply contains_japanese_spec in H.
  pose proof (translate_to_japanese_short_circuit env text w H) as E.
  split; [exact E|].
  unfold bind. rewrite E. exact E.
Qed.

Lemma translate_target_script_unchanged_witness :
  translate_to_japanese (quiet_env success_reply) (u"売上の推移") fresh_world
  = (Returns (u"売上の推移"), fresh_world)
  /\ (t <- translate_to_japanese (quiet_env success_reply) (u"売上の推移") ;;
      translate_to_japanese (quiet_env success_reply) t) fresh_world
     = translate_to_japanese (quiet_env success_reply) (u"売上の推移") fresh_world.
Proof.
  apply (translate_target_script_unchanged (quiet_env success_reply)
           (u"売上の推移") fresh_world).
  exists 0x58F2%N. split.
  - vm_compute. left. reflexivity.
  - right. right. vm_compute. split; discriminate.
Defined.

(** C8. When the translation call fails, by raising or by returning no
    row, [translate_to_japanese] returns its input text instead of raising;
    the session state, the cache and the API log are as before, and the page
    gains at most the error notice. *)
Theorem translation_failure_returns_input env (text : pystr) (w : World) :
  (session_sql_collect env (sql_log w) (translate_query text) = BackendReturns []
   \/ exists e,
        session_sql_collect env (sql_log w) (translate_query text) = BackendRaises e) ->
  fst (translate_to_japanese env text w) = Returns text
  /\ untouched w (snd (translate_to_japanese env text w))
  /\ (page (snd (translate_to_japanese env text w)) = page w
      \/ exists e,
           session_sql_collect env (sql_log w) (translate_query text) = BackendRaises e
           /\ page (snd (translate_to_japanese env text w))
              = page w ++ [StError (u"翻訳エラー: " ++ e)]).
Proof.
  intros H.
  split; [|split; [apply passive_translate_to_japanese|]];
    unfold translate_to_japanese;
    (destruct (contains_japanese text); [simpl; auto|]);
    unfold bind, sql_collect;
    destruct H as [-> | [e ->]]; simpl; eauto.
Qed.

Lemma translation_failure_returns_input_witness :
  fst (translate_to_japanese
         (constant_env success_reply (BackendRaises (u"timeout"))
                       (BackendReturns one_row_frame) NoInteraction)
         (u"Total sales") fresh_world) = Returns (u"Total sales").
Proof.
  refine (proj1 (translation_failure_returns_input
                   (constant_env success_reply (BackendRaises (u"timeout"))
                                 (BackendReturns one_row_frame) NoInteraction)
                   (u"Total sales") fresh_world _)).
  right. exists (u"timeout"). reflexivity.
Defined.

(** ** The protocol client *)

Lemma bind_returns {A B} {c : M A} (k : A -> M B) {w a w'} :
  c w = (Returns a, w') -> bind c k w = k a w'.
Proof. intros H. unfold bind. now rewrite H. Qed.

Lemma bind_eq {A B} (c : M A) (k : A -> M B) (w : World) :
  bind c k w = match c w with
               | (Returns a, w') => k a w'
               | (Raises e, w') => (Raises e, w')
               end.
Proof. reflexivity. Qed.

Lemma bind_raises {A B} {c : M A} (k : A -> M B) {w e w'} :
  c w = (Raises e, w') -> bind c k w = (Raises e, w').
Proof. intros H. unfold bind. now rewrite H. Qed.

Lemma get_analyst_response_eq env (msgs : list Message) (w : World) :
  get_analyst_response env msgs w =
  let resp := send_snow_api_request env (api_log w) (request_for msgs w) in
  let w' := log_api (request_for msgs w) w in
  match parsed resp with
  | None => (Raises JSONDecodeError, w')
  | Some payload =>
    if (status resp <? 400)%Z then (Returns (payload, None), w')
    else
      match payload with
      | JDict fields =>
          (Returns (payload,
                    Some (error_message env (status resp)
                            (field_or (u"request_id") (u"N/A") fields)
                            (field_or (u"error_code") (u"N/A") fields)
                            (field_or (u"message") (u"詳細不明") fields))),
           w')
      | _ => (Raises AttributeError, w')
      end
  end.
Proof.
  unfold get_analyst_response, bind, snow_api_request, get_state, request_for. simpl.
  destruct (parsed _) as [payload|]; [|reflexivity]. simpl.
  destruct (status _ <? 400)%Z; [reflexivity|].
  destruct payload; try reflexivity.
  unfold dict_get, field_or.
  destruct (dict_lookup (u "request_id") fields), (dict_lookup (u "error_code") fields),
    (dict_lookup (u "message") fields); reflexivity.
Qed.

Lemma get_analyst_response_world env (msgs : list Message) (w : World) :
  snd (get_analyst_response env msgs w) = log_api (request_for msgs w) w
  /\ fst (get_analyst_response env msgs w) <> Raises RerunException.
Proof.
  rewrite get_analyst_response_eq. cbv zeta.
  destruct (parsed _) as [payload|]; [|split; [reflexivity | discriminate]].
  destruct (status _ <? 400)%Z; [split; [reflexivity | discriminate]|].
  destruct payload; split; try reflexivity; discriminate.
Qed.

Lemma error_message_contains_japanese env (st : Z) (a b c : json) :
  contains_japanese (error_message env st a b c) = true.
Proof.
  unfold error_message. apply contains_japanese_app_l. vm_compute. reflexivity.
Qed.

Lemma error_message_mentions env (st : Z) (a b c : json) :
  substring (str_of_Z st) (error_message env st a b c)
  /\ substring (format env a) (error_message env st a b c)
  /\ substring (format env b) (error_message env st a b c)
  /\ substring (format env c) (error_message env st a b c).
Proof.
  unfold error_message. repeat split.
  - apply substring_app_mid.
  - do 3 apply substring_app_r. apply substring_app_l. exists [], []. now rewrite app_nil_r.
  - do 5 apply substring_app_r. apply substring_app_l. exists [], []. now rewrite app_nil_r.
  - do 7 apply substring_app_r. apply substring_app_l. exists [], []. now rewrite app_nil_r.
Qed.

(** ** One submission *)

Lemma same_conversation_refl (w : World) : same_conversation w w.
Proof. now repeat split. Qed.

Lemma same_conversation_trans (w1 w2 w3 : World) :
  same_conversation w1 w2 -> same_conversation w2 w3 -> same_conversation w1 w3.
Proof.
  unfold same_conversation. intros (A1 & B1 & C1 & D1 & E1 & F1) (A2 & B2 & C2 & D2 & E2 & F2).
  repeat split; congruence.
Qed.

Lemma untouched_same_conversation (w w' : World) :
  untouched w w' -> same_conversation w w'.
Proof.
  intros (A & B & C). unfold same_conversation, history.
  rewrite A. now repeat split.
Qed.

Lemma passive_calm {A} (c : M A) : passive c -> calm c.
Proof.
  intros H w. destruct (H w) as [Hu Hr].
  split; [now apply untouched_same_conversation | exact Hr].
Qed.

Lemma calm_bind {A B} (c : M A) (k : A -> M B) :
  calm c -> (forall a, calm (k a)) -> calm (bind c k).
Proof.
  intros Hc Hk w. unfold bind.
  destruct (Hc w) as [Hu Hr]. destruct (c w) as [[a|e] w1]; simpl in *.
  - destruct (Hk a w1) as [Hu' Hr'].
    split; [eapply same_conversation_trans; eassumption | exact Hr'].
  - split; [exact Hu|]. intros H. apply Hr. injection H as ->. reflexivity.
Qed.

Lemma calm_set_flag (b : bool) : calm (modify_state (set_fire_API_error_notify b)).
Proof. intros w. split; [now repeat split | discriminate]. Qed.

Lemma replies_bind {A} (c : M A) (k : A -> M Message) :
  (forall a, replies_as_analyst (k a)) -> replies_as_analyst (bind c k).
Proof.
  intros Hk w m. unfold bind. destruct (c w) as [[a|e] w1]; [apply Hk | discriminate].
Qed.

Lemma replies_ret (m : Message) : role m = analyst -> replies_as_analyst (ret m).
Proof. intros H w m' E. injection E as <-. exact H. Qed.

Lemma calm_build_analyst_message env (response : json) (error_msg : option pystr) :
  calm (build_analyst_message env response error_msg).
Proof.
  unfold build_analyst_message. destruct error_msg as [e|].
  - apply calm_bind; [apply passive_calm, passive_get_state|]. intros s.
    apply calm_bind.
    { apply passive_calm. destruct (japanese_response_enabled s);
        [apply passive_translate_to_japanese | apply passive_ret]. }
    intros t. apply calm_bind; [apply passive_calm, passive_subscript|]. intros rid.
    apply calm_bind; [apply calm_set_flag|]. intros _. apply passive_calm, passive_ret.
  - apply passive_calm.
    apply passive_bind; [apply passive_subscript|]. intros m.
    apply passive_bind; [apply passive_subscript|]. intros c0.
    apply passive_bind; [apply passive_get_state|]. intros s.
    apply passive_bind.
    { destruct (japanese_response_enabled s);
        [apply passive_translate_message_content | apply passive_ret]. }
    intros c1. apply passive_bind; [apply passive_subscript|]. intros rid.
    apply passive_ret.
Qed.

Lemma build_analyst_message_role env (response : json) (error_msg : option pystr) :
  replies_as_analyst (build_analyst_message env response error_msg).
Proof.
  unfold build_analyst_message. destruct error_msg as [e|];
    repeat (apply replies_bind; intros ?); now apply replies_ret.
Qed.

Lemma close_turn_spec env (r : json * option pystr) (w : World) :
  active_suggestion (session_state (snd (close_turn env r w)))
  = active_suggestion (session_state w)
  /\ api_log (snd (close_turn env r w)) = api_log w
  /\ query_cache (snd (close_turn env r w)) = query_cache w
  /\ ((fst (close_turn env r w) = Raises RerunException
       /\ exists m, role m = analyst
                    /\ history (snd (close_turn env r w)) = history w ++ [m])
      \/ (fst (close_turn env r w) <> Raises RerunException
          /\ history (snd (close_turn env r w)) = history w)).
Proof.
  pose proof (calm_build_analyst_message env (fst r) (snd r) w) as [Hs Hr].
  pose proof (build_analyst_message_role env (fst r) (snd r) w) as Hrole.
  unfold close_turn, bind.
  destruct (build_analyst_message env (fst r) (snd r) w) as [[m|e] w1]; simpl in *.
  - destruct Hs as (A & B & C & D & E & F). unfold history in *. simpl.
    repeat split; auto.
    left. split; [reflexivity|]. exists m. split; [now apply Hrole | now rewrite A].
  - destruct Hs as (A & B & C & D & E & F). unfold history in *.
    repeat split; auto.
    right. split; [|exact A]. intros H. apply Hr. injection H as ->. reflexivity.
Qed.

Lemma display_user_text env (prompt : pystr) (idx : nat) (w : World) :
  display_message_content env (JList [text_block prompt]) idx w
  = st (StMarkdown (JStr prompt)) w.
Proof. reflexivity. Qed.

Lemma enhance_user_prompt_eq (prompt : pystr) (w : World) :
  enhance_user_prompt prompt w = (Returns (transmission_text prompt w), w).
Proof.
  unfold enhance_user_prompt, transmission_text, bind, get_state.
  now destruct (japanese_response_enabled (session_state w)).
Qed.

Lemma process_user_input_eq env (prompt : pystr) (w : World) :
  process_user_input env prompt w =
  (r <- get_analyst_response env
          (history w ++ [user_message (transmission_text prompt w)]) ;;
   close_turn env r) (opened_turn prompt w).
Proof.
  unfold process_user_input.
  rewrite (bind_returns _ (enhance_user_prompt_eq prompt w)).
  transitivity
    ((r <- get_analyst_response env
             (removelast (history w ++ [user_message prompt])
              ++ [user_message (transmission_text prompt w)]) ;;
      close_turn env r) (opened_turn prompt w)).
  - reflexivity.
  - now rewrite removelast_last.
Qed.

(** The request a submission sends. *)
Lemma process_user_input_step env (prompt : pystr) (w : World) :
  api_log (snd (process_user_input env prompt w))
  = api_log w
    ++ [request_for (history w ++ [user_message (transmission_text prompt w)]) w]
  /\ active_suggestion (session_state (snd (process_user_input env prompt w)))
     = active_suggestion (session_state w)
  /\ query_cache (snd (process_user_input env prompt w)) = query_cache w
  /\ ((completes env prompt w
       /\ exists m, role m = analyst
                    /\ history (snd (process_user_input env prompt w))
                       = history w ++ [user_message prompt; m])
      \/ (~ completes env prompt w
          /\ history (snd (process_user_input env prompt w))
             = history w ++ [user_message prompt])).
Proof.
  unfold completes. rewrite process_user_input_eq.
  set (msgs := history w ++ [user_message (transmission_text prompt w)]).
  pose proof (get_analyst_response_world env msgs (opened_turn prompt w)) as [Hw Hr].
  unfold bind.
  destruct (get_analyst_response env msgs (opened_turn prompt w)) as [[r|e] w1];
    simpl in Hw, Hr; subst w1.
  - pose proof (close_turn_spec env r
                  (log_api (request_for msgs (opened_turn prompt w)) (opened_turn prompt w)))
      as (A & B & C & D).
    repeat split; try assumption.
    destruct D as [[D1 [m [Hm D2]]] | [D1 D2]]; [left | right];
      (split; [exact D1|]).
    + exists m. split; [exact Hm|]. rewrite D2. unfold history. simpl.
      now rewrite <- app_assoc.
    + exact D2.
  - repeat split. right. split; [|reflexivity].
    simpl. intros H. apply Hr. injection H as ->. reflexivity.
Qed.

(** C2. A submission sends exactly one request; its message list is the
    prior history, unchanged, followed by the user turn in transmission
    form: the prompt prefixed with the fixed instruction block when the
    Japanese-response setting is on (its default), the prompt itself
    otherwise.  Whatever the outcome, the entry appended to the history for
    the user carries the original prompt only, and anything after it is an
    analyst entry. *)
Theorem outbound_request_and_persisted_turn env (prompt : pystr) (w : World) :
  api_log (snd (process_user_input env prompt w))
  = api_log w
    ++ [ {| req_messages :=
              history w
              ++ [user_message
                    (if japanese_response_enabled (session_state w)
                     then japanese_instruction ++ prompt
                     else prompt)];
            semantic_model_file :=
              u"@" ++ selected_semantic_model_path (session_state w);
            max_tokens := 40000 |} ]
  /\ exists replies,
       history (snd (process_user_input env prompt w))
       = history w ++ user_message prompt :: replies
       /\ Forall (fun m => role m = analyst) replies
       /\ (List.length replies <= 1)%nat.
Proof.
  destruct (process_user_input_step env prompt w) as (A & _ & _ & D).
  split; [exact A|].
  destruct D as [[_ [m [Hm D]]] | [_ D]].
  - exists [m]. repeat split; [exact D | now constructor | simpl; lia].
  - exists []. repeat split; [exact D | constructor | simpl; lia].
Qed.

(** ** Sequences of submissions *)

Lemma history_only_grows env (prompts : list pystr) (w : World) :
  exists tail,
    history (submit_all env prompts w) = history w ++ tail
    /\ (List.length prompts <= List.length tail <= 2 * List.length prompts)%nat.
Proof.
  revert w. induction prompts as [|p ps IH]; intros w; simpl.
  - exists []. split; [now rewrite app_nil_r | simpl; lia].
  - destruct (IH (snd (process_user_input env p w))) as [tail [Ht Hl]].
    destruct (process_user_input_step env p w)
      as (_ & _ & _ & [[_ [m [_ Hh]]] | [_ Hh]]);
      rewrite Ht, Hh, <- app_assoc; eexists; (split; [reflexivity|]);
      rewrite length_app; simpl; lia.
Qed.

Lemma turns_length (prompts : list pystr) (replies : list Message) :
  List.length replies = List.length prompts ->
  List.length (turns prompts replies) = (2 * List.length prompts)%nat.
Proof.
  revert replies. induction prompts as [|p ps IH]; intros [|r rs] H; simpl in *;
    try discriminate; [reflexivity|].
  injection H as H. rewrite (IH rs H). lia.
Qed.

Lemma completed_submissions_append_turns env (prompts : list pystr) (w : World) :
  all_complete env prompts w ->
  exists replies,
    List.length replies = List.length prompts
    /\ Forall (fun m => role m = analyst) replies
    /\ history (submit_all env prompts w) = history w ++ turns prompts replies.
Proof.
  revert w. induction prompts as [|p ps IH]; intros w; simpl.
  - intros _. exists []. repeat split; [constructor | now rewrite app_nil_r].
  - intros [Hc Hrest].
    destruct (IH _ Hrest) as (rs & Hlen & Hroles & Hh).
    destruct (process_user_input_step env p w)
      as (_ & _ & _ & [[_ [m [Hm Hstep]]] | [Hn _]]); [|contradiction].
    exists (m :: rs). simpl. repeat split.
    + now rewrite Hlen.
    + now constructor.
    + rewrite Hh, Hstep, <- app_assoc. reflexivity.
Qed.

(** C1 (as amended). Every submission first appends the user's message,
    so the history only ever grows at its end and earlier entries keep
    their place and content; when each submission of a sequence runs to
    completion, each has appended exactly two entries - the user's message,
    then one analyst entry - and the history is longer by twice the number
    of submissions. *)
Theorem history_grows_by_whole_turns env (prompts : list pystr) (w : World) :
  (exists tail,
     history (submit_all env prompts w) = history w ++ tail
     /\ (List.length prompts <= List.length tail <= 2 * List.length prompts)%nat)
  /\ (all_complete env prompts w ->
      exists replies,
        List.length replies = List.length prompts
        /\ Forall (fun m => role m = analyst) replies
        /\ history (submit_all env prompts w) = history w ++ turns prompts replies
        /\ List.length (history (submit_all env prompts w))
           = (List.length (history w) + 2 * List.length prompts)%nat).
Proof.
  split; [apply history_only_grows|].
  intros H. destruct (completed_submissions_append_turns env prompts w H)
    as (rs & Hlen & Hroles & Hh).
  exists rs. repeat split; try assumption.
  rewrite Hh, length_app, (turns_length prompts rs Hlen). reflexivity.
Qed.

Lemma history_grows_by_whole_turns_witness :
  exists replies,
    List.length replies = 2%nat
    /\ Forall (fun m => role m = analyst) replies
    /\ history (submit_all (quiet_env success_reply)
                  [u"売上は？"; u"top products"] fresh_world)
       = history fresh_world ++ turns [u"売上は？"; u"top products"] replies
    /\ List.length (history (submit_all (quiet_env success_reply)
                               [u"売上は？"; u"top products"] fresh_world))
       = (List.length (history fresh_world) + 2 * 2)%nat.
Proof.
  apply (proj2 (history_grows_by_whole_turns (quiet_env success_reply)
                  [u"売上は？"; u"top products"] fresh_world)).
  vm_compute. repeat split.
Defined.

(** C1 fails as stated: a reply whose body is not JSON makes [json.loads]
    raise after the user's message is appended, and the submission leaves
    one entry, not two. *)
Lemma history_after_unparsable_reply :
  List.length (history (submit_all (quiet_env bad_gateway_reply) [u"hi"] fresh_world))
  <> (2 * List.length [u"hi"])%nat.
Proof. vm_compute. discriminate. Qed.

(** ** Failed calls *)

Lemma build_error_entry env (fields : list (pystr * json)) (st : Z) (a b c : json)
    (w : World) :
  build_analyst_message env (JDict fields) (Some (error_message env st a b c)) w =
  match dict_lookup (u"request_id") fields with
  | None => (Raises (KeyError (u"request_id")), w)
  | Some rid =>
      (Returns (error_entry (error_message env st a b c) rid),
       snd (modify_state (set_fire_API_error_notify true) w))
  end.
Proof.
  unfold build_analyst_message.
  rewrite (bind_returns _ (eq_refl : get_state w = (Returns (session_state w), w))).
  assert (E : (if japanese_response_enabled (session_state w)
               then translate_to_japanese env (error_message env st a b c)
               else ret (error_message env st a b c)) w
              = (Returns (error_message env st a b c), w)).
  { destruct (japanese_response_enabled (session_state w)); [|reflexivity].
    apply translate_to_japanese_short_circuit, error_message_contains_japanese. }
  rewrite (bind_returns _ E).
  unfold subscript. destruct (dict_lookup (u "request_id") fields); reflexivity.
Qed.

Lemma failed_call_turn env (prompt : pystr) (w : World) (st : Z)
    (fields : list (pystr * json)) :
  send_snow_api_request env (api_log w)
    (request_for (history w ++ [user_message (transmission_text prompt w)]) w)
  = {| status := st; parsed := Some (JDict fields) |} ->
  (400 <= st)%Z ->
  let text := error_message env st
                (field_or (u"request_id") (u"N/A") fields)
                (field_or (u"error_code") (u"N/A") fields)
                (field_or (u"message") (u"詳細不明") fields) in
  match dict_lookup (u"request_id") fields with
  | None =>
      fst (process_user_input env prompt w) = Raises (KeyError (u"request_id"))
      /\ history (snd (process_user_input env prompt w))
         = history w ++ [user_message prompt]
      /\ fire_API_error_notify (session_state (snd (process_user_input env prompt w)))
         = fire_API_error_notify (session_state w)
  | Some rid =>
      fst (process_user_input env prompt w) = Raises RerunException
      /\ history (snd (process_user_input env prompt w))
         = history w ++ [user_message prompt; error_entry text rid]
      /\ fire_API_error_notify (session_state (snd (process_user_input env prompt w)))
         = Some true
  end.
Proof.
  intros H Hst text.
  rewrite process_user_input_eq.
  set (msgs := history w ++ [user_message (transmission_text prompt w)]) in *.
  assert (E : get_analyst_response env msgs (opened_turn prompt w)
              = (Returns (JDict fields, Some text),
                 log_api (request_for msgs w) (opened_turn prompt w))).
  { rewrite get_analyst_response_eq. cbv zeta.
    change (send_snow_api_request env (api_log (opened_turn prompt w))
              (request_for msgs (opened_turn prompt w)))
      with (send_snow_api_request env (api_log w) (request_for msgs w)).
    rewrite H. simpl.
    apply Z.ltb_ge in Hst. rewrite Hst. reflexivity. }
  rewrite (bind_returns _ E).
  unfold close_turn. cbn [fst snd]. unfold text.
  rewrite bind_eq, build_error_entry.
  destruct (dict_lookup (u "request_id") fields) as [rid|].
  - unfold history. simpl. rewrite <- app_assoc. repeat split.
  - repeat split.
Qed.

(** C10. When the call fails (status 400 or above, body a JSON object),
    the error text is built with ['N/A'] standing in for a missing
    [request_id], but the analyst entry reads [response["request_id"]]
    directly: the submission runs to completion exactly when the body has
    that key, appending the error entry and setting the flag; without the
    key it stops with [KeyError], the user's message already appended, no
    analyst entry added and the flag as it was. *)
Theorem failure_branch_requires_request_id env (prompt : pystr) (w : World) (st : Z)
    (fields : list (pystr * json)) :
  send_snow_api_request env (api_log w)
    (request_for (history w ++ [user_message (transmission_text prompt w)]) w)
  = {| status := st; parsed := Some (JDict fields) |} ->
  (400 <= st)%Z ->
  (completes env prompt w <-> dict_lookup (u"request_id") fields <> None)
  /\ (dict_lookup (u"request_id") fields = None ->
      fst (get_analyst_response env
             (history w ++ [user_message (transmission_text prompt w)])
             (opened_turn prompt w))
      = Returns (JDict fields,
                 Some (error_message env st (JStr (u"N/A"))
                         (field_or (u"error_code") (u"N/A") fields)
                         (field_or (u"message") (u"詳細不明") fields)))
      /\ fst (process_user_input env prompt w) = Raises (KeyError (u"request_id"))
      /\ history (snd (process_user_input env prompt w))
         = history w ++ [user_message prompt]
      /\ fire_API_error_notify (session_state (snd (process_user_input env prompt w)))
         = fire_API_error_notify (session_state w))
  /\ (forall rid,
        dict_lookup (u"request_id") fields = Some rid ->
        history (snd (process_user_input env prompt w))
        = history w
          ++ [user_message prompt;
              error_entry (error_message env st rid
                             (field_or (u"error_code") (u"N/A") fields)
                             (field_or (u"message") (u"詳細不明") fields)) rid]
        /\ fire_API_error_notify (session_state (snd (process_user_input env prompt w)))
           = Some true).
Proof.
  intros H Hst. pose proof (failed_call_turn env prompt w st fields H Hst) as T.
  cbv zeta in T. unfold completes, field_or in *.
  destruct (dict_lookup (u "request_id") fields) as [rid|] eqn:L.
  - destruct T as (T1 & T2 & T3). repeat split.
    + discriminate.
    + intros _. exact T1.
    + discriminate.
    + discriminate.
    + discriminate.
    + discriminate.
    + injection H0 as <-. exact T2.
    + exact T3.
  - destruct T as (T1 & T2 & T3). repeat split; try assumption.
    + intros C. rewrite T1 in C. discriminate.
    + intros C. now contradiction C.
    + rewrite get_analyst_response_eq. cbv zeta.
      change (send_snow_api_request env (api_log (opened_turn prompt w))
                (request_for (history w ++ [user_message (transmission_text prompt w)])
                   (opened_turn prompt w)))
        with (send_snow_api_request env (api_log w)
                (request_for (history w ++ [user_message (transmission_text prompt w)]) w)).
      rewrite H. simpl. apply Z.ltb_ge in Hst. rewrite Hst.
      unfold field_or. rewrite L. reflexivity.
    + discriminate.
    + discriminate.
Qed.

Lemma failure_branch_requires_request_id_witness :
  fst (process_user_input (quiet_env not_found_reply) (u"hi") fresh_world)
  = Raises (KeyError (u"request_id")).
Proof.
  refine (proj1 (proj2 (proj1 (proj2
            (failure_branch_requires_request_id
               (quiet_env not_found_reply) (u"hi") fresh_world 404
               [ (u"error_code", JStr (u"E1")); (u"message", JStr (u"bad")) ]
               _ _)) _))).
  - reflexivity.
  - lia.
  - reflexivity.
Defined.

(** C6, the program at the specification's example: on a 404 reply with
    body [{"error_code":"E1","message":"bad"}] the submission raises
    [KeyError('request_id')]; the history holds the user's message and no
    analyst entry, and the notification flag is not set. *)
Theorem not_found_reply_raises_key_error env (prompt : pystr) (w : World) :
  send_snow_api_request env (api_log w)
    (request_for (history w ++ [user_message (transmission_text prompt w)]) w)
  = not_found_reply ->
  fst (process_user_input env prompt w) = Raises (KeyError (u"request_id"))
  /\ history (snd (process_user_input env prompt w))
     = history w ++ [user_message prompt]
  /\ fire_API_error_notify (session_state (snd (process_user_input env prompt w)))
     = fire_API_error_notify (session_state w).
Proof.
  intros H.
  assert (Hst : (400 <= 404)%Z) by lia.
  exact (failed_call_turn env prompt w 404
           [ (u"error_code", JStr (u"E1")); (u"message", JStr (u"bad")) ] H Hst).
Qed.

Lemma not_found_reply_raises_key_error_witness :
  fst (process_user_input (quiet_env not_found_reply) (u"hi") fresh_world)
  = Raises (KeyError (u"request_id"))
  /\ history (snd (process_user_input (quiet_env not_found_reply) (u"hi") fresh_world))
     = history fresh_world ++ [user_message (u"hi")]
  /\ fire_API_error_notify
       (session_state
          (snd (process_user_input (quiet_env not_found_reply) (u"hi") fresh_world)))
     = fire_API_error_notify (session_state fresh_world).
Proof.
  apply (not_found_reply_raises_key_error (quiet_env not_found_reply) (u"hi") fresh_world).
  reflexivity.
Defined.

(** With a [request_id] in the same body the error entry is appended: its
    only block is the text naming the status, the error code and the
    message, and the flag is set. *)
Lemma not_found_reply_with_id_appends_error env (prompt : pystr) (w : World) :
  send_snow_api_request env (api_log w)
    (request_for (history w ++ [user_message (transmission_text prompt w)]) w)
  = not_found_reply_with_id ->
  exists text,
    history (snd (process_user_input env prompt w))
    = history w ++ [user_message prompt; error_entry text (JStr (u"r-2"))]
    /\ substring (u"404") text /\ substring (u"E1") text /\ substring (u"bad") text
    /\ fire_API_error_notify (session_state (snd (process_user_input env prompt w)))
       = Some true.
Proof.
  intros H.
  assert (Hst : (400 <= 404)%Z) by lia.
  pose proof (failed_call_turn env prompt w 404
                [ (u"request_id", JStr (u"r-2"));
                  (u"error_code", JStr (u"E1")); (u"message", JStr (u"bad")) ] H Hst) as T.
  cbv zeta in T.
  change (dict_lookup (u "request_id")
            [ (u"request_id", JStr (u"r-2"));
              (u"error_code", JStr (u"E1")); (u"message", JStr (u"bad")) ])
    with (Some (JStr (u"r-2"))) in T.
  destruct T as (_ & T2 & T3).
  eexists. split; [exact T2|].
  pose proof (error_message_mentions env 404 (JStr (u"r-2")) (JStr (u"E1")) (JStr (u"bad")))
    as (M1 & _ & M3 & M4).
  repeat split; [exact M1 | exact M3 | exact M4 | exact T3].
Qed.

(** The flag is shown once and cleared. *)
Lemma error_notification_shown_once (w : World) :
  fire_API_error_notify (session_state w) = Some true ->
  fst (handle_error_notifications w) = Returns tt
  /\ page (snd (handle_error_notifications w))
     = page w ++ [StToast (u"APIエラーが発生しました！") (u"🚨")]
  /\ fire_API_error_notify (session_state (snd (handle_error_notifications w)))
     = Some false
  /\ handle_error_notifications (snd (handle_error_notifications w))
     = (Returns tt, snd (handle_error_notifications w)).
Proof.
  intros H. unfold handle_error_notifications, bind, get_state, api_error_notify_pending.
  simpl. rewrite H. simpl. repeat split.
Qed.

(** C5 (as amended). A reply whose body parsed is classified by its
    status: below 400 the parsed payload is returned with no error; at 400
    or above, for a JSON object, the payload is returned with an error text
    assembled from the status and the [request_id], [error_code] and
    [message] fields, an absent [request_id] or [error_code] printed as
    ['N/A'] and an absent [message] as ['詳細不明'].  The client logs exactly
    one request per call, and every submission makes exactly one call. *)
Theorem protocol_client_classifies_by_status env (msgs : list Message) (w : World)
    (st : Z) (payload : json) :
  send_snow_api_request env (api_log w) (request_for msgs w)
  = {| status := st; parsed := Some payload |} ->
  api_log (snd (get_analyst_response env msgs w)) = api_log w ++ [request_for msgs w]
  /\ ((st < 400)%Z ->
      fst (get_analyst_response env msgs w) = Returns (payload, None))
  /\ ((400 <= st)%Z ->
      forall fields,
        payload = JDict fields ->
        let text := error_message env st
                      (field_or (u"request_id") (u"N/A") fields)
                      (field_or (u"error_code") (u"N/A") fields)
                      (field_or (u"message") (u"詳細不明") fields) in
        fst (get_analyst_response env msgs w) = Returns (payload, Some text)
        /\ substring (str_of_Z st) text
        /\ substring (format env (field_or (u"request_id") (u"N/A") fields)) text
        /\ substring (format env (field_or (u"error_code") (u"N/A") fields)) text
        /\ substring (format env (field_or (u"message") (u"詳細不明") fields)) text)
  /\ (forall prompt w0,
        List.length (api_log (snd (process_user_input env prompt w0)))
        = S (List.length (api_log w0))).
Proof.
  intros H.
  destruct (get_analyst_response_world env msgs w) as [Hw _].
  split; [now rewrite Hw|].
  split; [|split].
  - intros Hst. rewrite get_analyst_response_eq. cbv zeta. rewrite H. simpl.
    apply Z.ltb_lt in Hst. now rewrite Hst.
  - intros Hst fields -> text. split.
    + rewrite get_analyst_response_eq. cbv zeta. rewrite H. simpl.
      apply Z.ltb_ge in Hst. now rewrite Hst.
    + apply error_message_mentions.
  - intros prompt w0.
    destruct (process_user_input_step env prompt w0) as (A & _).
    rewrite A, length_app. simpl. lia.
Qed.

Lemma protocol_client_classifies_by_status_witness :
  fst (get_analyst_response (quiet_env success_reply) [user_message (u"hi")] fresh_world)
  = Returns (JDict [ (u"message",
                      JDict [ (u"role", JStr (u"analyst"));
                              (u"content", JList [text_block (u"答えは1です")]) ]);
                     (u"request_id", JStr (u"r-1")) ],
             None).
Proof.
  refine (proj1 (proj2
            (protocol_client_classifies_by_status (quiet_env success_reply)
               [user_message (u"hi")] fresh_world 200 _ _)) _).
  - reflexivity.
  - lia.
Defined.

(** C5 fails as stated on the fallback literal: with every field absent
    the message part reads ['詳細不明'], and the word "unknown" occurs
    nowhere in the error text. *)
Lemma absent_message_is_not_printed_as_unknown :
  exists text,
    fst (get_analyst_response (quiet_env empty_failure_reply) [] fresh_world)
    = Returns (JDict [], Some text)
    /\ text = error_message (quiet_env empty_failure_reply) 400
                (JStr (u"N/A")) (JStr (u"N/A")) (JStr (u"詳細不明"))
    /\ ~ substring (u"unknown") text.
Proof.
  eexists. split; [reflexivity|]. split; [reflexivity|].
  rewrite <- substringb_spec. vm_compute. discriminate.
Qed.

(** ** The query-result cache *)



Lemma cache_find_stored (q : pystr) (r : QueryExecResult)
    (c : list (pystr * QueryExecResult)) :
  cache_find q (firstn max_entries ((q, r) :: c)) = Some r.
Proof.
  change max_entries with (S 999). rewrite firstn_cons. simpl.
  now rewrite str_eqb_refl.
Qed.

Lemma get_query_exec_result_hit env (q : pystr) (r : QueryExecResult) (w : World) :
  cache_find q (query_cache w) = Some r ->
  get_query_exec_result env q w
  = (Returns r, set_query_cache ((q, r) :: cache_remove q (query_cache w)) w).
Proof. intros H. unfold get_query_exec_result, st_cache_data. now rewrite H. Qed.

Lemma get_query_exec_result_miss env (q : pystr) (w : World) :
  cache_find q (query_cache w) = None ->
  get_query_exec_result env q w
  = match exec_outcome (session_sql_to_pandas env (sql_log w) q) with
    | Returns r =>
        (Returns r,
         set_query_cache
           (firstn max_entries ((q, r) :: cache_remove q (query_cache w)))
           (log_sql (ToPandas q) w))
    | Raises e => (Raises e, log_sql (ToPandas q) w)
    end.
Proof.
  intros H. unfold get_query_exec_result, st_cache_data. rewrite H.
  unfold get_query_exec_result_body, bind, sql_to_pandas.
  destruct (session_sql_to_pandas env (sql_log w) q); reflexivity.
Qed.

(** A call that returns leaves its result at the front of the store and
    has reached the backend at most once. *)
Lemma get_query_exec_result_returned env (q : pystr) (r : QueryExecResult) (w : World) :
  fst (get_query_exec_result env q w) = Returns r ->
  get_query_exec_result env q w = (Returns r, snd (get_query_exec_result env q w))
  /\ (exists post, query_cache (snd (get_query_exec_result env q w)) = (q, r) :: post)
  /\ page (snd (get_query_exec_result env q w)) = page w
  /\ (sql_log (snd (get_query_exec_result env q w)) = sql_log w
      \/ (cache_find q (query_cache w) = None
          /\ exec_outcome (session_sql_to_pandas env (sql_log w) q) = Returns r
          /\ sql_log (snd (get_query_exec_result env q w)) = sql_log w ++ [ToPandas q])).
Proof.
  destruct (cache_find q (query_cache w)) as [r0|] eqn:E.
  - rewrite (get_query_exec_result_hit env q r0 w E). cbn [fst snd].
    intros H. injection H as ->.
    split; [reflexivity|]. split; [eexists; reflexivity|]. split; [reflexivity|].
    now left.
  - rewrite (get_query_exec_result_miss env q w E).
    destruct (exec_outcome (session_sql_to_pandas env (sql_log w) q)) as [r0|e];
      cbn [fst snd]; [|discriminate].
    intros H. injection H as ->.
    split; [reflexivity|]. split; [|split; [reflexivity | right; now repeat split]].
    unfold set_query_cache. cbn [query_cache]. change max_entries with (S 999).
    rewrite firstn_cons. eexists; reflexivity.
Qed.














(** An exception other than [SnowparkSQLException] leaves
    [get_query_exec_result] and nothing is stored, so the next call with the
    same query reaches the backend again. *)
Lemma uncaught_exception_is_not_stored env (q e : pystr) (w : World) :
  cache_find q (query_cache w) = None ->
  session_sql_to_pandas env (sql_log w) q = ExceptionRaised e ->
  get_query_exec_result env q w = (Raises (OtherException e), log_sql (ToPandas q) w)
  /\ cache_find q (query_cache (snd (get_query_exec_result env q w))) = None
  /\ sql_log (snd (get_query_exec_result env q (snd (get_query_exec_result env q w))))
     = sql_log w ++ [ToPandas q; ToPandas q].
Proof.
  intros Hmiss Hfail.
  rewrite (get_query_exec_result_miss env q w Hmiss), Hfail. cbn [exec_outcome snd].
  split; [reflexivity|]. split; [exact Hmiss|].
  rewrite (get_query_exec_result_miss env q (log_sql (ToPandas q) w) Hmiss).
  destruct (exec_outcome _); cbn [snd]; unfold set_query_cache, log_sql; cbn [sql_log];
    now rewrite <- app_assoc.
Qed.

(** ** Content dispatch *)

Lemma all_strings_map (items : list json) (ss : list pystr) :
  all_strings items = Some ss -> items = map JStr ss.
Proof.
  revert ss. induction items as [|x items IH]; intros ss H; simpl in H.
  - injection H as <-. reflexivity.
  - destruct x; try discriminate.
    destruct (all_strings items) as [ss'|]; [|discriminate].
    injection H as <-. simpl. now rewrite (IH ss' eq_refl).
Qed.

Lemma for_each_from_strings env (idx i : nat) (ss : list pystr) (w : World) :
  for_each_from (display_suggestion env idx) i (map JStr ss) w
  = for_each_from (fun j s => display_suggestion env idx j (JStr s)) i ss w.
Proof.
  revert i w. induction ss as [|s ss IH]; intros i w; simpl; [reflexivity|].
  unfold bind. destruct (display_suggestion env idx i (JStr s) w) as [[[]|e] w1];
    [apply IH | reflexivity].
Qed.

Lemma display_item_classified env (idx : nat) (item : json) (b : ContentBlock)
    (w : World) :
  classify_item item = Some b ->
  display_item env idx item w = render_block env idx b w.
Proof.
  unfold classify_item, display_item. destruct item; try discriminate.
  unfold subscript at 1.
  destruct (dict_lookup (u "type") fields) as [ty|]; [|discriminate].
  rewrite (bind_returns _ (eq_refl : ret ty w = (Returns ty, w))).
  destruct (eq_str ty (u "text")).
  { unfold subscript. destruct (dict_lookup (u "text") fields) as [[]|];
      try discriminate. intros H. injection H as <-. reflexivity. }
  destruct (eq_str ty (u "suggestions")).
  { unfold subscript. destruct (dict_lookup (u "suggestions") fields) as [[]|];
      try discriminate.
    destruct (all_strings items) as [ss|] eqn:E; [|discriminate].
    intros H. injection H as <-.
    apply all_strings_map in E. subst items. simpl render_block.
    rewrite !bind_eq. unfold st. cbv beta iota.
    exact (for_each_from_strings env idx 0 ss _). }
  destruct (eq_str ty (u "sql")); [|discriminate].
  unfold subscript. destruct (dict_lookup (u "statement") fields) as [[]|];
    try discriminate. intros H. injection H as <-. reflexivity.
Qed.

Lemma display_item_unrecognised env (idx : nat) (fields : list (pystr * json))
    (ty : json) (w : World) :
  dict_lookup (u"type") fields = Some ty ->
  recognised ty = false ->
  display_item env idx (JDict fields) w = (Returns tt, w)
  /\ classify_item (JDict fields) = None.
Proof.
  intros Hty Hrec. unfold recognised in Hrec.
  apply orb_false_iff in Hrec as [Hrec Hsql].
  apply orb_false_iff in Hrec as [Htext Hsug].
  unfold display_item, classify_item, subscript. rewrite Hty.
  rewrite (bind_returns _ (eq_refl : ret ty w = (Returns ty, w))).
  now rewrite Htext, Hsug, Hsql.
Qed.

Lemma display_items_classified env (idx : nat) (raw_content : list json) (w : World) :
  Forall well_formed raw_content ->
  for_each (display_item env idx) raw_content w
  = for_each (render_block env idx) (classify raw_content) w.
Proof.
  intros H. revert w. induction H as [|item rest Hitem Hrest IH]; intros w;
    [reflexivity|].
  destruct Hitem as (fields & ty & -> & Hty & [Hrec | Hcls]).
  - destruct (display_item_unrecognised env idx fields ty w Hty Hrec) as [Hd Hc].
    cbn [for_each classify]. rewrite Hc, (bind_returns _ Hd). apply IH.
  - destruct (classify_item (JDict fields)) as [b|] eqn:E; [|contradiction].
    cbn [for_each classify]. rewrite E. cbn [for_each]. rewrite !bind_eq.
    rewrite (display_item_classified env idx (JDict fields) b w E).
    destruct (render_block env idx b w) as [[[]|e] w1]; [apply IH | reflexivity].
Qed.

(** C3. [display_message_content] dispatches every element on its
    ["type"]: for a list of elements that each carry a discriminator (and,
    for a known one, its payload field) it does exactly what rendering the
    classified blocks does - text as a Text block, suggestions as a
    Suggestions block with the items in order, sql as a Query block with its
    statement - and an element with any other discriminator contributes
    nothing and raises nothing.  The sample payload classifies as
    [Text "A"; Query "SELECT 1"] and is rendered as those two blocks. *)
Theorem content_is_dispatched_on_type env (idx : nat) :
  (forall raw_content w,
     Forall well_formed raw_content ->
     display_message_content env (JList raw_content) idx w
     = for_each (render_block env idx) (classify raw_content) w)
  /\ (forall text, classify_item (text_block text) = Some (Text text))
  /\ (forall items,
        classify_item (suggestions_block items) = Some (Suggestions items))
  /\ (forall statement,
        classify_item (JDict [ (u"type", JStr (u"sql"));
                               (u"statement", JStr statement) ])
        = Some (Query statement))
  /\ (forall fields ty w,
        dict_lookup (u"type") fields = Some ty ->
        recognised ty = false ->
        display_item env idx (JDict fields) w = (Returns tt, w)
        /\ classify_item (JDict fields) = None)
  /\ classify sample_payload = [Text (u"A"); Query (u"SELECT 1")]
  /\ (forall w,
        display_message_content env (JList sample_payload) idx w
        = for_each (render_block env idx) [Text (u"A"); Query (u"SELECT 1")] w).
Proof.
  split; [intros raw w H; apply (display_items_classified env idx raw w H)|].
  split; [reflexivity|].
  split.
  { intros items. unfold classify_item, suggestions_block. simpl.
    assert (E : all_strings (map JStr items) = Some items).
    { induction items as [|s ss IH]; simpl; [reflexivity | now rewrite IH]. }
    now rewrite E. }
  split; [reflexivity|].
  split; [intros fields ty w; apply display_item_unrecognised|].
  split; [reflexivity|].
  intros w.
  assert (W : Forall well_formed sample_payload).
  { repeat constructor.
    - eexists _, _. split; [reflexivity|]. split; [reflexivity|]. right. discriminate.
    - eexists _, _. split; [reflexivity|]. split; [reflexivity|]. right. discriminate.
    - eexists _, _. split; [reflexivity|]. split; [reflexivity|]. left. reflexivity. }
  exact (display_items_classified env idx sample_payload w W).
Qed.

Lemma content_is_dispatched_on_type_witness :
  display_message_content (quiet_env success_reply) (JList sample_payload) 0 fresh_world
  = for_each (render_block (quiet_env success_reply) 0) (classify sample_payload)
      fresh_world.
Proof.
  apply (proj1 (content_is_dispatched_on_type (quiet_env success_reply) 0)).
  repeat constructor.
  - exists [ (u"type", JStr (u"text")); (u"text", JStr (u"A")) ], (JStr (u"text")).
    split; [reflexivity|]. split; [reflexivity|]. right. discriminate.
  - exists [ (u"type", JStr (u"sql")); (u"statement", JStr (u"SELECT 1")) ],
      (JStr (u"sql")).
    split; [reflexivity|]. split; [reflexivity|]. right. discriminate.
  - exists [ (u"type", JStr (u"bogus")) ], (JStr (u"bogus")).
    split; [reflexivity|]. split; [reflexivity|]. left. reflexivity.
Defined.

Example sample_payload_page :
  page (snd (display_message_content (quiet_env success_reply) (JList sample_payload) 0
               fresh_world))
  = [ StMarkdown (JStr (u"A"));
      StExpander (u"SQLクエリ") false;
      StCode (u"SELECT 1");
      StExpander (u"結果") true;
      StSpinner (u"SQLを実行中...");
      StTabs;
      StDataframe one_row_frame;
      StWrite (u"チャートの描画には少なくとも2列が必要です") ].
Proof. vm_compute. reflexivity. Qed.

(** ** Suggestion clicks *)

Lemma display_suggestion_clicked env (idx j : nat) (s : pystr) (w : World) :
  interaction env = ButtonClicked (suggestion_key idx j) ->
  fst (display_suggestion env idx j (JStr s) w) = Returns tt
  /\ active_suggestion (session_state (snd (display_suggestion env idx j (JStr s) w)))
     = Some s
  /\ history (snd (display_suggestion env idx j (JStr s) w)) = history w.
Proof.
  intros H. unfold display_suggestion, st_button. simpl as_str.
  rewrite !bind_eq. simpl. rewrite H, str_eqb_refl. simpl. repeat split.
Qed.

Lemma handle_user_inputs_suggestion env (w : World) (suggestion : pystr) :
  (forall c text, st_chat_input env <> Some (c :: text)) ->
  active_suggestion (session_state w) = Some suggestion ->
  handle_user_inputs env w
  = process_user_input env suggestion
      (snd (modify_state (set_active_suggestion None) w)).
Proof.
  intros Hchat Hs. unfold handle_user_inputs.
  destruct (st_chat_input env) as [[|c text]|];
    try (exfalso; now apply (Hchat c text));
    rewrite bind_eq; simpl; rewrite Hs; reflexivity.
Qed.

Lemma handle_user_inputs_idle env (w : World) :
  (forall c text, st_chat_input env <> Some (c :: text)) ->
  active_suggestion (session_state w) = None ->
  handle_user_inputs env w = (Returns tt, w).
Proof.
  intros Hchat Hs. unfold handle_user_inputs.
  destruct (st_chat_input env) as [[|c text]|];
    try (exfalso; now apply (Hchat c text));
    rewrite bind_eq; simpl; rewrite Hs; reflexivity.
Qed.

(** C9. A click on a suggestion button stores that suggestion's text in
    [active_suggestion].  On a pass without chat text, a stored suggestion
    is handed to [process_user_input] exactly as a fresh submission, on the
    state in which [active_suggestion] has already been cleared; it is still
    cleared when that submission ends, so a following pass without a new
    click or chat text submits nothing. *)
Theorem stored_suggestion_is_consumed_once env (w : World) (suggestion : pystr) :
  (forall c text, st_chat_input env <> Some (c :: text)) ->
  active_suggestion (session_state w) = Some suggestion ->
  (forall idx j s w0,
     interaction env = ButtonClicked (suggestion_key idx j) ->
     fst (display_suggestion env idx j (JStr s) w0) = Returns tt
     /\ active_suggestion
          (session_state (snd (display_suggestion env idx j (JStr s) w0)))
        = Some s)
  /\ handle_user_inputs env w
     = process_user_input env suggestion
         (snd (modify_state (set_active_suggestion None) w))
  /\ active_suggestion
       (session_state (snd (modify_state (set_active_suggestion None) w))) = None
  /\ active_suggestion (session_state (snd (handle_user_inputs env w))) = None
  /\ api_log (snd (handle_user_inputs env w))
     = api_log w
       ++ [request_for (history w ++ [user_message (transmission_text suggestion w)]) w]
  /\ (forall env',
        (forall c text, st_chat_input env' <> Some (c :: text)) ->
        handle_user_inputs env' (snd (handle_user_inputs env w))
        = (Returns tt, snd (handle_user_inputs env w))).
Proof.
  intros Hchat Hs.
  pose proof (handle_user_inputs_suggestion env w suggestion Hchat Hs) as E.
  pose proof (process_user_input_step env suggestion
                (snd (modify_state (set_active_suggestion None) w)))
    as (A & B & _).
  assert (Hnone : active_suggestion (session_state (snd (handle_user_inputs env w)))
                  = None).
  { rewrite E, B. reflexivity. }
  split.
  { intros idx j s w0 Hclick.
    destruct (display_suggestion_clicked env idx j s w0 Hclick) as (C1 & C2 & _).
    now split. }
  split; [exact E|].
  split; [reflexivity|].
  split; [exact Hnone|].
  split; [rewrite E, A; reflexivity|].
  intros env' Hchat'. now apply handle_user_inputs_idle.
Qed.

Lemma stored_suggestion_is_consumed_once_witness :
  handle_user_inputs (quiet_env success_reply) (world_with_suggestion (u"売上の推移は？"))
  = process_user_input (quiet_env success_reply) (u"売上の推移は？")
      (snd (modify_state (set_active_suggestion None)
              (world_with_suggestion (u"売上の推移は？")))).
Proof.
  refine (proj1 (proj2
            (stored_suggestion_is_consumed_once (quiet_env success_reply)
               (world_with_suggestion (u"売上の推移は？")) (u"売上の推移は？") _ _))).
  - intros c text. discriminate.
  - reflexivity.
Defined.

(** * Further properties of the program *)

(** ** Translation of a single text *)

(** X1. Text without any target-script code point is sent to the backend once;
    the first returned row is the translation and later rows are ignored. *)
Theorem translate_returns_first_row env (text : pystr) (w : World) (row : Row)
    (rest : list Row) :
  (forall c, In c text -> ~ in_target_script c) ->
  session_sql_collect env (sql_log w) (translate_query text)
  = BackendReturns (row :: rest) ->
  translate_to_japanese env text w
  = (Returns (TRANSLATED_TEXT row), log_sql (Collect (translate_query text)) w).
Proof.
  intros Hno Hrows.
  assert (E : contains_japanese text = false).
  { destruct (contains_japanese text) eqn:C; [|reflexivity].
    apply contains_japanese_spec in C as [c [Hin Hc]]. now destruct (Hno c Hin). }
  unfold translate_to_japanese. rewrite E.
  unfold bind, sql_collect. now rewrite Hrows.
Qed.

Lemma translate_returns_first_row_witness :
  translate_to_japanese (english_only_env (u"総売上")) (u"Total sales") fresh_world
  = (Returns (u"総売上"),
     log_sql (Collect (translate_query (u"Total sales"))) fresh_world).
Proof.
  apply (translate_returns_first_row (english_only_env (u"総売上")) (u"Total sales")
           fresh_world {| TRANSLATED_TEXT := u"総売上" |} []).
  - intros c Hin Hc. apply is_japanese_char_spec in Hc.
    vm_compute in Hin.
    repeat (destruct Hin as [<- | Hin]; [vm_compute in Hc; discriminate|]).
    exact Hin.
  - reflexivity.
Defined.

(** ** Quote escaping in the translation query *)

Lemma escape_single_quotes_injective (a b : pystr) :
  escape_single_quotes a = escape_single_quotes b -> a = b.
Proof.
  revert b. induction a as [|x a IH]; intros [|y b]; simpl.
  - reflexivity.
  - destruct (y =? apostrophe)%N; discriminate.
  - destruct (x =? apostrophe)%N; discriminate.
  - destruct (x =? apostrophe)%N eqn:Ex, (y =? apostrophe)%N eqn:Ey; intros H.
    + apply N.eqb_eq in Ex, Ey. subst. injection H as H. now rewrite (IH b H).
    + injection H as H1 H2. apply N.eqb_neq in Ey. now subst y.
    + injection H as H1 H2. apply N.eqb_neq in Ex. now subst x.
    + injection H as -> H. now rewrite (IH b H).
Qed.

(** X2. [text.replace("'", "''")] doubles every apostrophe and nothing else:
    the other characters keep their order, text without an apostrophe is
    unchanged, and two different texts never escape to the same string. *)
Theorem escape_single_quotes_doubles (text : pystr) :
  count_occ N.eq_dec (escape_single_quotes text) apostrophe
  = (2 * count_occ N.eq_dec text apostrophe)%nat
  /\ filter (fun c => negb (c =? apostrophe)%N) (escape_single_quotes text)
     = filter (fun c => negb (c =? apostrophe)%N) text
  /\ List.length (escape_single_quotes text)
     = (List.length text + count_occ N.eq_dec text apostrophe)%nat
  /\ (count_occ N.eq_dec text apostrophe = 0%nat -> escape_single_quotes text = text)
  /\ (forall text', escape_single_quotes text = escape_single_quotes text' ->
                    text = text').
Proof.
  split; [|split; [|split; [|split]]].
  - induction text as [|c r IH]; simpl; [reflexivity|].
    destruct (c =? apostrophe)%N eqn:E.
    + apply N.eqb_eq in E. subst c. simpl.
      destruct (N.eq_dec apostrophe apostrophe) as [_|n]; [|contradiction].
      rewrite IH. lia.
    + apply N.eqb_neq in E. simpl.
      destruct (N.eq_dec c apostrophe) as [e|_]; [contradiction|]. exact IH.
  - induction text as [|c r IH]; [reflexivity|].
    cbn [escape_single_quotes filter].
    destruct (c =? apostrophe)%N eqn:E; cbn [filter negb].
    + rewrite N.eqb_refl. cbn [negb]. exact IH.
    + rewrite E. cbn [negb]. now rewrite IH.
  - induction text as [|c r IH]; simpl; [reflexivity|].
    destruct (c =? apostrophe)%N eqn:E.
    + apply N.eqb_eq in E. subst c. simpl.
      destruct (N.eq_dec apostrophe apostrophe) as [_|n]; [|contradiction].
      rewrite IH. lia.
    + apply N.eqb_neq in E. simpl.
      destruct (N.eq_dec c apostrophe) as [e|_]; [contradiction|]. now rewrite IH.
  - induction text as [|c r IH]; simpl; [reflexivity|].
    destruct (N.eq_dec c apostrophe) as [e|n]; [discriminate|]. intros H.
    apply N.eqb_neq in n. rewrite n. now rewrite (IH H).
  - intros text'. apply escape_single_quotes_injective.
Qed.

Lemma escape_single_quotes_doubles_witness :
  escape_single_quotes (u"net sales") = u"net sales".
Proof.
  apply (proj1 (proj2 (proj2 (proj2 (escape_single_quotes_doubles (u"net sales")))))).
  reflexivity.
Defined.

(** ** Replies the protocol client cannot use *)

Lemma process_user_input_reply env (prompt : pystr) (w : World) :
  process_user_input env prompt w =
  let resp :=
    send_snow_api_request env (api_log w)
      (request_for (history w ++ [user_message (transmission_text prompt w)]) w) in
  match parsed resp with
  | None => (Raises JSONDecodeError, submitted prompt w)
  | Some payload =>
    if (status resp <? 400)%Z then close_turn env (payload, None) (submitted prompt w)
    else
      match payload with
      | JDict fields =>
          close_turn env
            (payload,
             Some (error_message env (status resp)
                     (field_or (u"request_id") (u"N/A") fields)
                     (field_or (u"error_code") (u"N/A") fields)
                     (field_or (u"message") (u"詳細不明") fields)))
            (submitted prompt w)
      | _ => (Raises AttributeError, submitted prompt w)
      end
  end.
Proof.
  rewrite process_user_input_eq, bind_eq, get_analyst_response_eq. cbv zeta.
  change (send_snow_api_request env (api_log (opened_turn prompt w))
            (request_for (history w ++ [user_message (transmission_text prompt w)])
               (opened_turn prompt w)))
    with (send_snow_api_request env (api_log w)
            (request_for (history w ++ [user_message (transmission_text prompt w)]) w)).
  destruct (parsed _) as [payload|]; [|reflexivity].
  destruct (status _ <? 400)%Z; [reflexivity|].
  destruct payload; reflexivity.
Qed.

Lemma submitted_facts (prompt : pystr) (w : World) :
  history (submitted prompt w) = history w ++ [user_message prompt]
  /\ fire_API_error_notify (session_state (submitted prompt w))
     = fire_API_error_notify (session_state w)
  /\ api_log (submitted prompt w)
     = api_log w
       ++ [request_for (history w ++ [user_message (transmission_text prompt w)]) w]
  /\ japanese_response (session_state (submitted prompt w))
     = japanese_response (session_state w).
Proof. repeat split. Qed.

(** X3. A reply whose body is not JSON ends the submission with
    [JSONDecodeError] whatever its status, success codes included; a failure
    reply whose JSON body is not an object ends it with [AttributeError].
    Either way the request was sent once, the user's message stays in the
    history without an analyst entry, and the notification flag is not
    set. *)
Theorem unusable_reply_ends_submission env (prompt : pystr) (w : World) :
  let resp :=
    send_snow_api_request env (api_log w)
      (request_for (history w ++ [user_message (transmission_text prompt w)]) w) in
  (parsed resp = None ->
   process_user_input env prompt w = (Raises JSONDecodeError, submitted prompt w))
  /\ (forall payload,
        parsed resp = Some payload ->
        (400 <= status resp)%Z ->
        (forall fields, payload <> JDict fields) ->
        process_user_input env prompt w = (Raises AttributeError, submitted prompt w))
  /\ history (submitted prompt w) = history w ++ [user_message prompt]
  /\ fire_API_error_notify (session_state (submitted prompt w))
     = fire_API_error_notify (session_state w)
  /\ api_log (submitted prompt w)
     = api_log w
       ++ [request_for (history w ++ [user_message (transmission_text prompt w)]) w].
Proof.
  cbv zeta. split; [|split; [|repeat split]].
  - intros H. rewrite process_user_input_reply. cbv zeta. now rewrite H.
  - intros payload H Hst Hshape. rewrite process_user_input_reply. cbv zeta.
    rewrite H. apply Z.ltb_ge in Hst. rewrite Hst.
    destruct payload; try reflexivity. now destruct (Hshape fields).
Qed.

Lemma unusable_reply_ends_submission_witness :
  process_user_input (quiet_env bad_gateway_reply) (u"hi") fresh_world
  = (Raises JSONDecodeError, submitted (u"hi") fresh_world).
Proof.
  apply (proj1 (unusable_reply_ends_submission (quiet_env bad_gateway_reply) (u"hi")
                  fresh_world)).
  reflexivity.
Defined.

(** ** Successful calls *)

Lemma build_reply_entry env (fields mfields : list (pystr * json)) (c rid c' : json)
    (w w' : World) :
  dict_lookup (u"message") fields = Some (JDict mfields) ->
  dict_lookup (u"content") mfields = Some c ->
  dict_lookup (u"request_id") fields = Some rid ->
  (if japanese_response_enabled (session_state w)
   then translate_message_content env c
   else ret c) w = (Returns c', w') ->
  build_analyst_message env (JDict fields) None w = (Returns (reply_entry c' rid), w').
Proof.
  intros Hm Hc Hr Ht. unfold build_analyst_message, subscript.
  rewrite Hm.
  rewrite (bind_returns _ (eq_refl : ret (JDict mfields) w = (Returns (JDict mfields), w))).
  rewrite Hc.
  rewrite (bind_returns _ (eq_refl : ret c w = (Returns c, w))).
  rewrite (bind_returns _ (eq_refl : get_state w = (Returns (session_state w), w))).
  rewrite (bind_returns _ Ht).
  rewrite Hr. reflexivity.
Qed.

Lemma successful_turn env (prompt : pystr) (w w' : World)
    (st : Z) (fields mfields : list (pystr * json)) (c rid c' : json) :
  send_snow_api_request env (api_log w)
    (request_for (history w ++ [user_message (transmission_text prompt w)]) w)
  = {| status := st; parsed := Some (JDict fields) |} ->
  (st < 400)%Z ->
  dict_lookup (u"message") fields = Some (JDict mfields) ->
  dict_lookup (u"content") mfields = Some c ->
  dict_lookup (u"request_id") fields = Some rid ->
  (if japanese_response_enabled (session_state w)
   then translate_message_content env c
   else ret c) (submitted prompt w) = (Returns c', w') ->
  process_user_input env prompt w
  = (Raises RerunException, snd (append_message (reply_entry c' rid) w'))
  /\ history (snd (process_user_input env prompt w))
     = history w ++ [user_message prompt; reply_entry c' rid]
  /\ fire_API_error_notify (session_state (snd (process_user_input env prompt w)))
     = fire_API_error_notify (session_state w).
Proof.
  intros H Hst Hm Hc Hr Ht.
  assert (E : process_user_input env prompt w
              = (Raises RerunException, snd (append_message (reply_entry c' rid) w'))).
  { rewrite process_user_input_reply. cbv zeta. rewrite H. cbn [parsed status].
    apply Z.ltb_lt in Hst. rewrite Hst.
    unfold close_turn. cbn [fst snd].
    rewrite (bind_returns _
               (build_reply_entry env fields mfields c rid c' (submitted prompt w) w'
                  Hm Hc Hr Ht)).
    reflexivity. }
  assert (S : session_state w' = session_state (submitted prompt w)).
  { destruct (japanese_response_enabled (session_state w)).
    - pose proof (passive_translate_message_content env c (submitted prompt w)) as [P _].
      rewrite Ht in P. now destruct P as (P & _).
    - injection Ht as _ <-. reflexivity. }
  rewrite E. split; [reflexivity|]. unfold history. cbn. rewrite S. cbn.
  rewrite <- app_assoc. split; reflexivity.
Qed.

(** X4. On a reply with a status below 400 whose body carries
    [message.content] and [request_id], the submission appends the user's
    message and then one analyst entry holding the content - translated when
    the Japanese-response setting is on - and the reply's request id; it
    ends by asking for a rerun and leaves the notification flag alone. *)
Theorem successful_reply_appends_analyst_entry env (prompt : pystr) (w w' : World)
    (st : Z) (fields mfields : list (pystr * json)) (c rid c' : json) :
  send_snow_api_request env (api_log w)
    (request_for (history w ++ [user_message (transmission_text prompt w)]) w)
  = {| status := st; parsed := Some (JDict fields) |} ->
  (st < 400)%Z ->
  dict_lookup (u"message") fields = Some (JDict mfields) ->
  dict_lookup (u"content") mfields = Some c ->
  dict_lookup (u"request_id") fields = Some rid ->
  (if japanese_response_enabled (session_state w)
   then translate_message_content env c
   else ret c) (submitted prompt w) = (Returns c', w') ->
  process_user_input env prompt w
  = (Raises RerunException, snd (append_message (reply_entry c' rid) w'))
  /\ history (snd (process_user_input env prompt w))
     = history w ++ [user_message prompt; reply_entry c' rid]
  /\ fire_API_error_notify (session_state (snd (process_user_input env prompt w)))
     = fire_API_error_notify (session_state w).
Proof. apply successful_turn. Qed.

Lemma successful_reply_appends_analyst_entry_witness :
  history (snd (process_user_input (quiet_env success_reply) (u"売上は？") fresh_world))
  = history fresh_world
    ++ [ user_message (u"売上は？");
         reply_entry (JList [text_block (u"答えは1です")]) (JStr (u"r-1")) ].
Proof.
  refine (proj1 (proj2
            (successful_reply_appends_analyst_entry (quiet_env success_reply)
               (u"売上は？") fresh_world (submitted (u"売上は？") fresh_world) 200
               _ _ _ _ _ _ _ _ _ _ _))).
  - reflexivity.
  - lia.
  - reflexivity.
  - reflexivity.
  - reflexivity.
  - reflexivity.
Defined.

(** X5. A success reply whose body lacks ["message"], or whose message lacks
    ["content"], stops the submission with the matching [KeyError] before
    anything is translated: the user's message is in the history and no
    analyst entry follows it. *)
Theorem success_reply_missing_key_raises env (prompt : pystr) (w : World) (st : Z)
    (fields : list (pystr * json)) :
  send_snow_api_request env (api_log w)
    (request_for (history w ++ [user_message (transmission_text prompt w)]) w)
  = {| status := st; parsed := Some (JDict fields) |} ->
  (st < 400)%Z ->
  (dict_lookup (u"message") fields = None ->
   process_user_input env prompt w
   = (Raises (KeyError (u"message")), submitted prompt w))
  /\ (forall mfields,
        dict_lookup (u"message") fields = Some (JDict mfields) ->
        dict_lookup (u"content") mfields = None ->
        process_user_input env prompt w
        = (Raises (KeyError (u"content")), submitted prompt w)).
Proof.
  intros H Hst. apply Z.ltb_lt in Hst.
  split; [intros Hm | intros mfields Hm Hc];
    rewrite process_user_input_reply; cbv zeta; rewrite H; cbn [parsed status];
    rewrite Hst; unfold close_turn, build_analyst_message, subscript; cbn [fst snd];
    rewrite Hm.
  - reflexivity.
  - apply bind_raises.
    rewrite (bind_returns _ (eq_refl : ret (JDict mfields) (submitted prompt w)
                                     = (Returns (JDict mfields), submitted prompt w))).
    rewrite Hc. reflexivity.
Qed.

Lemma success_reply_missing_key_raises_witness :
  process_user_input (quiet_env {| status := 200; parsed := Some (JDict []) |})
    (u"hi") fresh_world
  = (Raises (KeyError (u"message")), submitted (u"hi") fresh_world).
Proof.
  refine (proj1 (success_reply_missing_key_raises
                   (quiet_env {| status := 200; parsed := Some (JDict []) |})
                   (u"hi") fresh_world 200 [] _ _) _).
  - reflexivity.
  - lia.
  - reflexivity.
Defined.

(** ** Input handling and notification *)

(** X6. Chat text wins over a stored suggestion: it is submitted on the state
    as it stands, and the stored suggestion is neither submitted nor cleared
    by that pass. *)
Theorem chat_text_takes_precedence env (w : World) (c : char) (text : pystr) :
  st_chat_input env = Some (c :: text) ->
  handle_user_inputs env w = process_user_input env (c :: text) w
  /\ active_suggestion (session_state (snd (handle_user_inputs env w)))
     = active_suggestion (session_state w).
Proof.
  intros H.
  assert (E : handle_user_inputs env w = process_user_input env (c :: text) w).
  { unfold handle_user_inputs. now rewrite H. }
  split; [exact E|]. rewrite E.
  now destruct (process_user_input_step env (c :: text) w) as (_ & A & _).
Qed.

Lemma chat_text_takes_precedence_witness :
  active_suggestion
    (session_state
       (snd (handle_user_inputs
               (constant_env success_reply (BackendReturns [])
                  (BackendReturns one_row_frame) (ChatSubmitted (u"hello")))
               (world_with_suggestion (u"売上の推移は？")))))
  = Some (u"売上の推移は？").
Proof.
  refine (proj2 (chat_text_takes_precedence
                   (constant_env success_reply (BackendReturns [])
                      (BackendReturns one_row_frame) (ChatSubmitted (u"hello")))
                   (world_with_suggestion (u"売上の推移は？")) 104%N (u"ello") _)).
  reflexivity.
Defined.

(** X7. The toast for a failed call is shown once: after a failure reply that
    carries a [request_id], the next [handle_error_notifications] writes the
    toast, resets the flag to [False] and leaves the history alone, and a
    further run of it writes nothing. *)
Theorem failed_call_is_notified_once env (prompt : pystr) (w : World) (st : Z)
    (fields : list (pystr * json)) (rid : json) :
  send_snow_api_request env (api_log w)
    (request_for (history w ++ [user_message (transmission_text prompt w)]) w)
  = {| status := st; parsed := Some (JDict fields) |} ->
  (400 <= st)%Z ->
  dict_lookup (u"request_id") fields = Some rid ->
  let w1 := snd (process_user_input env prompt w) in
  let w2 := snd (handle_error_notifications w1) in
  page w2 = page w1 ++ [StToast (u"APIエラーが発生しました！") (u"🚨")]
  /\ fire_API_error_notify (session_state w2) = Some false
  /\ history w2 = history w1
  /\ handle_error_notifications w2 = (Returns tt, w2).
Proof.
  intros H Hst Hrid w1 w2.
  pose proof (failed_call_turn env prompt w st fields H Hst) as T.
  cbv zeta in T. rewrite Hrid in T. destruct T as (_ & _ & T).
  fold w1 in T.
  destruct (error_notification_shown_once w1 T) as (_ & P & F & I).
  fold w2 in P, F, I. repeat split; try assumption.
  unfold w2, handle_error_notifications, bind, get_state, api_error_notify_pending.
  cbn. rewrite T. reflexivity.
Qed.

Lemma failed_call_is_notified_once_witness :
  fire_API_error_notify
    (session_state
       (snd (handle_error_notifications
               (snd (process_user_input (quiet_env not_found_reply_with_id) (u"hi")
                       fresh_world)))))
  = Some false.
Proof.
  refine (proj1 (proj2
            (failed_call_is_notified_once (quiet_env not_found_reply_with_id) (u"hi")
               fresh_world 404 _ (JStr (u"r-2")) _ _ _))).
  - reflexivity.
  - lia.
  - reflexivity.
Defined.

(** Without a pending flag - absent or [False] - the handler writes
    nothing and changes nothing. *)
Lemma no_pending_notification_is_silent (w : World) :
  api_error_notify_pending (session_state w) = false ->
  handle_error_notifications w = (Returns tt, w).
Proof.
  intros H. unfold handle_error_notifications, bind, get_state. cbn. now rewrite H.
Qed.

(** ** Reset *)

(** X8. A reset empties the history and the stored suggestion whatever they
    held, and keeps the settings, the notification flag and the query cache;
    the first submission after it sends a request whose only message is that
    submission's own turn. *)
Theorem reset_forgets_conversation env (prompt : pystr) (w : World) :
  fst (reset_session_state w) = Returns tt
  /\ history (snd (reset_session_state w)) = []
  /\ active_suggestion (session_state (snd (reset_session_state w))) = None
  /\ fire_API_error_notify (session_state (snd (reset_session_state w)))
     = fire_API_error_notify (session_state w)
  /\ japanese_response (session_state (snd (reset_session_state w)))
     = japanese_response (session_state w)
  /\ query_cache (snd (reset_session_state w)) = query_cache w
  /\ api_log (snd (process_user_input env prompt (snd (reset_session_state w))))
     = api_log w ++ [request_for [user_message (transmission_text prompt w)] w]
  /\ reset_session_state (snd (reset_session_state w))
     = (Returns tt, snd (reset_session_state w)).
Proof.
  repeat split.
  destruct (process_user_input_step env prompt (snd (reset_session_state w)))
    as (A & _).
  rewrite A. reflexivity.
Qed.

(** ** Rendering *)

Lemma render_frame_refl (w : World) : render_frame w w.
Proof.
  repeat split; [exists [] | exists []]; simpl; now rewrite app_nil_r.
Qed.

Lemma render_frame_trans (w1 w2 w3 : World) :
  render_frame w1 w2 -> render_frame w2 w3 -> render_frame w1 w3.
Proof.
  intros (A1 & B1 & C1 & D1 & E1 & [p1 F1] & [q1 G1])
         (A2 & B2 & C2 & D2 & E2 & [p2 F2] & [q2 G2]).
  repeat split; try congruence.
  - exists (p1 ++ p2). now rewrite F2, F1, app_assoc.
  - exists (q1 ++ q2). now rewrite G2, G1, map_app, app_assoc.
Qed.

Lemma rendering_same_world env {A} (c : M A) :
  (forall w, snd (c w) = w /\ fst (c w) <> Raises RerunException) ->
  rendering env c.
Proof.
  intros H w. destruct (H w) as [E R]. rewrite E.
  split; [apply render_frame_refl | split; [exact R | reflexivity]].
Qed.

Lemma rendering_ret env {A} (a : A) : rendering env (ret a).
Proof. apply rendering_same_world. intros w. split; [reflexivity | discriminate]. Qed.

Lemma rendering_subscript env (v : json) (key : pystr) : rendering env (subscript v key).
Proof.
  apply rendering_same_world. intros w. unfold subscript.
  destruct v; try (split; [reflexivity | discriminate]).
  destruct (dict_lookup key fields); split; try reflexivity; discriminate.
Qed.

Lemma rendering_iterate env (v : json) : rendering env (iterate v).
Proof.
  apply rendering_same_world. intros w.
  destruct v; split; try reflexivity; discriminate.
Qed.

Lemma rendering_as_str env (v : json) : rendering env (as_str v).
Proof.
  apply rendering_same_world. intros w.
  destruct v; split; try reflexivity; discriminate.
Qed.

Lemma rendering_st env (x : Widget) : rendering env (st x).
Proof.
  intros w. split; [|split; [discriminate | reflexivity]].
  repeat split; [now exists [x] | exists []; simpl; now rewrite app_nil_r].
Qed.

Lemma rendering_bind env {A B} (c : M A) (k : A -> M B) :
  rendering env c -> (forall a, rendering env (k a)) -> rendering env (bind c k).
Proof.
  intros Hc Hk w. unfold bind.
  destruct (Hc w) as (F & R & S). destruct (c w) as [[a|e] w1]; simpl in *.
  - destruct (Hk a w1) as (F' & R' & S').
    split; [eapply render_frame_trans; eassumption|].
    split; [exact R'|]. intros N. now rewrite (S' N), (S N).
  - split; [exact F|]. split; [|exact S].
    intros H. apply R. injection H as ->. reflexivity.
Qed.

Lemma rendering_for_each env {A} (f : A -> M unit) (l : list A) :
  (forall a, rendering env (f a)) -> rendering env (for_each f l).
Proof.
  intros Hf. induction l as [|x l IH]; simpl; [apply rendering_ret|].
  apply rendering_bind; [apply Hf | intros _; exact IH].
Qed.

Lemma rendering_for_each_from env {A} (f : nat -> A -> M unit) (i : nat) (l : list A) :
  (forall j a, rendering env (f j a)) -> rendering env (for_each_from f i l).
Proof.
  intros Hf. revert i. induction l as [|x l IH]; intros i; simpl;
    [apply rendering_ret|].
  apply rendering_bind; [apply Hf | intros _; apply IH].
Qed.

Lemma rendering_get_query_exec_result env (query : pystr) :
  rendering env (get_query_exec_result env query).
Proof.
  intros w. destruct (cache_find query (query_cache w)) as [r|] eqn:E.
  - rewrite (get_query_exec_result_hit env query r w E).
    split; [|split; [discriminate | reflexivity]].
    repeat split; exists []; simpl; now rewrite app_nil_r.
  - rewrite (get_query_exec_result_miss env query w E).
    destruct (session_sql_to_pandas env (sql_log w) query); cbn [exec_outcome];
      (split; [|split; [discriminate | reflexivity]]);
      repeat split; try (exists []; simpl; now rewrite app_nil_r); now exists [query].
Qed.

Lemma rendering_display_charts_tab env (df : DataFrame) (idx : nat) :
  rendering env (display_charts_tab env df idx).
Proof.
  unfold display_charts_tab.
  destruct (2 <=? List.length (columns df))%nat; [|apply rendering_st].
  intros w. destruct (charts_failure env df idx (page w)) as [e|].
  - split; [apply render_frame_refl | split; [discriminate | reflexivity]].
  - apply rendering_st.
Qed.

Lemma rendering_display_sql_query env (sql : pystr) (idx : nat) :
  rendering env (display_sql_query env sql idx).
Proof.
  unfold display_sql_query.
  repeat (apply rendering_bind; [apply rendering_st | intros _]).
  apply rendering_bind; [apply rendering_get_query_exec_result|].
  intros [[df|] err]; [|apply rendering_st].
  destruct (empty df); [apply rendering_st|].
  repeat (apply rendering_bind; [apply rendering_st | intros _]).
  apply rendering_display_charts_tab.
Qed.

Lemma rendering_display_suggestion env (idx j : nat) (v : json) :
  rendering env (display_suggestion env idx j v).
Proof.
  unfold display_suggestion.
  apply rendering_bind; [apply rendering_as_str|]. intros s.
  generalize (suggestion_key idx j). intros k0 w. unfold bind, st_button, st. cbn.
  destruct (interaction env) as [| text | key] eqn:I;
    try (split; [|split; [discriminate | reflexivity]];
         repeat split; [now eexists | exists []; simpl; now rewrite app_nil_r]).
  destruct (str_eqb key k0); cbn.
  - split; [|split; [discriminate|]].
    + repeat split; [now eexists | exists []; simpl; now rewrite app_nil_r].
    + intros N. now destruct (N key).
  - split; [|split; [discriminate | reflexivity]].
    repeat split; [now eexists | exists []; simpl; now rewrite app_nil_r].
Qed.

Lemma rendering_display_item env (idx : nat) (item : json) :
  rendering env (display_item env idx item).
Proof.
  unfold display_item.
  apply rendering_bind; [apply rendering_subscript|]. intros ty.
  destruct (eq_str ty (u "text")).
  { apply rendering_bind; [apply rendering_subscript | intros t; apply rendering_st]. }
  destruct (eq_str ty (u "suggestions")).
  { apply rendering_bind; [apply rendering_st | intros _].
    apply rendering_bind; [apply rendering_subscript | intros ss].
    apply rendering_bind; [apply rendering_iterate | intros l].
    apply rendering_for_each_from. intros j a. apply rendering_display_suggestion. }
  destruct (eq_str ty (u "sql")); [|apply rendering_ret].
  apply rendering_bind; [apply rendering_subscript | intros s].
  apply rendering_bind; [apply rendering_as_str | intros s'].
  apply rendering_display_sql_query.
Qed.

Lemma rendering_display_message_content env (c : json) (idx : nat) :
  rendering env (display_message_content env c idx).
Proof.
  unfold display_message_content.
  apply rendering_bind; [apply rendering_iterate | intros items].
  apply rendering_for_each. intros item. apply rendering_display_item.
Qed.

Lemma rendering_display_conversation env : rendering env (display_conversation env).
Proof.
  unfold display_conversation.
  apply rendering_bind; [apply rendering_same_world; intros w;
                         split; [reflexivity | discriminate]|].
  intros s. apply rendering_for_each_from. intros idx m.
  apply rendering_bind; [apply rendering_st | intros _].
  apply rendering_display_message_content.
Qed.

(** X9. Rendering the conversation never changes the history, the
    notification flag or the settings, never calls the analyst API and never
    asks for a rerun, whatever the stored messages contain; it only appends
    widgets to the page and [to_pandas] calls to the Snowpark log.  In a run
    that no button click triggered it leaves the whole session state as it
    was. *)
Theorem display_conversation_only_renders env (w : World) :
  history (snd (display_conversation env w)) = history w
  /\ fire_API_error_notify (session_state (snd (display_conversation env w)))
     = fire_API_error_notify (session_state w)
  /\ japanese_response (session_state (snd (display_conversation env w)))
     = japanese_response (session_state w)
  /\ api_log (snd (display_conversation env w)) = api_log w
  /\ (exists widgets, page (snd (display_conversation env w)) = page w ++ widgets)
  /\ (exists queries,
        sql_log (snd (display_conversation env w))
        = sql_log w ++ map ToPandas queries)
  /\ fst (display_conversation env w) <> Raises RerunException
  /\ (no_button_clicked env ->
      session_state (snd (display_conversation env w)) = session_state w).
Proof.
  destruct (rendering_display_conversation env w)
    as ((A & B & C & D & E & F & G) & R & S).
  repeat split; assumption.
Qed.

Lemma display_conversation_only_renders_witness :
  session_state
    (snd (display_conversation (quiet_env success_reply)
            (snd (process_user_input (quiet_env success_reply) (u"売上は？")
                    fresh_world))))
  = session_state
      (snd (process_user_input (quiet_env success_reply) (u"売上は？") fresh_world)).
Proof.
  apply (display_conversation_only_renders (quiet_env success_reply)
           (snd (process_user_input (quiet_env success_reply) (u"売上は？")
                   fresh_world))).
  intros key. discriminate.
Defined.

(** ** Query blocks *)

Lemma write_all_facts (widgets : list Widget) (w : World) :
  for_each st widgets w = (Returns tt, write_all widgets w)
  /\ session_state (write_all widgets w) = session_state w
  /\ query_cache (write_all widgets w) = query_cache w
  /\ api_log (write_all widgets w) = api_log w
  /\ sql_log (write_all widgets w) = sql_log w
  /\ page (write_all widgets w) = page w ++ widgets.
Proof.
  unfold write_all. revert w.
  induction widgets as [|x ws IH]; intros w.
  - simpl. now rewrite app_nil_r.
  - cbn [for_each]. rewrite (bind_returns _ (eq_refl : st x w = (Returns tt, _))).
    destruct (IH (snd (st x w))) as (A & B & C & D & E & F).
    cbn [snd st] in *. rewrite A. cbn [snd].
    repeat split; try assumption.
    rewrite F. cbn. now rewrite <- app_assoc.
Qed.

(** The world after writing widgets, field by field. *)
Lemma write_all_eq (widgets : list Widget) (w : World) :
  write_all widgets w
  = {| session_state := session_state w; query_cache := query_cache w;
       api_log := api_log w; sql_log := sql_log w; page := page w ++ widgets |}.
Proof.
  unfold write_all. revert w.
  induction widgets as [|x ws IH]; intros w.
  - destruct w. cbn. now rewrite app_nil_r.
  - cbn [for_each]. rewrite (bind_returns _ (eq_refl : st x w = (Returns tt, _))).
    rewrite IH. cbn. now rewrite <- app_assoc.
Qed.

(** Widgets on the page do not bear on an execution: it neither reads nor
    writes them. *)
Lemma get_query_exec_result_after_writes env (q : pystr) (widgets : list Widget)
    (w : World) :
  get_query_exec_result env q (write_all widgets w)
  = (fst (get_query_exec_result env q w),
     write_all widgets (snd (get_query_exec_result env q w))).
Proof.
  rewrite !write_all_eq.
  unfold get_query_exec_result, st_cache_data. cbn [query_cache].
  destruct (cache_find q (query_cache w)) as [r|]; [reflexivity|].
  unfold get_query_exec_result_body, bind, sql_to_pandas. cbn [sql_log].
  destruct (session_sql_to_pandas env (sql_log w) q); reflexivity.
Qed.

Lemma display_sql_query_eq env (sql : pystr) (idx : nat) (w w' : World)
    (r : QueryExecResult) :
  get_query_exec_result env sql (write_all (sql_header_widgets sql) w) = (Returns r, w') ->
  without_chart r = true ->
  display_sql_query env sql idx w = (Returns tt, write_all (sql_result_widgets r idx) w').
Proof.
  intros H C.
  transitivity
    ((r <- get_query_exec_result env sql ;;
      match r with
      | (None, err_msg) =>
          st (StError (u"生成されたSQLクエリを実行できませんでした。エラー: "
                       ++ match err_msg with
                          | Some e => e
                          | None => u"None"
                          end))
      | (Some df, _) =>
          if empty df then st (StWrite (u"クエリはデータを返しませんでした"))
          else
            st StTabs ;;
            st (StDataframe df) ;;
            display_charts_tab env df idx
      end) (write_all (sql_header_widgets sql) w)); [reflexivity|].
  rewrite (bind_returns _ H).
  destruct r as [[df|] err]; [|reflexivity].
  unfold sql_result_widgets, without_chart, display_charts_tab in *.
  destruct (empty df); [reflexivity|].
  destruct (2 <=? List.length (columns df))%nat; [discriminate | reflexivity].
Qed.

(** X10. When the execution of its statement gives a result that leaves the
    charts tab nothing to select on - the error text of a
    [SnowparkSQLException], an empty frame, a frame of fewer than two
    columns - a query block raises nothing and writes the two expanders,
    the statement and the spinner, then the error panel, the no-data note, or
    the tabs with the frame and the two-column note.  Rendering the same
    statement again writes the same widgets and does not reach the backend:
    the first rendering reaches it at most once, a failure included. *)
Theorem query_block_rerenders_from_cache env (sql : pystr) (idx : nat) (w : World)
    (r : QueryExecResult) :
  fst (get_query_exec_result env sql w) = Returns r ->
  without_chart r = true ->
  let w1 := snd (display_sql_query env sql idx w) in
  let w2 := snd (display_sql_query env sql idx w1) in
  fst (display_sql_query env sql idx w) = Returns tt
  /\ fst (display_sql_query env sql idx w1) = Returns tt
  /\ page w1 = page w ++ sql_header_widgets sql ++ sql_result_widgets r idx
  /\ page w2 = page w1 ++ sql_header_widgets sql ++ sql_result_widgets r idx
  /\ sql_log w2 = sql_log w1
  /\ (sql_log w1 = sql_log w \/ sql_log w1 = sql_log w ++ [ToPandas sql]).
Proof.
  intros Hr C. cbv zeta.
  destruct (get_query_exec_result_returned env sql r w Hr)
    as (_ & (post & C1) & P1 & L1).
  pose proof (get_query_exec_result_after_writes env sql (sql_header_widgets sql) w)
    as E1.
  rewrite Hr in E1.
  rewrite (display_sql_query_eq env sql idx w _ r E1 C). cbn [fst snd].
  set (wa := snd (get_query_exec_result env sql w)) in *.
  set (w1 := write_all (sql_result_widgets r idx)
               (write_all (sql_header_widgets sql) wa)).
  assert (Hit : cache_find sql (query_cache w1) = Some r).
  { unfold w1. rewrite !write_all_eq. cbn [query_cache]. rewrite C1.
    cbn [cache_find]. now rewrite str_eqb_refl. }
  pose proof (get_query_exec_result_after_writes env sql (sql_header_widgets sql) w1)
    as E2.
  rewrite (get_query_exec_result_hit env sql r w1 Hit) in E2. cbn [fst snd] in E2.
  rewrite (display_sql_query_eq env sql idx w1 _ r E2 C). cbn [fst snd].
  split; [reflexivity|]. split; [reflexivity|].
  unfold w1. rewrite !write_all_eq. unfold set_query_cache. cbn [page sql_log].
  rewrite P1.
  split; [now rewrite <- app_assoc|]. split; [now rewrite <- !app_assoc|].
  split; [reflexivity|].
  destruct L1 as [L1 | (_ & _ & L1)]; [now left | now right].
Qed.

Lemma query_block_rerenders_from_cache_witness :
  page (snd (display_sql_query failing_backend_env (u"SELECT 1") 0 fresh_world))
  = page fresh_world
    ++ sql_header_widgets (u"SELECT 1")
    ++ [StError (u"生成されたSQLクエリを実行できませんでした。エラー: SQL compilation error")]
  /\ sql_log (snd (display_sql_query failing_backend_env (u"SELECT 1") 0
                     (snd (display_sql_query failing_backend_env (u"SELECT 1") 0
                             fresh_world))))
     = sql_log (snd (display_sql_query failing_backend_env (u"SELECT 1") 0 fresh_world)).
Proof.
  refine (let H := query_block_rerenders_from_cache failing_backend_env (u"SELECT 1") 0
                     fresh_world (None, Some (u"SQL compilation error")) _ _ in
          conj (proj1 (proj2 (proj2 H))) (proj1 (proj2 (proj2 (proj2 (proj2 H)))))).
  - reflexivity.
  - reflexivity.
Defined.

(** An exception of the backend other than [SnowparkSQLException] leaves
    the query block once the header is on the page. *)
Lemma query_block_passes_on_exception env (sql e : pystr) (idx : nat) (w : World) :
  cache_find sql (query_cache w) = None ->
  session_sql_to_pandas env (sql_log w) sql = ExceptionRaised e ->
  display_sql_query env sql idx w
  = (Raises (OtherException e),
     log_sql (ToPandas sql) (write_all (sql_header_widgets sql) w)).
Proof.
  intros Hmiss Hfail.
  transitivity
    ((r <- get_query_exec_result env sql ;;
      match r with
      | (None, err_msg) =>
          st (StError (u"生成されたSQLクエリを実行できませんでした。エラー: "
                       ++ match err_msg with
                          | Some e => e
                          | None => u"None"
                          end))
      | (Some df, _) =>
          if empty df then st (StWrite (u"クエリはデータを返しませんでした"))
          else
            st StTabs ;;
            st (StDataframe df) ;;
            display_charts_tab env df idx
      end) (write_all (sql_header_widgets sql) w)); [reflexivity|].
  apply bind_raises.
  rewrite get_query_exec_result_after_writes.
  destruct (uncaught_exception_is_not_stored env sql e w Hmiss Hfail) as (E & _).
  rewrite E. cbn [fst snd]. now rewrite !write_all_eq.
Qed.

(** ** Helpers for loops that return *)

Lemma bind_returns_tt {A} (c : M A) (k : A -> M unit) :
  (forall w, exists a, fst (c w) = Returns a) ->
  (forall a w, fst (k a w) = Returns tt) ->
  forall w, fst (bind c k w) = Returns tt.
Proof.
  intros Hc Hk w. unfold bind. destruct (Hc w) as [a Ha].
  destruct (c w) as [[a'|e] w1]; simpl in Ha; [apply Hk | discriminate].
Qed.

Lemma st_returns (x : Widget) (w : World) : exists a, fst (st x w) = Returns a.
Proof. now exists tt. Qed.

Lemma for_each_from_returns {A} (f : nat -> A -> M unit) (l : list A) :
  Forall (fun a => forall j w, fst (f j a w) = Returns tt) l ->
  forall i w, fst (for_each_from f i l w) = Returns tt.
Proof.
  induction 1 as [|x l Hx Hl IH]; intros i w; [reflexivity|].
  cbn [for_each_from]. apply bind_returns_tt.
  - intros w0. exists tt. apply Hx.
  - intros _ w0. apply IH.
Qed.

Lemma for_each_returns {A} (f : A -> M unit) (l : list A) :
  (forall a w, fst (f a w) = Returns tt) ->
  forall w, fst (for_each f l w) = Returns tt.
Proof.
  intros Hf. induction l as [|x l IH]; intros w; [reflexivity|].
  cbn [for_each]. apply bind_returns_tt.
  - intros w0. exists tt. apply Hf.
  - intros _ w0. apply IH.
Qed.

Lemma display_suggestion_returns env (idx j : nat) (s : pystr) (w : World) :
  fst (display_suggestion env idx j (JStr s) w) = Returns tt.
Proof.
  unfold display_suggestion. generalize (suggestion_key idx j). intros k0.
  unfold bind, st_button, st. cbn.
  destruct (interaction env); try reflexivity.
  destruct (str_eqb key k0); reflexivity.
Qed.

(** ** Elements without a discriminator *)

Lemma for_each_app {A} (f : A -> M unit) (a b : list A) (w w1 : World) :
  for_each f a w = (Returns tt, w1) ->
  for_each f (a ++ b) w = for_each f b w1.
Proof.
  revert w. induction a as [|x a IH]; intros w H; simpl in *.
  - now injection H as <-.
  - rewrite bind_eq in *. destruct (f x w) as [[[]|e] w0]; [now apply IH | discriminate].
Qed.

(** X12. An element that has no ["type"] key stops the rendering of a message
    with [KeyError('type')]: the well-formed elements before it are on the
    page, the elements after it are not looked at. *)
Theorem element_without_type_stops_rendering env (idx : nat) (good rest : list json)
    (fields : list (pystr * json)) (w w1 : World) :
  Forall well_formed good ->
  dict_lookup (u"type") fields = None ->
  for_each (render_block env idx) (classify good) w = (Returns tt, w1) ->
  display_message_content env (JList (good ++ JDict fields :: rest)) idx w
  = (Raises (KeyError (u"type")), w1).
Proof.
  intros W Hty Hgood.
  change (display_message_content env (JList (good ++ JDict fields :: rest)) idx w)
    with (for_each (display_item env idx) (good ++ JDict fields :: rest) w).
  rewrite <- (display_items_classified env idx good w W) in Hgood.
  rewrite (for_each_app (display_item env idx) good (JDict fields :: rest) w w1 Hgood).
  cbn [for_each]. apply bind_raises.
  unfold display_item. apply bind_raises.
  unfold subscript. now rewrite Hty.
Qed.

Lemma element_without_type_stops_rendering_witness :
  display_message_content (quiet_env success_reply)
    (JList ([text_block (u"A")]
            ++ JDict [ (u"text", JStr (u"B")) ] :: [text_block (u"C")]))
    0 fresh_world
  = (Raises (KeyError (u"type")), write_all [StMarkdown (JStr (u"A"))] fresh_world).
Proof.
  apply (element_without_type_stops_rendering (quiet_env success_reply) 0
           [text_block (u"A")] [text_block (u"C")] [ (u"text", JStr (u"B")) ]
           fresh_world (write_all [StMarkdown (JStr (u"A"))] fresh_world)).
  - repeat constructor.
    exists [ (u"type", JStr (u"text")); (u"text", JStr (u"A")) ], (JStr (u"text")).
    split; [reflexivity|]. split; [reflexivity|]. right. discriminate.
  - reflexivity.
  - reflexivity.
Defined.

(** ** The initial suggestions *)

Lemma display_initial_suggestions_idle env (w : World) :
  no_button_clicked env ->
  display_initial_suggestions env w
  = (Returns tt, write_all initial_suggestion_widgets w).
Proof.
  intros N. unfold display_initial_suggestions, for_enumerate, SUGGESTED_QUESTIONS.
  cbn [for_each_from]. unfold initial_suggestion, st_button.
  destruct (interaction env) as [| text | key] eqn:I;
    [reflexivity | reflexivity | now destruct (N key)].
Qed.

Lemma close_turn_raises env (r : json * option pystr) (w : World) :
  exists e, fst (close_turn env r w) = Raises e.
Proof.
  unfold close_turn, bind.
  destruct (build_analyst_message env (fst r) (snd r) w) as [[m|e] w1]; cbn; eauto.
Qed.

(** A submission never returns normally: it ends in [st.rerun()] or in an
    exception. *)
Lemma process_user_input_raises env (prompt : pystr) (w : World) :
  exists e, fst (process_user_input env prompt w) = Raises e.
Proof.
  rewrite process_user_input_eq, bind_eq.
  destruct (get_analyst_response env _ (opened_turn prompt w)) as [[r|e] w1];
    [apply close_turn_raises | cbn; eauto].
Qed.

Lemma bind_after_raise (c : M unit) (k : unit -> M unit) (w : World) :
  (exists e, fst (c w) = Raises e) -> bind c k w = c w.
Proof.
  intros [e H]. rewrite bind_eq. destruct (c w) as [[[]|e'] w1];
    [discriminate | reflexivity].
Qed.

Lemma initial_suggestion_clicked env (n : nat) (question : pystr) (w : World) :
  interaction env = ButtonClicked (u"initial_suggestion_" ++ str_of_nat (S n)) ->
  initial_suggestion env n question w
  = process_user_input env question
      (write_all [StButton question (u"initial_suggestion_" ++ str_of_nat (S n))] w).
Proof.
  intros H. unfold initial_suggestion, st_button. rewrite H, str_eqb_refl.
  rewrite !bind_eq. reflexivity.
Qed.

Lemma initial_suggestion_other env (n : nat) (question key : pystr) (w : World) :
  interaction env = ButtonClicked key ->
  str_eqb key (u"initial_suggestion_" ++ str_of_nat (S n)) = false ->
  initial_suggestion env n question w
  = (Returns tt,
     write_all [StButton question (u"initial_suggestion_" ++ str_of_nat (S n))] w).
Proof.
  intros H E. unfold initial_suggestion, st_button. rewrite H, E.
  rewrite !bind_eq. reflexivity.
Qed.

(** X13. The three initial buttons: in a run that no button click triggered
    they are written and nothing else happens; a click on the button of
    question [n] submits exactly that question, once the buttons up to it
    are on the page, and the buttons after it are not written. *)
Theorem initial_suggestion_click_submits_question env (w : World) :
  (no_button_clicked env ->
   display_initial_suggestions env w
   = (Returns tt, write_all initial_suggestion_widgets w))
  /\ (forall n question,
        nth_error SUGGESTED_QUESTIONS n = Some question ->
        interaction env = ButtonClicked (u"initial_suggestion_" ++ str_of_nat (S n)) ->
        display_initial_suggestions env w
        = process_user_input env question
            (write_all (firstn (S (S n)) initial_suggestion_widgets) w)).
Proof.
  split; [apply display_initial_suggestions_idle|].
  intros n question Hq Hclick.
  unfold display_initial_suggestions, for_enumerate, SUGGESTED_QUESTIONS.
  cbn [for_each_from].
  rewrite (bind_returns _ (eq_refl : st (StSubheader (u"💡 こんな質問ができます")) w
                                     = (Returns tt, _))).
  destruct n as [|[|[|n]]]; cbn in Hq; try (destruct n; discriminate);
    injection Hq as <-.
  - rewrite bind_after_raise;
      rewrite (initial_suggestion_clicked env 0 _ _ Hclick);
      [reflexivity | apply process_user_input_raises].
  - rewrite (bind_returns _ (initial_suggestion_other env 0 _ _ _ Hclick eq_refl)).
    rewrite bind_after_raise;
      rewrite (initial_suggestion_clicked env 1 _ _ Hclick);
      [reflexivity | apply process_user_input_raises].
  - rewrite (bind_returns _ (initial_suggestion_other env 0 _ _ _ Hclick eq_refl)).
    rewrite (bind_returns _ (initial_suggestion_other env 1 _ _ _ Hclick eq_refl)).
    rewrite bind_after_raise;
      rewrite (initial_suggestion_clicked env 2 _ _ Hclick);
      [reflexivity | apply process_user_input_raises].
Qed.

Lemma initial_suggestion_click_submits_question_witness :
  display_initial_suggestions
    (constant_env success_reply (BackendReturns []) (BackendReturns one_row_frame)
       (ButtonClicked (u"initial_suggestion_2")))
    fresh_world
  = process_user_input
      (constant_env success_reply (BackendReturns []) (BackendReturns one_row_frame)
         (ButtonClicked (u"initial_suggestion_2")))
      (u"データの概要を教えてください")
      (write_all (firstn 3 initial_suggestion_widgets) fresh_world).
Proof.
  refine (proj2 (initial_suggestion_click_submits_question
                   (constant_env success_reply (BackendReturns [])
                      (BackendReturns one_row_frame)
                      (ButtonClicked (u"initial_suggestion_2")))
                   fresh_world) 1%nat _ _ _).
  - reflexivity.
  - reflexivity.
Defined.

(** ** The notification handler *)

Lemma handle_error_notifications_facts (w : World) :
  fst (handle_error_notifications w) = Returns tt
  /\ history (snd (handle_error_notifications w)) = history w
  /\ active_suggestion (session_state (snd (handle_error_notifications w)))
     = active_suggestion (session_state w)
  /\ japanese_response (session_state (snd (handle_error_notifications w)))
     = japanese_response (session_state w)
  /\ api_log (snd (handle_error_notifications w)) = api_log w
  /\ api_error_notify_pending (session_state (snd (handle_error_notifications w)))
     = false.
Proof.
  destruct (api_error_notify_pending (session_state w)) eqn:P.
  - unfold handle_error_notifications, bind, get_state. cbn. rewrite P. cbn.
    repeat split.
  - rewrite (no_pending_notification_is_silent w P). cbn. repeat split. exact P.
Qed.

(** ** Translation of message content *)

Lemma collect_each_Forall2 {A B} (f : A -> M B) (R : A -> B -> Prop) :
  (forall a w b, fst (f a w) = Returns b -> R a b) ->
  forall l w ys, fst (collect_each f l w) = Returns ys -> Forall2 R l ys.
Proof.
  intros Hf. induction l as [|x l IH]; intros w ys H; cbn [collect_each] in H.
  - injection H as <-. constructor.
  - rewrite bind_eq in H. destruct (f x w) as [[y|e] w1] eqn:E; [|discriminate].
    rewrite bind_eq in H.
    destruct (collect_each f l w1) as [[ys'|e] w2] eqn:E'; [|discriminate].
    injection H as <-. constructor.
    + apply (Hf x w y). now rewrite E.
    + apply (IH w1 ys'). now rewrite E'.
Qed.

Lemma translate_value_translated env (v : json) (w : World) (v' : json) :
  fst (translate_value env v w) = Returns v' -> value_translated v v'.
Proof.
  intros H. destruct (translate_value_returns env v w) as [(s & t & -> & E) | (N & E)];
    rewrite E in H; injection H as <-.
  - now exists t.
  - destruct v; try reflexivity. now destruct (N s).
Qed.

Lemma translate_item_translated_as env (item : json) (w : World) (item' : json) :
  fst (translate_item env item w) = Returns item' -> translated_as item item'.
Proof.
  unfold translate_item, translated_as, subscript at 1.
  destruct item; try discriminate.
  destruct (dict_lookup (u "type") fields) as [ty|] eqn:T; [|discriminate].
  rewrite (bind_returns _ (eq_refl : ret ty w = (Returns ty, w))).
  intros H. exists fields, ty. split; [reflexivity|]. split; [exact T|].
  destruct (eq_str ty (u "text")) eqn:E1.
  - left. split; [reflexivity|].
    rewrite bind_eq in H. unfold subscript in H.
    destruct (dict_lookup (u "text") fields) as [t|]; [|discriminate].
    cbn [ret] in H. rewrite bind_eq in H.
    destruct (translate_value env t w) as [[t'|e] w2] eqn:Et; [|discriminate].
    injection H as <-. exists t, t'. split; [reflexivity|]. split; [reflexivity|].
    apply (translate_value_translated env t w). now rewrite Et.
  - destruct (eq_str ty (u "suggestions")) eqn:E2.
    + right. left. split; [reflexivity|]. split; [reflexivity|].
      rewrite bind_eq in H. unfold subscript in H.
      destruct (dict_lookup (u "suggestions") fields) as [v|]; [|discriminate].
      cbn [ret] in H. rewrite bind_eq in H.
      destruct (iterate v w) as [[l|e] w2] eqn:Ei; [|discriminate].
      rewrite bind_eq in H.
      destruct (collect_each (translate_value env) l w2) as [[ss|e] w3] eqn:Ec;
        [|discriminate].
      injection H as <-. exists v, ss. split; [reflexivity|]. split; [reflexivity|].
      intros vs ->. cbn in Ei. injection Ei as <- <-.
      apply (collect_each_Forall2 (translate_value env) value_translated
               (translate_value_translated env) vs w ss).
      now rewrite Ec.
    + right. right. injection H as <-. now repeat split.
Qed.

Lemma translate_message_content_off env (c : json) (w : World) :
  japanese_response_enabled (session_state w) = false ->
  translate_message_content env c w = (Returns c, w).
Proof.
  intros H. unfold translate_message_content, bind, get_state. now rewrite H.
Qed.

Lemma translate_message_content_on env (items : list json) (w : World) :
  japanese_response_enabled (session_state w) = true ->
  translate_message_content env (JList items) w
  = (translated_content <- collect_each (translate_item env) items ;;
     ret (JList translated_content)) w.
Proof.
  intros H. unfold translate_message_content.
  rewrite (bind_returns _ (eq_refl : get_state w = (Returns (session_state w), w))).
  rewrite H. reflexivity.
Qed.

(** X15. [translate_message_content] works block by block.  With the
    Japanese-response setting off it returns its argument untouched and does
    nothing.  With the setting on, whenever it returns, the result is a list
    with one block per input element, in the same order: for a text element
    a two-key text block - around a [str] when the element's text is a
    [str], around the very value otherwise; for a suggestions element a
    two-key suggestions block around a list with a [str] for each [str] and
    every other value as it came; and every other element - a query block
    in particular - exactly as it came.  It never changes the session state,
    the cache or the API log. *)
Theorem translate_message_content_structure env (w : World) :
  (forall c,
     japanese_response_enabled (session_state w) = false ->
     translate_message_content env c w = (Returns c, w))
  /\ (forall items c',
        japanese_response_enabled (session_state w) = true ->
        fst (translate_message_content env (JList items) w) = Returns c' ->
        exists items', c' = JList items' /\ Forall2 translated_as items items')
  /\ (forall c, untouched w (snd (translate_message_content env c w))).
Proof.
  split; [intros c; apply translate_message_content_off|].
  split.
  - intros items c' H R. rewrite (translate_message_content_on env items w H) in R.
    rewrite bind_eq in R.
    destruct (collect_each (translate_item env) items w) as [[ys|e] w1] eqn:E;
      [|discriminate].
    injection R as <-. exists ys. split; [reflexivity|].
    apply (collect_each_Forall2 (translate_item env) translated_as
             (translate_item_translated_as env) items w ys).
    now rewrite E.
  - intros c. apply passive_translate_message_content.
Qed.

Lemma translate_message_content_structure_witness :
  exists items',
    JList [ JDict [ (u"type", JStr (u"text")); (u"text", JInt 5) ];
            text_block (u"総売上");
            raw_block (Query (u"SELECT 1")) ]
    = JList items'
    /\ Forall2 translated_as
         [ JDict [ (u"type", JStr (u"text")); (u"text", JInt 5); (u"note", JNull) ];
           text_block (u"Total sales");
           raw_block (Query (u"SELECT 1")) ]
         items'.
Proof.
  refine (proj1 (proj2 (translate_message_content_structure
                          (english_only_env (u"総売上")) fresh_world))
            [ JDict [ (u"type", JStr (u"text")); (u"text", JInt 5); (u"note", JNull) ];
              text_block (u"Total sales");
              raw_block (Query (u"SELECT 1")) ]
            (JList [ JDict [ (u"type", JStr (u"text")); (u"text", JInt 5) ];
                     text_block (u"総売上");
                     raw_block (Query (u"SELECT 1")) ]) _ _).
  - reflexivity.
  - vm_compute. reflexivity.
Defined.

(** A text that is not a [str] stays in its block, and the error of the
    scan is shown. *)
Example non_string_text_is_kept :
  translate_message_content (english_only_env (u"総売上"))
    (JList [ JDict [ (u"type", JStr (u"text")); (u"text", JInt 5) ] ]) fresh_world
  = (Returns (JList [ JDict [ (u"type", JStr (u"text")); (u"text", JInt 5) ] ]),
     write_all [ StError (u"翻訳エラー: 'int' object is not iterable") ] fresh_world).
Proof. vm_compute. reflexivity. Qed.

Lemma translate_suggestions_in_target_script env (items : list pystr) (w : World) :
  Forall (fun s => contains_japanese s = true) items ->
  collect_each (translate_value env) (map JStr items) w
  = (Returns (map JStr items), w).
Proof.
  induction 1 as [|s ss Hs Hss IH]; [reflexivity|].
  cbn [map collect_each translate_value]. rewrite !bind_eq.
  rewrite (translate_to_japanese_short_circuit env s w Hs). cbn [ret].
  rewrite bind_eq, IH. reflexivity.
Qed.

Lemma translate_item_already_japanese env (item : json) (w : World) :
  already_japanese item ->
  translate_item env item w = (Returns (rebuilt item), w).
Proof.
  intros (fields & ty & -> & T & H).
  unfold translate_item, rebuilt, subscript at 1. rewrite T.
  rewrite (bind_returns _ (eq_refl : ret ty w = (Returns ty, w))).
  destruct H as [(E1 & s & P & J) | [(E1 & E2 & ss & P & J) | (E1 & E2)]];
    rewrite E1; try rewrite E2; [| |reflexivity].
  - unfold subscript. rewrite P.
    rewrite (bind_returns _ (eq_refl : ret (JStr s) w = (Returns (JStr s), w))).
    cbn [translate_value]. rewrite !bind_eq.
    now rewrite (translate_to_japanese_short_circuit env s w J).
  - unfold subscript. rewrite P.
    rewrite (bind_returns _ (eq_refl : ret (JList (map JStr ss)) w = (Returns _, w))).
    cbn [iterate].
    rewrite (bind_returns _ (eq_refl : ret (map JStr ss) w = (Returns _, w))).
    rewrite (bind_returns _ (translate_suggestions_in_target_script env ss w J)).
    reflexivity.
Qed.

Lemma raw_block_already_japanese (b : ContentBlock) :
  block_in_target_script b -> already_japanese (raw_block b).
Proof.
  destruct b as [text | items | statement]; cbn [block_in_target_script raw_block];
    intros H.
  - exists [ (u"type", JStr (u"text")); (u"text", JStr text) ], (JStr (u"text")).
    split; [reflexivity|]. split; [reflexivity|]. left.
    split; [reflexivity|]. now exists text.
  - exists [ (u"type", JStr (u"suggestions"));
             (u"suggestions", JList (map JStr items)) ], (JStr (u"suggestions")).
    split; [reflexivity|]. split; [reflexivity|]. right. left.
    split; [reflexivity|]. split; [reflexivity|]. now exists items.
  - exists [ (u"type", JStr (u"sql")); (u"statement", JStr statement) ],
      (JStr (u"sql")).
    split; [reflexivity|]. split; [reflexivity|]. right. right. now split.
Qed.

Lemma rebuilt_raw_block (b : ContentBlock) : rebuilt (raw_block b) = raw_block b.
Proof. destruct b; reflexivity. Qed.

(** X16. Content whose texts and suggestions already contain target-script
    characters passes through [translate_message_content] with no call to
    the backend and nothing written.  With the setting off it is returned as
    it came; with the setting on every text and suggestions element is built
    anew from its discriminator and its payload - any further key of the
    element is dropped - and every other element is passed on as it is.  A
    list of two-key text and suggestions blocks and of query blocks
    therefore comes back unchanged; query blocks are never sent for
    translation. *)
Theorem japanese_content_is_not_retranslated env (items : list json) (w : World) :
  Forall already_japanese items ->
  translate_message_content env (JList items) w
  = (Returns (if japanese_response_enabled (session_state w)
              then JList (map rebuilt items)
              else JList items), w)
  /\ (forall blocks,
        items = map raw_block blocks ->
        translate_message_content env (JList items) w = (Returns (JList items), w)).
Proof.
  intros H.
  assert (G : translate_message_content env (JList items) w
              = (Returns (if japanese_response_enabled (session_state w)
                          then JList (map rebuilt items)
                          else JList items), w)).
  { destruct (japanese_response_enabled (session_state w)) eqn:J;
      [|now apply translate_message_content_off].
    rewrite (translate_message_content_on env _ w J).
    assert (E : collect_each (translate_item env) items w
                = (Returns (map rebuilt items), w)).
    { induction H as [|b bs Hb Hbs IH]; [reflexivity|].
      cbn [map collect_each].
      rewrite (bind_returns _ (translate_item_already_japanese env b w Hb)).
      rewrite (bind_returns _ IH). reflexivity. }
    rewrite (bind_returns _ E). reflexivity. }
  split; [exact G|].
  intros blocks ->. rewrite G.
  destruct (japanese_response_enabled (session_state w)); [|reflexivity].
  rewrite map_map. do 3 f_equal.
  apply map_ext. intros b. apply rebuilt_raw_block.
Qed.

Lemma japanese_content_is_not_retranslated_witness :
  translate_message_content failing_backend_env
    (JList [ JDict [ (u"type", JStr (u"text"));
                     (u"text", JStr (u"売上は100です"));
                     (u"annotations", JList []) ];
             suggestions_block [u"月別の売上は？"];
             raw_block (Query (u"SELECT 1")) ])
    fresh_world
  = (Returns (JList [ text_block (u"売上は100です");
                      suggestions_block [u"月別の売上は？"];
                      raw_block (Query (u"SELECT 1")) ]),
     fresh_world).
Proof.
  refine (proj1 (japanese_content_is_not_retranslated failing_backend_env
                   [ JDict [ (u"type", JStr (u"text"));
                             (u"text", JStr (u"売上は100です"));
                             (u"annotations", JList []) ];
                     suggestions_block [u"月別の売上は？"];
                     raw_block (Query (u"SELECT 1")) ]
                   fresh_world _)).
  constructor; [|constructor; [|constructor; [|constructor]]].
  - exists [ (u"type", JStr (u"text")); (u"text", JStr (u"売上は100です"));
             (u"annotations", JList []) ], (JStr (u"text")).
    split; [reflexivity|]. split; [reflexivity|]. left.
    split; [reflexivity|]. now exists (u"売上は100です").
  - apply (raw_block_already_japanese (Suggestions [u"月別の売上は？"])).
    repeat constructor.
  - apply (raw_block_already_japanese (Query (u"SELECT 1"))). exact I.
Defined.

(** ** Failed calls and translation *)

Lemma failed_call_world env (prompt : pystr) (w : World) (st : Z)
    (fields : list (pystr * json)) :
  send_snow_api_request env (api_log w)
    (request_for (history w ++ [user_message (transmission_text prompt w)]) w)
  = {| status := st; parsed := Some (JDict fields) |} ->
  (400 <= st)%Z ->
  let text := error_message env st
                (field_or (u"request_id") (u"N/A") fields)
                (field_or (u"error_code") (u"N/A") fields)
                (field_or (u"message") (u"詳細不明") fields) in
  process_user_input env prompt w
  = match dict_lookup (u"request_id") fields with
    | None => (Raises (KeyError (u"request_id")), submitted prompt w)
    | Some rid =>
        (Raises RerunException,
         snd (append_message (error_entry text rid)
                (snd (modify_state (set_fire_API_error_notify true)
                        (submitted prompt w)))))
    end.
Proof.
  intros H Hst text.
  rewrite process_user_input_reply. cbv zeta. rewrite H. cbn [parsed status].
  apply Z.ltb_ge in Hst. rewrite Hst.
  unfold close_turn. cbn [fst snd]. rewrite bind_eq, build_error_entry.
  destruct (dict_lookup (u "request_id") fields); reflexivity.
Qed.

(** X17. A failed call never asks the backend for a translation, even with the
    Japanese-response setting on: the error text is already in the target
    script, so it is stored word for word as the protocol client built it,
    and the submission writes nothing to the page beyond its chat widgets. *)
Theorem failed_call_is_never_translated env (prompt : pystr) (w : World) (st : Z)
    (fields : list (pystr * json)) :
  send_snow_api_request env (api_log w)
    (request_for (history w ++ [user_message (transmission_text prompt w)]) w)
  = {| status := st; parsed := Some (JDict fields) |} ->
  (400 <= st)%Z ->
  sql_log (snd (process_user_input env prompt w)) = sql_log w
  /\ page (snd (process_user_input env prompt w)) = page (opened_turn prompt w)
  /\ query_cache (snd (process_user_input env prompt w)) = query_cache w
  /\ (forall rid,
        dict_lookup (u"request_id") fields = Some rid ->
        last (history (snd (process_user_input env prompt w))) (user_message prompt)
        = error_entry
            (error_message env st rid
               (field_or (u"error_code") (u"N/A") fields)
               (field_or (u"message") (u"詳細不明") fields)) rid).
Proof.
  intros H Hst. rewrite (failed_call_world env prompt w st fields H Hst).
  unfold field_or.
  destruct (dict_lookup (u "request_id") fields) as [rid|].
  - repeat split. intros rid' E. injection E as <-.
    unfold history. cbn. apply last_last.
  - repeat split. discriminate.
Qed.

Lemma failed_call_is_never_translated_witness :
  sql_log (snd (process_user_input (quiet_env not_found_reply_with_id) (u"hi")
                  fresh_world))
  = sql_log fresh_world.
Proof.
  refine (proj1 (failed_call_is_never_translated (quiet_env not_found_reply_with_id)
                   (u"hi") fresh_world 404 _ _ _)).
  - reflexivity.
  - lia.
Defined.

(** ** Translation outage *)

Lemma translate_to_japanese_outage env (text : pystr) (w : World) :
  (forall log query, exists e, session_sql_collect env log query = BackendRaises e) ->
  fst (translate_to_japanese env text w) = Returns text.
Proof.
  intros Down. unfold translate_to_japanese.
  destruct (contains_japanese text); [reflexivity|].
  unfold bind, sql_collect.
  destruct (Down (sql_log w) (translate_query text)) as [e ->]. reflexivity.
Qed.

Lemma collect_each_fixed {A} (f : A -> M A) (l : list A) :
  (forall a w, In a l -> fst (f a w) = Returns a) ->
  forall w, fst (collect_each f l w) = Returns l.
Proof.
  induction l as [|x l IH]; intros Hf w; [reflexivity|].
  cbn [collect_each]. rewrite bind_eq.
  pose proof (Hf x w (or_introl eq_refl)) as Hx.
  destruct (f x w) as [[y|e] w1]; cbn in Hx; [|discriminate].
  injection Hx as ->. rewrite bind_eq.
  assert (Hl : forall a w0, In a l -> fst (f a w0) = Returns a)
    by (intros a w0 Ha; apply Hf; now right).
  specialize (IH Hl w1).
  destruct (collect_each f l w1) as [[ys|e] w2]; cbn in IH; [|discriminate].
  injection IH as ->. reflexivity.
Qed.

Lemma translate_value_outage env (s : pystr) (w : World) :
  (forall log query, exists e, session_sql_collect env log query = BackendRaises e) ->
  fst (translate_value env (JStr s) w) = Returns (JStr s).
Proof.
  intros Down. cbn [translate_value]. rewrite bind_eq.
  pose proof (translate_to_japanese_outage env s w Down) as Hs.
  destruct (translate_to_japanese env s w) as [[t|e] w1]; cbn in Hs; [|discriminate].
  now injection Hs as ->.
Qed.

Lemma translate_suggestions_outage env (items : list pystr) (w : World) :
  (forall log query, exists e, session_sql_collect env log query = BackendRaises e) ->
  fst (collect_each (translate_value env) (map JStr items) w)
  = Returns (map JStr items).
Proof.
  intros Down. apply collect_each_fixed.
  intros a w0 Ha. apply in_map_iff in Ha as [s [<- _]].
  now apply translate_value_outage.
Qed.

Lemma translate_item_outage env (b : ContentBlock) (w : World) :
  (forall log query, exists e, session_sql_collect env log query = BackendRaises e) ->
  fst (translate_item env (raw_block b) w) = Returns (raw_block b).
Proof.
  intros Down. destruct b as [text | items | statement].
  - change (translate_item env (raw_block (Text text)) w)
      with ((translated_text <- translate_value env (JStr text) ;;
             ret (JDict [ (u"type", JStr (u"text")); (u"text", translated_text) ])) w).
    rewrite bind_eq.
    pose proof (translate_value_outage env text w Down) as H.
    destruct (translate_value env (JStr text) w) as [[t|e] w1]; cbn in H; [|discriminate].
    injection H as ->. reflexivity.
  - change (translate_item env (raw_block (Suggestions items)) w)
      with ((translated_suggestions <-
               collect_each (translate_value env) (map JStr items) ;;
             ret (JDict [ (u"type", JStr (u"suggestions"));
                          (u"suggestions", JList translated_suggestions) ])) w).
    rewrite bind_eq.
    pose proof (translate_suggestions_outage env items w Down) as H.
    destruct (collect_each _ (map JStr items) w) as [[ys|e] w1]; cbn in H; [|discriminate].
    injection H as ->. reflexivity.
  - reflexivity.
Qed.

(** X18. While the translation backend is down - every [collect] raises - an
    answer still reaches the history: a successful reply whose content is a
    list of text, suggestions and query blocks is appended with exactly the
    content the analyst sent, and the submission runs to completion. *)
Theorem answer_survives_translation_outage env (prompt : pystr) (w : World) (st : Z)
    (fields mfields : list (pystr * json)) (blocks : list ContentBlock) (rid : json) :
  (forall log query, exists e, session_sql_collect env log query = BackendRaises e) ->
  send_snow_api_request env (api_log w)
    (request_for (history w ++ [user_message (transmission_text prompt w)]) w)
  = {| status := st; parsed := Some (JDict fields) |} ->
  (st < 400)%Z ->
  dict_lookup (u"message") fields = Some (JDict mfields) ->
  dict_lookup (u"content") mfields = Some (JList (map raw_block blocks)) ->
  dict_lookup (u"request_id") fields = Some rid ->
  completes env prompt w
  /\ history (snd (process_user_input env prompt w))
     = history w
       ++ [user_message prompt; reply_entry (JList (map raw_block blocks)) rid].
Proof.
  intros Down H Hst Hm Hc Hr.
  set (c := JList (map raw_block blocks)) in *.
  assert (T : exists w',
             (if japanese_response_enabled (session_state w)
              then translate_message_content env c
              else ret c) (submitted prompt w) = (Returns c, w')).
  { destruct (japanese_response_enabled (session_state w)) eqn:J; [|now eexists].
    assert (J' : japanese_response_enabled (session_state (submitted prompt w)) = true)
      by exact J.
    unfold c. rewrite (translate_message_content_on env _ _ J'). rewrite bind_eq.
    pose proof (collect_each_fixed (translate_item env) (map raw_block blocks)) as F.
    assert (Hf : forall a w0, In a (map raw_block blocks) ->
                              fst (translate_item env a w0) = Returns a).
    { intros a w0 Ha. apply in_map_iff in Ha as [b [<- _]].
      now apply translate_item_outage. }
    specialize (F Hf (submitted prompt w)).
    destruct (collect_each (translate_item env) (map raw_block blocks)
                (submitted prompt w)) as [[ys|e] w1]; cbn in F; [|discriminate].
    injection F as ->. now eexists. }
  destruct T as [w' T].
  destruct (successful_turn env prompt w w' st fields mfields c rid c H Hst Hm Hc Hr T)
    as (E & Hh & _).
  split; [|exact Hh]. unfold completes. now rewrite E.
Qed.

Lemma answer_survives_translation_outage_witness :
  history (snd (process_user_input
                  (constant_env
                     {| status := 200;
                        parsed :=
                          Some (JDict [ (u"message",
                                         JDict [ (u"content",
                                                  JList (map raw_block
                                                           [Text (u"Total is 1")])) ]);
                                        (u"request_id", JStr (u"r-3")) ]) |}
                     (BackendRaises (u"timeout")) (BackendReturns one_row_frame)
                     NoInteraction)
                  (u"hi") fresh_world))
  = history fresh_world
    ++ [ user_message (u"hi");
         reply_entry (JList (map raw_block [Text (u"Total is 1")])) (JStr (u"r-3")) ].
Proof.
  refine (proj2 (answer_survives_translation_outage _ (u"hi") fresh_world 200
                   _ _ [Text (u"Total is 1")] (JStr (u"r-3")) _ _ _ _ _ _)).
  - intros log query. now exists (u"timeout").
  - reflexivity.
  - lia.
  - reflexivity.
  - reflexivity.
  - reflexivity.
Defined.

(** ** Widget keys of the suggestion buttons *)

Lemma u_digits_injective (d d' : Decimal.uint) :
  u (NilEmpty.string_of_uint d) = u (NilEmpty.string_of_uint d') -> d = d'.
Proof.
  revert d'. induction d; destruct d'; intros H; try reflexivity;
    try (exfalso; revert H; cbn; discriminate);
    (f_equal; apply IHd; revert H; cbn; intros H; now injection H).
Qed.

Lemma u_digits_no_underscore (d : Decimal.uint) :
  ~ In 95%N (u (NilEmpty.string_of_uint d)).
Proof.
  induction d; cbn; intros H;
    try (destruct H as [H|H]; [discriminate | now apply IHd]).
  exact H.
Qed.

Lemma str_of_nat_digits (n : nat) :
  exists d,
    Z.to_int (Z.of_nat n) = Decimal.Pos d
    /\ str_of_nat n = u (NilEmpty.string_of_uint d).
Proof.
  unfold str_of_nat, str_of_Z. destruct n as [|n].
  - exists (Decimal.D0 Decimal.Nil). split; reflexivity.
  - cbn [Z.of_nat Z.to_int]. eexists. split; [reflexivity|].
    cbn [NilZero.string_of_int]. unfold NilZero.string_of_uint.
    pose proof (DecimalPos.Unsigned.to_uint_nonnil (Pos.of_succ_nat n)) as N.
    destruct (Pos.to_uint (Pos.of_succ_nat n)); try reflexivity. now destruct N.
Qed.

Lemma str_of_nat_injective (a b : nat) : str_of_nat a = str_of_nat b -> a = b.
Proof.
  destruct (str_of_nat_digits a) as (da & Ia & Sa).
  destruct (str_of_nat_digits b) as (db & Ib & Sb).
  rewrite Sa, Sb. intros H. apply u_digits_injective in H. subst db.
  apply Nat2Z.inj, DecimalZ.to_int_inj. now rewrite Ia, Ib.
Qed.

Lemma str_of_nat_no_underscore (n : nat) : ~ In 95%N (str_of_nat n).
Proof.
  destruct (str_of_nat_digits n) as (d & _ & ->). apply u_digits_no_underscore.
Qed.

Lemma split_at_separator (x : char) (a b c d : pystr) :
  ~ In x a -> ~ In x c -> a ++ x :: b = c ++ x :: d -> a = c /\ b = d.
Proof.
  revert c. induction a as [|y a IH]; intros [|z c] Ha Hc H; cbn in H.
  - injection H as ->. now split.
  - injection H as -> _. destruct Hc. now left.
  - injection H as -> _. destruct Ha. now left.
  - injection H as -> H.
    destruct (IH c) as [-> ->]; try assumption; [| |now split].
    + intros I. apply Ha. now right.
    + intros I. apply Hc. now right.
Qed.

Lemma suggestion_key_injective (i j i' j' : nat) :
  suggestion_key i j = suggestion_key i' j' -> i = i' /\ j = j'.
Proof.
  unfold suggestion_key. intros H. apply app_inv_head in H.
  destruct (split_at_separator 95%N (str_of_nat i) (str_of_nat j)
              (str_of_nat i') (str_of_nat j')) as [Hi Hj].
  - apply str_of_nat_no_underscore.
  - apply str_of_nat_no_underscore.
  - exact H.
  - split; now apply str_of_nat_injective.
Qed.

(** *** Blocks in raw form *)

Lemma all_strings_of_strings (items : list pystr) :
  all_strings (map JStr items) = Some items.
Proof.
  induction items as [|s rest IH]; [reflexivity|].
  cbn [map all_strings]. now rewrite IH.
Qed.

Lemma classify_item_raw_block (b : ContentBlock) : classify_item (raw_block b) = Some b.
Proof.
  destruct b as [text | items | statement]; [reflexivity | | reflexivity].
  change (classify_item (raw_block (Suggestions items)))
    with (match all_strings (map JStr items) with
          | Some ss => Some (Suggestions ss)
          | None => None
          end).
  now rewrite all_strings_of_strings.
Qed.

Lemma classify_raw_blocks (bs : list ContentBlock) : classify (map raw_block bs) = bs.
Proof.
  induction bs as [|b bs IH]; [reflexivity|].
  cbn [map classify]. now rewrite classify_item_raw_block, IH.
Qed.

Lemma raw_block_well_formed (b : ContentBlock) : well_formed (raw_block b).
Proof.
  assert (C : classify_item (raw_block b) <> None)
    by (rewrite classify_item_raw_block; discriminate).
  destruct b as [text | items | statement].
  - exists [ (u"type", JStr (u"text")); (u"text", JStr text) ], (JStr (u"text")).
    split; [reflexivity|]. split; [reflexivity | now right].
  - exists [ (u"type", JStr (u"suggestions"));
             (u"suggestions", JList (map JStr items)) ], (JStr (u"suggestions")).
    split; [reflexivity|]. split; [reflexivity | now right].
  - exists [ (u"type", JStr (u"sql")); (u"statement", JStr statement) ],
      (JStr (u"sql")).
    split; [reflexivity|]. split; [reflexivity | now right].
Qed.

Lemma raw_blocks_well_formed (bs : list ContentBlock) :
  Forall well_formed (map raw_block bs).
Proof.
  apply Forall_forall. intros x H. apply in_map_iff in H as (b & <- & _).
  apply raw_block_well_formed.
Qed.

(** *** What text and suggestions blocks write *)

Lemma writes_ret : writes [] (ret tt).
Proof. intros w. cbn. now rewrite app_nil_r. Qed.

Lemma writes_st (x : Widget) : writes [x] (st x).
Proof. intros w. now repeat split. Qed.

Lemma writes_bind (ws1 ws2 : list Widget) (c : M unit) (k : unit -> M unit) :
  writes ws1 c -> (forall a, writes ws2 (k a)) -> writes (ws1 ++ ws2) (bind c k).
Proof.
  intros Hc Hk w. unfold bind. destruct (Hc w) as (R & P & L & Q).
  destruct (c w) as [[a|e] w1]; cbn [fst snd] in *; [|discriminate].
  destruct (Hk a w1) as (R' & P' & L' & Q').
  split; [exact R'|]. split; [now rewrite P', P, app_assoc|].
  split; congruence.
Qed.

Lemma writes_display_suggestion env (idx j : nat) (s : pystr) :
  writes [StButton s (suggestion_key idx j)] (display_suggestion env idx j (JStr s)).
Proof.
  intros w. unfold display_suggestion. generalize (suggestion_key idx j). intros k0.
  unfold bind, st_button, st. cbn.
  destruct (interaction env); try (now repeat split).
  destruct (str_eqb key k0); now repeat split.
Qed.

Lemma writes_suggestions env (idx i : nat) (items : list pystr) :
  writes (suggestion_buttons idx i items)
    (for_each_from (fun j s => display_suggestion env idx j (JStr s)) i items).
Proof.
  revert i. induction items as [|s rest IH]; intros i;
    cbn [for_each_from suggestion_buttons]; [apply writes_ret|].
  apply (writes_bind [StButton s (suggestion_key idx i)]);
    [apply writes_display_suggestion | intros _; apply IH].
Qed.

Lemma writes_render_block env (idx : nat) (b : ContentBlock) :
  is_query b = false ->
  writes (chat_block_widgets idx b) (render_block env idx b).
Proof.
  destruct b as [text | items | statement]; cbn [is_query]; intros H;
    [apply writes_st | | discriminate].
  cbn [render_block chat_block_widgets].
  apply (writes_bind [StSubheader (u"💡 関連する質問")]);
    [apply writes_st | intros _; apply writes_suggestions].
Qed.

Lemma writes_render_blocks env (idx : nat) (bs : list ContentBlock) :
  existsb is_query bs = false ->
  writes (flat_map (chat_block_widgets idx) bs) (for_each (render_block env idx) bs).
Proof.
  induction bs as [|b bs IH]; cbn [existsb for_each flat_map]; intros H;
    [apply writes_ret|].
  apply orb_false_iff in H as [Hb Hbs].
  apply writes_bind; [now apply writes_render_block | intros _; now apply IH].
Qed.

(** *** The keys of the buttons written *)

Lemma widget_keys_app (a b : list Widget) :
  widget_keys (a ++ b) = widget_keys a ++ widget_keys b.
Proof.
  induction a as [|x a IH]; [reflexivity|].
  destruct x; cbn [widget_keys app]; now rewrite IH.
Qed.

Lemma suggestion_buttons_keys (idx i : nat) (items : list pystr) :
  widget_keys (suggestion_buttons idx i items)
  = map (suggestion_key idx) (seq i (List.length items)).
Proof.
  revert i. induction items as [|s rest IH]; intros i; [reflexivity|].
  cbn [suggestion_buttons widget_keys List.length seq map]. now rewrite IH.
Qed.

Lemma suggestion_keys_NoDup (idx i n : nat) :
  NoDup (map (suggestion_key idx) (seq i n)).
Proof.
  revert i. induction n as [|n IH]; intros i; cbn [seq map]; constructor; [|apply IH].
  intros H. apply in_map_iff in H as (j & E & Hj).
  apply suggestion_key_injective in E as [_ ->]. apply in_seq in Hj. lia.
Qed.

(** X19. The key [suggestion_<message>_<suggestion>] of a button determines
    the index of its message and its index within its suggestions block.
    The buttons that displaying one suggestions block writes therefore have
    different keys, and so have the buttons of blocks in different messages.
    The key does not tell two suggestions blocks of one message apart: the
    first buttons of two such blocks get the same key. *)
Theorem suggestion_keys_are_distinct env (idx : nat) :
  (forall i j i' j', suggestion_key i j = suggestion_key i' j' <-> i = i' /\ j = j')
  /\ (forall items w,
        page (snd (display_message_content env (JList [suggestions_block items]) idx w))
        = page w ++ chat_block_widgets idx (Suggestions items))
  /\ (forall items,
        NoDup (widget_keys (chat_block_widgets idx (Suggestions items))))
  /\ (forall idx' items items' key,
        idx <> idx' ->
        In key (widget_keys (chat_block_widgets idx (Suggestions items))) ->
        ~ In key (widget_keys (chat_block_widgets idx' (Suggestions items'))))
  /\ (forall a b items items',
        In (suggestion_key idx 0)
          (widget_keys (chat_block_widgets idx (Suggestions (a :: items))))
        /\ In (suggestion_key idx 0)
             (widget_keys (chat_block_widgets idx (Suggestions (b :: items'))))).
Proof.
  split; [|split; [|split; [|split]]].
  - intros i j i' j'. split; [apply suggestion_key_injective | now intros [-> ->]].
  - intros items w.
    change (display_message_content env (JList [suggestions_block items]) idx w)
      with (for_each (display_item env idx) (map raw_block [Suggestions items]) w).
    rewrite display_items_classified by (apply raw_blocks_well_formed).
    rewrite classify_raw_blocks.
    destruct (writes_render_blocks env idx [Suggestions items] eq_refl w)
      as (_ & P & _).
    rewrite P. cbn [flat_map]. now rewrite app_nil_r.
  - intros items. cbn [chat_block_widgets widget_keys].
    rewrite suggestion_buttons_keys. apply suggestion_keys_NoDup.
  - intros idx' items items' key N. cbn [chat_block_widgets widget_keys].
    rewrite !suggestion_buttons_keys. intros H H'.
    apply in_map_iff in H as (j & <- & _). apply in_map_iff in H' as (j' & E & _).
    apply suggestion_key_injective in E as [E _]. now apply N.
  - intros a b items items'. split; now left.
Qed.

Lemma suggestion_keys_are_distinct_witness :
  suggestion_key 1 23 <> suggestion_key 12 3
  /\ suggestion_key 2 0 <> suggestion_key 2 1.
Proof.
  split; intros H;
    apply (proj1 (proj1 (suggestion_keys_are_distinct (quiet_env success_reply) 0)
                    _ _ _ _)) in H;
    destruct H; discriminate.
Defined.

Lemma display_suggestion_miss env (idx i j : nat) (s : pystr) (w : World) :
  interaction env = ButtonClicked (suggestion_key idx j) ->
  i <> j ->
  fst (display_suggestion env idx i (JStr s) w) = Returns tt
  /\ session_state (snd (display_suggestion env idx i (JStr s) w)) = session_state w.
Proof.
  intros H N.
  assert (E : str_eqb (suggestion_key idx j) (suggestion_key idx i) = false).
  { apply str_eqb_neq. intros K. apply suggestion_key_injective in K as [_ K].
    now apply N. }
  unfold display_suggestion, st_button. rewrite H, E.
  generalize (suggestion_key idx i). intros k0. now split.
Qed.

Lemma suggestions_after_click env (idx j : nat) (ss : list pystr) :
  interaction env = ButtonClicked (suggestion_key idx j) ->
  forall i w,
    (j < i)%nat ->
    fst (for_each_from (display_suggestion env idx) i (map JStr ss) w) = Returns tt
    /\ session_state (snd (for_each_from (display_suggestion env idx) i (map JStr ss) w))
       = session_state w.
Proof.
  intros H. induction ss as [|x ss IH]; intros i w L; [now split|].
  cbn [map for_each_from]. rewrite bind_eq.
  destruct (display_suggestion_miss env idx i j x w H) as [R HS]; [lia|].
  destruct (display_suggestion env idx i (JStr x) w) as [[[]|e] w1];
    cbn [fst snd] in R, HS; [|discriminate].
  destruct (IH (S i) w1) as [R' S']; [lia|]. split; [exact R' | now rewrite S', HS].
Qed.

Lemma suggestions_up_to_click env (idx j : nat) (s : pystr) (ss : list pystr) :
  interaction env = ButtonClicked (suggestion_key idx j) ->
  forall i w,
    (i <= j)%nat ->
    nth_error ss (j - i) = Some s ->
    fst (for_each_from (display_suggestion env idx) i (map JStr ss) w) = Returns tt
    /\ active_suggestion
         (session_state
            (snd (for_each_from (display_suggestion env idx) i (map JStr ss) w)))
       = Some s.
Proof.
  intros H. induction ss as [|x ss IH]; intros i w L Hn.
  - destruct (j - i)%nat; discriminate.
  - cbn [map for_each_from]. rewrite bind_eq.
    destruct (Nat.eq_dec i j) as [->|N].
    + rewrite Nat.sub_diag in Hn. injection Hn as ->.
      destruct (display_suggestion_clicked env idx j s w H) as (R & A & _).
      destruct (display_suggestion env idx j (JStr s) w) as [[[]|e] w1];
        cbn [fst snd] in R, A; [|discriminate].
      destruct (suggestions_after_click env idx j ss H (S j) w1) as [R' S']; [lia|].
      split; [exact R' | now rewrite S'].
    + destruct (display_suggestion_miss env idx i j x w H N) as [R HS].
      destruct (display_suggestion env idx i (JStr x) w) as [[[]|e] w1];
        cbn [fst snd] in R, HS; [|discriminate].
      replace (j - i)%nat with (S (j - S i)) in Hn by lia.
      apply (IH (S i) w1); [lia | exact Hn].
Qed.

(** X20. In the run triggered by a click on the button of suggestion [j] of
    message [idx], displaying that message's suggestions block stores
    exactly the text of suggestion [j] in [active_suggestion] - the buttons
    before it and after it leave it alone - and raises nothing. *)
Theorem clicked_suggestion_is_stored env (idx j : nat) (s : pystr) (ss : list pystr)
    (w : World) :
  interaction env = ButtonClicked (suggestion_key idx j) ->
  nth_error ss j = Some s ->
  fst (display_message_content env (JList [suggestions_block ss]) idx w) = Returns tt
  /\ active_suggestion
       (session_state
          (snd (display_message_content env (JList [suggestions_block ss]) idx w)))
     = Some s
  /\ history (snd (display_message_content env (JList [suggestions_block ss]) idx w))
     = history w.
Proof.
  intros H Hn.
  destruct (rendering_display_message_content env (JList [suggestions_block ss]) idx w)
    as ((Hh & _) & _).
  split; [|split; [|exact Hh]];
    change (display_message_content env (JList [suggestions_block ss]) idx w)
      with ((x <- (st (StSubheader (u"💡 関連する質問")) ;;
                   for_each_from (display_suggestion env idx) 0 (map JStr ss)) ;;
             ret tt) w);
    rewrite !bind_eq; cbn [st];
    destruct (suggestions_up_to_click env idx j s ss H 0
                {| session_state := session_state w;
                   query_cache := query_cache w;
                   api_log := api_log w;
                   sql_log := sql_log w;
                   page := page w ++ [StSubheader (u"💡 関連する質問")] |})
      as [R A]; try lia; try (now rewrite Nat.sub_0_r);
    destruct (for_each_from (display_suggestion env idx) 0 (map JStr ss) _)
      as [[[]|e] w1]; cbn [fst snd] in R, A; try discriminate;
    [reflexivity | exact A].
Qed.

Lemma clicked_suggestion_is_stored_witness :
  active_suggestion
    (session_state
       (snd (display_message_content
               (constant_env success_reply (BackendReturns [])
                  (BackendReturns one_row_frame) (ButtonClicked (suggestion_key 3 1)))
               (JList [suggestions_block [u"月別の売上は？"; u"地域別の売上は？"]])
               3 fresh_world)))
  = Some (u"地域別の売上は？").
Proof.
  refine (proj1 (proj2
            (clicked_suggestion_is_stored
               (constant_env success_reply (BackendReturns [])
                  (BackendReturns one_row_frame) (ButtonClicked (suggestion_key 3 1)))
               3 1 (u"地域別の売上は？") [u"月別の売上は？"; u"地域別の売上は？"]
               fresh_world _ _))).
  - reflexivity.
  - reflexivity.
Defined.

(** ** Conversations of text and suggestions *)

Lemma writes_message env (idx : nat) (m : Message) :
  chat_entry m ->
  writes (message_widgets idx m)
    (st (StChatMessage (role_name (role m))) ;;
     display_message_content env (content m) idx).
Proof.
  intros (items & C & W & Q & _). unfold message_widgets. rewrite C.
  apply (writes_bind [StChatMessage (role_name (role m))]); [apply writes_st|].
  intros _ w.
  change (display_message_content env (JList items) idx w)
    with (for_each (display_item env idx) items w).
  rewrite (display_items_classified env idx items w W).
  now apply writes_render_blocks.
Qed.

Lemma writes_messages env (i : nat) (ms : list Message) :
  Forall chat_entry ms ->
  writes (conversation_widgets i ms)
    (for_each_from (fun idx message =>
                      st (StChatMessage (role_name (role message))) ;;
                      display_message_content env (content message) idx) i ms).
Proof.
  intros H. revert i. induction H as [|m ms Hm Hms IH]; intros i;
    cbn [for_each_from conversation_widgets]; [apply writes_ret|].
  apply writes_bind; [now apply writes_message | intros _; apply IH].
Qed.

Lemma display_conversation_writes env (w : World) :
  Forall chat_entry (history w) ->
  fst (display_conversation env w) = Returns tt
  /\ page (snd (display_conversation env w))
     = page w ++ conversation_widgets 0 (history w)
  /\ sql_log (snd (display_conversation env w)) = sql_log w
  /\ query_cache (snd (display_conversation env w)) = query_cache w.
Proof.
  intros H. unfold display_conversation.
  rewrite (bind_returns _ (eq_refl : get_state w = (Returns (session_state w), w))).
  exact (writes_messages env 0 (history w) H w).
Qed.

Lemma no_suggestions_no_keys (idx : nat) (bs : list ContentBlock) :
  filter is_suggestions bs = [] ->
  widget_keys (flat_map (chat_block_widgets idx) bs) = [].
Proof.
  induction bs as [|b bs IH]; [reflexivity|].
  destruct b as [text | items | statement]; cbn [filter is_suggestions]; intros H;
    [now apply IH | discriminate | now apply IH].
Qed.

Lemma chat_blocks_keys (idx : nat) (bs : list ContentBlock) :
  (List.length (filter is_suggestions bs) <= 1)%nat ->
  exists n,
    widget_keys (flat_map (chat_block_widgets idx) bs)
    = map (suggestion_key idx) (seq 0 n).
Proof.
  induction bs as [|b bs IH]; [now exists 0%nat|].
  destruct b as [text | items | statement]; cbn [filter is_suggestions]; intros H.
  - now apply IH.
  - exists (List.length items).
    cbn [flat_map chat_block_widgets app widget_keys].
    rewrite widget_keys_app, suggestion_buttons_keys, no_suggestions_no_keys;
      [apply app_nil_r|].
    cbn [List.length] in H. destruct (filter is_suggestions bs); [reflexivity|].
    cbn [List.length] in H. lia.
  - now apply IH.
Qed.

Lemma message_keys (idx : nat) (m : Message) :
  chat_entry m ->
  exists n, widget_keys (message_widgets idx m) = map (suggestion_key idx) (seq 0 n).
Proof.
  intros (items & C & _ & _ & S1). unfold message_widgets. rewrite C.
  cbn [widget_keys]. now apply chat_blocks_keys.
Qed.

Lemma NoDup_append {A} (a b : list A) :
  NoDup a -> NoDup b -> (forall x, In x a -> ~ In x b) -> NoDup (a ++ b).
Proof.
  induction 1 as [|x a Hx Ha IH]; intros Hb D; [exact Hb|].
  cbn [app]. constructor.
  - intros H. apply in_app_or in H as [H | H]; [now apply Hx|].
    now apply (D x (or_introl eq_refl)).
  - apply IH; [exact Hb|]. intros y Hy. apply D. now right.
Qed.

Lemma conversation_keys (i : nat) (ms : list Message) :
  Forall chat_entry ms ->
  NoDup (widget_keys (conversation_widgets i ms))
  /\ (forall key,
        In key (widget_keys (conversation_widgets i ms)) ->
        exists i' j, (i <= i')%nat /\ key = suggestion_key i' j).
Proof.
  intros H. revert i. induction H as [|m ms Hm Hms IH]; intros i;
    cbn [conversation_widgets].
  - split; [constructor | intros key []].
  - rewrite widget_keys_app. destruct (message_keys i m Hm) as [n ->].
    destruct (IH (S i)) as [N F]. split.
    + apply NoDup_append; [apply suggestion_keys_NoDup | exact N|].
      intros key Hk Hk'. apply in_map_iff in Hk as (j & <- & _).
      destruct (F _ Hk') as (i' & j' & L & E).
      apply suggestion_key_injective in E as [E _]. lia.
    + intros key Hk. apply in_app_or in Hk as [Hk | Hk].
      * apply in_map_iff in Hk as (j & <- & _). now exists i, j.
      * destruct (F _ Hk) as (i' & j' & L & E). exists i', j'. split; [lia | exact E].
Qed.

(** X11. A history whose entries hold text, at most one block of
    suggestions each and no query block is displayed without any exception,
    whichever button was clicked: [display_conversation] writes, entry by
    entry, the chat message, the texts and the suggestion buttons, and makes
    no call to the backend.  No two of the buttons it writes have the same
    key, so Streamlit has no duplicate to refuse. *)
Theorem renderable_history_displays env (w : World) :
  Forall chat_entry (history w) ->
  fst (display_conversation env w) = Returns tt
  /\ page (snd (display_conversation env w))
     = page w ++ conversation_widgets 0 (history w)
  /\ NoDup (widget_keys (conversation_widgets 0 (history w)))
  /\ sql_log (snd (display_conversation env w)) = sql_log w.
Proof.
  intros H. destruct (display_conversation_writes env w H) as (R & P & L & _).
  split; [exact R|]. split; [exact P|]. split; [|exact L].
  now apply conversation_keys.
Qed.

Lemma chat_entry_of_blocks (r : Role) (bs : list ContentBlock) (rid : option json) :
  existsb is_query bs = false ->
  (List.length (filter is_suggestions bs) <= 1)%nat ->
  chat_entry {| role := r; content := JList (map raw_block bs); request_id := rid |}.
Proof.
  intros Q S1. exists (map raw_block bs). split; [reflexivity|].
  split; [apply raw_blocks_well_formed|]. now rewrite classify_raw_blocks.
Qed.

Lemma sample_conversation_history :
  history sample_conversation
  = [ user_message (u"売上は？");
      reply_entry
        (JList (map raw_block [ Text (u"売上は100です");
                                Suggestions [u"月別の売上は？"; u"地域別の売上は？"] ]))
        (JStr (u"r-3")) ].
Proof. vm_compute. reflexivity. Qed.

Lemma sample_conversation_entries : Forall chat_entry (history sample_conversation).
Proof.
  rewrite sample_conversation_history. constructor; [|constructor; [|constructor]].
  - apply (chat_entry_of_blocks user [Text (u"売上は？")] None); [reflexivity|].
    cbn. lia.
  - apply chat_entry_of_blocks; [reflexivity | cbn; lia].
Qed.

Lemma renderable_history_displays_witness :
  fst (display_conversation
         (constant_env success_reply (BackendReturns []) (BackendReturns one_row_frame)
            (ButtonClicked (suggestion_key 1 0)))
         sample_conversation)
  = Returns tt
  /\ page (snd (display_conversation
                  (constant_env success_reply (BackendReturns [])
                     (BackendReturns one_row_frame)
                     (ButtonClicked (suggestion_key 1 0)))
                  sample_conversation))
     = page sample_conversation
       ++ [ StChatMessage (u"user");
            StMarkdown (JStr (u"売上は？"));
            StChatMessage (u"analyst");
            StMarkdown (JStr (u"売上は100です"));
            StSubheader (u"💡 関連する質問");
            StButton (u"月別の売上は？") (u"suggestion_1_0");
            StButton (u"地域別の売上は？") (u"suggestion_1_1") ].
Proof.
  pose proof (renderable_history_displays
                (constant_env success_reply (BackendReturns [])
                   (BackendReturns one_row_frame)
                   (ButtonClicked (suggestion_key 1 0)))
                sample_conversation sample_conversation_entries) as H.
  split; [exact (proj1 H)|].
  rewrite (proj1 (proj2 H)). vm_compute. reflexivity.
Defined.

(** ** A pass without interaction *)

Lemma handle_error_notifications_writes (w : World) :
  page (snd (handle_error_notifications w))
  = page w ++ (if api_error_notify_pending (session_state w)
               then [StToast (u"APIエラーが発生しました！") (u"🚨")]
               else [])
  /\ sql_log (snd (handle_error_notifications w)) = sql_log w.
Proof.
  destruct (api_error_notify_pending (session_state w)) eqn:P.
  - unfold handle_error_notifications, bind, get_state. cbn. rewrite P. cbn.
    now split.
  - rewrite (no_pending_notification_is_silent w P). cbn. now rewrite app_nil_r.
Qed.

Lemma initial_suggestion_keys_NoDup : NoDup (widget_keys initial_suggestion_widgets).
Proof.
  cbn [initial_suggestion_widgets widget_keys].
  repeat constructor; cbn [In]; intros H;
    repeat (destruct H as [H | H]; [vm_compute in H; discriminate|]); exact H.
Qed.

(** X14. A pass that no widget event triggered, on a history of entries that
    hold text, at most one block of suggestions each and no query block,
    with no stored suggestion, runs to its end without exception: it submits
    nothing, calls neither the analyst API nor the backend, leaves the
    history and the settings as they are and ends with no notification
    pending; if none was pending at the start the session state is
    unchanged.  The buttons it writes - the initial suggestions on an empty
    history, the suggestions of the conversation otherwise - have pairwise
    different keys. *)
Theorem idle_pass_changes_nothing env (w : World) :
  interaction env = NoInteraction ->
  active_suggestion (session_state w) = None ->
  Forall chat_entry (history w) ->
  fst (main_after_header env w) = Returns tt
  /\ history (snd (main_after_header env w)) = history w
  /\ active_suggestion (session_state (snd (main_after_header env w))) = None
  /\ japanese_response (session_state (snd (main_after_header env w)))
     = japanese_response (session_state w)
  /\ api_log (snd (main_after_header env w)) = api_log w
  /\ api_error_notify_pending (session_state (snd (main_after_header env w))) = false
  /\ (api_error_notify_pending (session_state w) = false ->
      session_state (snd (main_after_header env w)) = session_state w)
  /\ sql_log (snd (main_after_header env w)) = sql_log w
  /\ (exists widgets,
        page (snd (main_after_header env w)) = page w ++ widgets
        /\ NoDup (widget_keys widgets)).
Proof.
  intros I Hs Hr.
  assert (N : no_button_clicked env) by (intros key; rewrite I; discriminate).
  assert (Hchat : forall c text, st_chat_input env <> Some (c :: text))
    by (intros c text; unfold st_chat_input; rewrite I; discriminate).
  unfold main_after_header.
  rewrite (bind_returns _ (eq_refl : get_state w = (Returns (session_state w), w))).
  assert (A : exists wA first,
             (if Nat.eqb (List.length (messages (session_state w))) 0
              then display_initial_suggestions env
              else ret tt) w = (Returns tt, wA)
             /\ session_state wA = session_state w /\ api_log wA = api_log w
             /\ sql_log wA = sql_log w
             /\ page wA = page w ++ first
             /\ NoDup (widget_keys (first ++ conversation_widgets 0 (history w)))).
  { destruct (messages (session_state w)) as [|m ms] eqn:Em; cbn [List.length Nat.eqb].
    - exists (write_all initial_suggestion_widgets w), initial_suggestion_widgets.
      split; [now apply display_initial_suggestions_idle|].
      destruct (write_all_facts initial_suggestion_widgets w)
        as (_ & S1 & _ & L & G & P).
      repeat (split; [assumption|]).
      unfold history. rewrite Em. cbn [conversation_widgets].
      rewrite app_nil_r. apply initial_suggestion_keys_NoDup.
    - exists w, []. split; [reflexivity|]. repeat (split; [reflexivity|]).
      split; [now rewrite app_nil_r|].
      cbn [app]. now apply conversation_keys. }
  destruct A as (wA & first & EA & SA & LA & GA & PA & KA).
  rewrite (bind_returns _ EA).
  assert (HrA : Forall chat_entry (history wA)) by (unfold history; now rewrite SA).
  destruct (display_conversation_writes env wA HrA) as (RB & PB & GB & _).
  destruct (rendering_display_conversation env wA) as ((_ & _ & _ & _ & LB & _) & _ & SB).
  specialize (SB N).
  destruct (display_conversation env wA) as [oB wB] eqn:EB.
  cbn [fst snd] in RB, PB, GB, LB, SB.
  subst oB. rewrite (bind_returns _ EB).
  assert (HsB : active_suggestion (session_state wB) = None) by (now rewrite SB, SA).
  rewrite (bind_returns _ (handle_user_inputs_idle env wB Hchat HsB)).
  destruct (handle_error_notifications_facts wB) as (F1 & F2 & F3 & F4 & F5 & F6).
  destruct (handle_error_notifications_writes wB) as (F7 & F8).
  unfold history in *.
  split; [exact F1|]. split; [now rewrite F2, SB, SA|]. split; [now rewrite F3|].
  split; [now rewrite F4, SB, SA|]. split; [now rewrite F5, LB, LA|].
  split; [exact F6|]. split; [|split].
  - intros P. rewrite no_pending_notification_is_silent; [cbn; now rewrite SB|].
    now rewrite SB, SA.
  - now rewrite F8, GB, GA.
  - eexists. split.
    + rewrite F7, PB, PA, SA, <- !app_assoc. reflexivity.
    + rewrite app_assoc, widget_keys_app.
      replace (widget_keys
                 (if api_error_notify_pending (session_state wB)
                  then [StToast (u"APIエラーが発生しました！") (u"🚨")]
                  else [])) with (@nil pystr)
        by (now destruct (api_error_notify_pending (session_state wB))).
      rewrite app_nil_r. exact KA.
Qed.

Lemma idle_pass_changes_nothing_witness :
  fst (main_after_header (quiet_env success_reply) sample_conversation) = Returns tt
  /\ history (snd (main_after_header (quiet_env success_reply) sample_conversation))
     = history sample_conversation.
Proof.
  refine (let H := idle_pass_changes_nothing (quiet_env success_reply)
                     sample_conversation _ _ _ in
          conj (proj1 H) (proj1 (proj2 H))).
  - reflexivity.
  - reflexivity.
  - exact sample_conversation_entries.
Defined.
